(** * Carteiras de investimento: pipeline de métricas e modelo da mochila

    Shallow embedding of the portfolio optimiser:
    - [src/config.py]: the scenario presets, [obter_config] and
      [obter_diretorios_cenario];
    - [src/optimizer.py]: [PortfolioOptimizer.construir_modelo] (the MILP
      as a list of named linear constraints), [otimizar],
      [extrair_solucao] and [salvar_solucao];
    - [src/data_processor.py]: [CotacaoProcessor.processar_cotahist],
      [filtrar_acoes_principais], [calcular_retornos],
      [calcular_metricas] and [classificar_setores];
    - [src/results_analyzer.py]: the sector table of [imprimir_resumo].

    Numbers.  The floats of the optimiser are embedded as rationals
    [Q].  A cell of a pandas column is a [flutuante]: a finite number,
    an infinity or NaN; arithmetic on cells is exact on finite values.
    The routines of pandas and numpy that reduce or convert with
    rounding ([mean], [std], [np.sqrt], [np.log], [pd.to_numeric],
    [pd.to_datetime]) and [os.makedirs] are parameters of the
    definitions that call them: what is proved holds however they
    round; the worked examples compute them in exact arithmetic.  The
    MILP solver is external: it is represented by the assignment it
    hands back (the [.X] attribute of each variable), a function from
    variables to [Q]. *)

From Stdlib Require Import QArith Qround Qabs Lqa ZArith Lia List Sorted String Ascii Bool.
From stdpp Require Import gmap strings list fin_maps.

Open Scope Q_scope.

(** ** Python values and exceptions *)

(** The exceptions the embedded code can raise. *)
Inductive excecao :=
| KeyError (chave : string)
| ZeroDivisionError
| ValueError (msg : string)
| AttributeError (msg : string).

(** A computation that either returns or raises. *)
Inductive resultado (A : Type) :=
| Ok (a : A)
| Erro (e : excecao).
Arguments Ok {A} a.
Arguments Erro {A} e.

#[global] Instance resultado_ret : MRet resultado := λ A a, Ok a.
#[global] Instance resultado_fmap : FMap resultado := λ A B f r,
  match r with
  | Ok a => Ok (f a)
  | Erro e => Erro e
  end.
#[global] Instance resultado_bind : MBind resultado := λ A B k r,
  match r with
  | Ok a => k a
  | Erro e => Erro e
  end.

(** The values stored in a scenario dictionary. *)
Inductive valor :=
| VFloat (q : Q)
| VInt (z : Z)
| VBool (b : bool).

(** A Python value used as a number ([True] is [1]). *)
Definition num (v : valor) : Q :=
  match v with
  | VFloat q => q
  | VInt z => inject_Z z
  | VBool b => if b then 1 else 0
  end.

Definition Qlt_bool (a b : Q) : bool := negb (Qle_bool b a).

(** A Python value used as a condition. *)
Definition truthy (v : valor) : bool :=
  match v with
  | VFloat q => negb (Qeq_bool q 0)
  | VInt z => negb (Z.eqb z 0)
  | VBool b => b
  end.

(** [d[k]] *)
Definition getitem (d : gmap string valor) (k : string) : resultado valor :=
  match d !! k with
  | Some v => Ok v
  | None => Erro (KeyError k)
  end.

(** [d.get(k, default)] *)
Definition get (d : gmap string valor) (k : string) (default : valor) : valor :=
  match d !! k with
  | Some v => v
  | None => default
  end.

(** [int(x)] on a float: truncation towards zero. *)
Definition py_int (q : Q) : Z := Z.quot (Qnum q) (Zpos (Qden q)).

(** [round(x)] on a float: nearest integer, ties to the even one. *)
Definition py_round (q : Q) : Z :=
  let f := Qfloor q in
  let r := q - inject_Z f in
  if Qlt_bool r (1 # 2) then f
  else if Qlt_bool (1 # 2) r then (f + 1)%Z
  else if Z.even f then f else (f + 1)%Z.

(** ** src/config.py *)

Module Config.

Definition TIME_LIMIT : Z := 600.
Definition MIP_GAP : Q := 0.

Definition CENARIO_CONSERVADOR : gmap string valor :=
  list_to_map
    [ ("orcamento", VFloat 100000);
      ("risco_maximo", VFloat 0.25);
      ("retorno_minimo", VFloat 0.08);
      ("num_ativos_min", VInt 10);
      ("num_ativos_max", VInt 20);
      ("diversificacao_setor", VBool true);
      ("alpha_setor_min", VFloat 0);
      ("alpha_setor_max", VFloat 0.25);
      ("num_setores_min", VInt 4);
      ("max_ativo_pct", VFloat 0.20);
      ("excluir_retorno_negativo", VBool true) ]%string.

Definition CENARIO_MODERADO : gmap string valor :=
  list_to_map
    [ ("orcamento", VFloat 100000);
      ("risco_maximo", VFloat 0.35);
      ("retorno_minimo", VFloat 0.12);
      ("num_ativos_min", VInt 5);
      ("num_ativos_max", VInt 15);
      ("diversificacao_setor", VBool true);
      ("alpha_setor_min", VFloat 0);
      ("alpha_setor_max", VFloat 0.35);
      ("num_setores_min", VInt 3);
      ("max_ativo_pct", VFloat 0.40) ]%string.

Definition CENARIO_AGRESSIVO : gmap string valor :=
  list_to_map
    [ ("orcamento", VFloat 100000);
      ("risco_maximo", VFloat 0.50);
      ("retorno_minimo", VFloat 0.18);
      ("num_ativos_min", VInt 3);
      ("num_ativos_max", VInt 10);
      ("diversificacao_setor", VBool true);
      ("alpha_setor_min", VFloat 0);
      ("alpha_setor_max", VFloat 1);
      ("num_setores_min", VInt 2);
      ("max_ativo_pct", VFloat 0.60) ]%string.

(** The ten keys every preset defines. *)
Definition chaves_comuns : gset string :=
  list_to_set
    [ "orcamento"; "risco_maximo"; "retorno_minimo"; "num_ativos_min";
      "num_ativos_max"; "diversificacao_setor"; "alpha_setor_min";
      "alpha_setor_max"; "num_setores_min"; "max_ativo_pct" ]%string.

End Config.

(** A pandas float cell: a finite number, an infinity or NaN. *)
Inductive flutuante :=
| Fin (q : Q)
| PInf
| NInf
| NaN.

Definition isna (f : flutuante) : bool :=
  match f with
  | NaN => true
  | _ => false
  end.

Definition somaQ (l : list Q) : Q := foldr Qplus 0 l.
Arguments somaQ : simpl never.

(** ** src/optimizer.py: the model *)

Module Optimizer.

(** One row of the metrics frame; the index (the ticker) is unique, being
    the column index of a pivot. *)
Record Ativo := {
  ticker : string;
  nome_empresa : string;
  setor : string;
  retorno_esperado : Q;
  desvio_padrao : Q;
  sharpe_ratio : flutuante;
  preco_atual : Q
}.

(** Decision variables: [x[i]], [y[i]] and [z_setor[s]]. *)
Inductive Var :=
| x_var (i : string)
| y_var (i : string)
| z_setor (s : string).

(** A gurobipy linear expression: coefficient-variable terms and a constant. *)
Record LinExpr := {
  termos : list (Q * Var);
  constante : Q
}.

Definition var (v : Var) : LinExpr := {| termos := [(1, v)]; constante := 0 |}.
Definition cte (q : Q) : LinExpr := {| termos := []; constante := q |}.
Definition escala (k : Q) (e : LinExpr) : LinExpr :=
  {| termos := map (λ t, (k * t.1, t.2)) (termos e); constante := k * constante e |}.
Definition mais (e1 e2 : LinExpr) : LinExpr :=
  {| termos := termos e1 ++ termos e2; constante := constante e1 + constante e2 |}.
Definition menos (e1 e2 : LinExpr) : LinExpr := mais e1 (escala (-1) e2).
Definition quicksum (l : list LinExpr) : LinExpr := foldr mais (cte 0) l.

(** The value of an expression under an assignment. *)
Definition valor_expr (a : Var → Q) (e : LinExpr) : Q :=
  somaQ (map (λ t, t.1 * a t.2) (termos e)) + constante e.

Inductive Sense := LE | GE | EQ.

(** [model.addConstr(lhs sense rhs, name=nome)] *)
Record Constr := {
  nome : string;
  lhs : LinExpr;
  sense : Sense;
  rhs : LinExpr
}.

Definition satisfaz (a : Var → Q) (c : Constr) : Prop :=
  match sense c with
  | LE => valor_expr a (lhs c) <= valor_expr a (rhs c)
  | GE => valor_expr a (rhs c) <= valor_expr a (lhs c)
  | EQ => valor_expr a (lhs c) == valor_expr a (rhs c)
  end.

Definition satisfaz_b (a : Var → Q) (c : Constr) : bool :=
  match sense c with
  | LE => Qle_bool (valor_expr a (lhs c)) (valor_expr a (rhs c))
  | GE => Qle_bool (valor_expr a (rhs c)) (valor_expr a (lhs c))
  | EQ => Qeq_bool (valor_expr a (lhs c)) (valor_expr a (rhs c))
  end.

(** The built model: [addVars] with [vtype=GRB.BINARY] and with
    [vtype=GRB.INTEGER, lb=0], the objective (maximised) and the
    constraints in the order they are added. *)
Record Modelo := {
  binarias : list Var;
  inteiras : list Var;
  objetivo : LinExpr;
  restricoes : list Constr
}.

Definition binaria (a : Var → Q) (v : Var) : Prop := a v == 0 ∨ a v == 1.
Definition inteira_nn (a : Var → Q) (v : Var) : Prop :=
  ∃ n : Z, (0 ≤ n)%Z ∧ a v == inject_Z n.

Definition binaria_b (a : Var → Q) (v : Var) : bool :=
  Qeq_bool (a v) 0 || Qeq_bool (a v) 1.
Definition inteira_nn_b (a : Var → Q) (v : Var) : bool :=
  Qle_bool 0 (a v) && Qeq_bool (a v) (inject_Z (Qfloor (a v))).

(** An assignment the model accepts: every variable in its domain and
    every constraint satisfied, exactly. *)
Definition viavel (m : Modelo) (a : Var → Q) : Prop :=
  Forall (binaria a) (binarias m) ∧
  Forall (inteira_nn a) (inteiras m) ∧
  Forall (satisfaz a) (restricoes m).

Definition viavel_b (m : Modelo) (a : Var → Q) : bool :=
  forallb (binaria_b a) (binarias m) &&
  forallb (inteira_nn_b a) (inteiras m) &&
  forallb (satisfaz_b a) (restricoes m).

(** [Series.unique()]: distinct values in order of first appearance. *)
Fixpoint unique_aux (vistos : list string) (l : list string) : list string :=
  match l with
  | [] => []
  | s :: r =>
      if existsb (String.eqb s) vistos then unique_aux vistos r
      else s :: unique_aux (s :: vistos) r
  end.
Definition unique (l : list string) : list string := unique_aux [] l.

(** [min(preco.values())] for a non-empty dictionary. *)
Definition min_preco (p : Q) (ps : list Q) : Q :=
  fold_left (λ m q, if Qlt_bool q m then q else m) ps p.

(** [int(B / min(preco.values())) if preco else 1000] *)
Definition max_lotes (metricas : list Ativo) (B : Q) : resultado Z :=
  match map preco_atual metricas with
  | [] => Ok 1000%Z
  | p :: ps =>
      let m := min_preco p ps in
      if Qeq_bool m 0 then Erro ZeroDivisionError else Ok (py_int (B / m))
  end.

Definition gasto (i : Ativo) : LinExpr := escala (preco_atual i) (var (y_var (ticker i))).

(** The sector block of [construir_modelo] for one sector [s]. *)
Definition restricoes_setor (metricas : list Ativo) (B alpha_min alpha_max : Q)
    (s : string) : list Constr :=
  let ativos_setor := List.filter (λ i, String.eqb (setor i) s) metricas in
  match ativos_setor with
  | [] => []
  | _ =>
      let investimento_setor := quicksum (map gasto ativos_setor) in
      [ {| nome := "setor_" +:+ s +:+ "_max";
           lhs := investimento_setor; sense := LE; rhs := cte (alpha_max * B) |};
        {| nome := "setor_" +:+ s +:+ "_ativa";
           lhs := investimento_setor; sense := LE; rhs := escala B (var (z_setor s)) |} ]
      ++ (if Qlt_bool 0 alpha_min
          then [ {| nome := "setor_" +:+ s +:+ "_min";
                    lhs := investimento_setor; sense := GE;
                    rhs := escala (alpha_min * B) (var (z_setor s)) |} ]
          else [])
  end.

Definition restricoes_diversificacao (metricas : list Ativo) (config : gmap string valor)
    (B : Q) : list Var * list Constr :=
  if truthy (get config "diversificacao_setor" (VBool false)) then
    let setores := unique (map setor metricas) in
    let alpha_min := num (get config "alpha_setor_min" (VFloat 0)) in
    let alpha_max := num (get config "alpha_setor_max" (VFloat 0.3)) in
    let num_setores_min := num (get config "num_setores_min" (VInt 1)) in
    (map z_setor setores,
     flat_map (restricoes_setor metricas B alpha_min alpha_max) setores
     ++ [ {| nome := "num_setores_min";
             lhs := quicksum (map (λ s, var (z_setor s)) setores);
             sense := GE; rhs := cte num_setores_min |} ])
  else ([], []).

Definition restricoes_max_ativo (metricas : list Ativo) (config : gmap string valor)
    (B : Q) : list Constr :=
  let max_ativo_pct := num (get config "max_ativo_pct" (VFloat 1)) in
  if Qlt_bool max_ativo_pct 1 then
    map (λ i, {| nome := "max_ativo_" +:+ ticker i;
                 lhs := gasto i; sense := LE; rhs := cte (max_ativo_pct * B) |}) metricas
  else [].

Definition restricoes_negativos (metricas : list Ativo) (config : gmap string valor)
    : list Constr :=
  let excluir_negativos := get config "excluir_retorno_negativo" (VBool true) in
  if truthy excluir_negativos then
    let negativos := List.filter (λ i, Qlt_bool (retorno_esperado i) 0) metricas in
    map (λ i, {| nome := "no_negative_" +:+ ticker i;
                 lhs := var (y_var (ticker i)); sense := EQ; rhs := cte 0 |}) negativos
  else [].

Definition restricoes_consistencia (metricas : list Ativo) (M : Z) : list Constr :=
  flat_map (λ i,
    [ {| nome := "consistencia_max_" +:+ ticker i;
         lhs := var (y_var (ticker i)); sense := LE;
         rhs := escala (inject_Z M) (var (x_var (ticker i))) |};
      {| nome := "consistencia_min_" +:+ ticker i;
         lhs := var (y_var (ticker i)); sense := GE;
         rhs := escala 1 (var (x_var (ticker i))) |} ]) metricas.

(** [PortfolioOptimizer.construir_modelo] *)
Definition construir_modelo (metricas : list Ativo) (config : gmap string valor)
    : resultado Modelo :=
  B ← num <$> getitem config "orcamento";
  R ← num <$> getitem config "risco_maximo";
  T ← num <$> getitem config "retorno_minimo";
  L_min ← num <$> getitem config "num_ativos_min";
  L_max ← num <$> getitem config "num_ativos_max";
  let I := metricas in
  let total := quicksum (map gasto I) in
  let base :=
    [ {| nome := "orcamento"; lhs := total; sense := LE; rhs := cte B |};
      {| nome := "risco";
         lhs := menos (quicksum (map (λ i, escala (desvio_padrao i) (gasto i)) I))
                      (escala R total);
         sense := LE; rhs := cte 0 |};
      {| nome := "retorno_min";
         lhs := menos (quicksum (map (λ i, escala (retorno_esperado i) (gasto i)) I))
                      (escala T total);
         sense := GE; rhs := cte 0 |};
      {| nome := "min_ativos";
         lhs := quicksum (map (λ i, var (x_var (ticker i))) I);
         sense := GE; rhs := cte L_min |};
      {| nome := "max_ativos";
         lhs := quicksum (map (λ i, var (x_var (ticker i))) I);
         sense := LE; rhs := cte L_max |} ] in
  let div := restricoes_diversificacao I config B in
  let max_ativo := restricoes_max_ativo I config B in
  let negativos := restricoes_negativos I config in
  M ← max_lotes I B;
  mret {| binarias := map (λ i, x_var (ticker i)) I ++ div.1;
          inteiras := map (λ i, y_var (ticker i)) I;
          objetivo := quicksum (map (λ i, escala (retorno_esperado i) (gasto i)) I);
          restricoes := base ++ div.2 ++ max_ativo ++ negativos
                        ++ restricoes_consistencia I M |}.

(** *** The solver and the extraction of the solution *)

(** One dictionary appended to [carteira]. *)
Record ItemCarteira := {
  it_ticker : string;
  it_nome : string;
  it_setor : string;
  it_preco : Q;
  it_quantidade : Z;
  it_investimento : Q;
  it_retorno_esperado : Q;
  it_desvio_padrao : Q;
  it_sharpe_ratio : flutuante
}.

Definition chaves_item : list string :=
  [ "ticker"; "nome"; "setor"; "preco"; "quantidade"; "investimento";
    "retorno_esperado"; "desvio_padrao"; "sharpe_ratio" ].

(** [pd.DataFrame(carteira)] for a list of dictionaries: the columns are
    the keys of the dictionaries, so an empty list gives a frame with no
    column at all. *)
Record DataFrame := {
  colunas : list string;
  linhas : list ItemCarteira
}.

Definition DataFrame_de (carteira : list ItemCarteira) : DataFrame :=
  {| colunas := match carteira with [] => [] | _ => chaves_item end;
     linhas := carteira |}.

(** [df['investimento']] *)
Definition coluna_investimento (df : DataFrame) : resultado (list Q) :=
  if existsb (String.eqb "investimento") (colunas df)
  then Ok (map it_investimento (linhas df))
  else Erro (KeyError "investimento").

Record Solucao := {
  carteira : DataFrame;
  num_ativos : nat;
  retorno_total : Q;
  risco_total : Q;
  sharpe_carteira : Q;
  investimento_total : Q;
  funcao_objetivo : Q;
  gap : Q;
  tempo_exec : Q
}.

Inductive Status := OPTIMAL | TIME_LIMIT | INFEASIBLE | OUTRO.

(** What the solver leaves in the model after [optimize()]: the status,
    the incumbent (absent when none was found) and the run attributes. *)
Record Resolvido := {
  status : Status;
  X : option (Var → Q);
  ObjVal : Q;
  MIPGap : Q;
  Runtime : Q
}.

Definition selecionado (a : Var → Q) (i : Ativo) : bool :=
  Qlt_bool (1 # 2) (a (x_var (ticker i))).

Definition item_carteira (a : Var → Q) (ativo : Ativo) : ItemCarteira :=
  let quantidade := py_round (a (y_var (ticker ativo))) in
  let preco_unitario := preco_atual ativo in
  let investimento := inject_Z quantidade * preco_unitario in
  {| it_ticker := ticker ativo;
     it_nome := nome_empresa ativo;
     it_setor := setor ativo;
     it_preco := preco_unitario;
     it_quantidade := quantidade;
     it_investimento := investimento;
     it_retorno_esperado := retorno_esperado ativo;
     it_desvio_padrao := desvio_padrao ativo;
     it_sharpe_ratio := sharpe_ratio ativo |}.

(** [PortfolioOptimizer.extrair_solucao], on the incumbent [a]. *)
Definition extrair_solucao (metricas : list Ativo) (a : Var → Q) (r : Resolvido)
    : resultado Solucao :=
  let ativos_selecionados := List.filter (selecionado a) metricas in
  let carteira := map (item_carteira a) ativos_selecionados in
  let df_carteira := DataFrame_de carteira in
  investimento_total ← somaQ <$> coluna_investimento df_carteira;
  let retorno_total :=
    if Qlt_bool 0 investimento_total
    then somaQ (map (λ i, retorno_esperado i * preco_atual i * a (y_var (ticker i)))
                    ativos_selecionados) / investimento_total
    else 0 in
  let risco_total :=
    if Qlt_bool 0 investimento_total
    then somaQ (map (λ i, desvio_padrao i * preco_atual i * a (y_var (ticker i)))
                    ativos_selecionados) / investimento_total
    else 0 in
  mret {| carteira := df_carteira;
          num_ativos := length ativos_selecionados;
          retorno_total := retorno_total;
          risco_total := risco_total;
          sharpe_carteira :=
            if Qlt_bool 0 risco_total then retorno_total / risco_total else 0;
          investimento_total := investimento_total;
          funcao_objetivo := ObjVal r;
          gap := MIPGap r;
          tempo_exec := Runtime r |}.

(** [PortfolioOptimizer.otimizar] after [self.model.optimize()] has left
    [r]: [None] for an infeasible or unknown status, the extracted
    solution otherwise.  Reading [.X] without an incumbent raises. *)
Definition otimizar (metricas : list Ativo) (r : Resolvido)
    : resultado (option Solucao) :=
  match status r with
  | OPTIMAL | TIME_LIMIT =>
      match X r, metricas with
      | Some a, _ => Some <$> extrair_solucao metricas a r
      | None, [] => Erro (KeyError "investimento")
      | None, _ :: _ => Erro (AttributeError "X")
      end
  | INFEASIBLE | OUTRO => Ok None
  end.

End Optimizer.

(** ** src/data_processor.py *)

Module DataProcessor.

(** *** Float cells *)

(** Arithmetic on float cells as numpy performs it on a column, exact on
    finite values: NaN is absorbing, an infinity keeps its sign,
    [inf - inf] and [0 * inf] are NaN, and nothing is ever raised. *)
Definition fneg (a : flutuante) : flutuante :=
  match a with
  | Fin x => Fin (- x)
  | PInf => NInf
  | NInf => PInf
  | NaN => NaN
  end.

Definition fadd (a b : flutuante) : flutuante :=
  match a, b with
  | NaN, _ | _, NaN => NaN
  | Fin x, Fin y => Fin (x + y)
  | Fin _, PInf | PInf, Fin _ | PInf, PInf => PInf
  | Fin _, NInf | NInf, Fin _ | NInf, NInf => NInf
  | PInf, NInf | NInf, PInf => NaN
  end.

Definition fsub (a b : flutuante) : flutuante := fadd a (fneg b).

(** The product of an infinity and the finite [x]. *)
Definition inf_vezes (positivo : bool) (x : Q) : flutuante :=
  if Qlt_bool 0 x then (if positivo then PInf else NInf)
  else if Qlt_bool x 0 then (if positivo then NInf else PInf)
  else NaN.

Definition fmul (a b : flutuante) : flutuante :=
  match a, b with
  | NaN, _ | _, NaN => NaN
  | Fin x, Fin y => Fin (x * y)
  | Fin x, PInf | PInf, Fin x => inf_vezes true x
  | Fin x, NInf | NInf, Fin x => inf_vezes false x
  | PInf, PInf | NInf, NInf => PInf
  | PInf, NInf | NInf, PInf => NInf
  end.

(** A division by zero gives an infinity, or NaN for [0/0]. *)
Definition fdiv (a b : flutuante) : flutuante :=
  match a, b with
  | NaN, _ | _, NaN => NaN
  | Fin x, Fin y =>
      if Qeq_bool y 0 then
        if Qlt_bool 0 x then PInf else if Qlt_bool x 0 then NInf else NaN
      else Fin (x / y)
  | Fin _, (PInf | NInf) => Fin 0
  | (PInf | NInf), (PInf | NInf) => NaN
  | PInf, Fin y => if Qlt_bool y 0 then NInf else PInf
  | NInf, Fin y => if Qlt_bool y 0 then PInf else NInf
  end.

(** [a >= q] on a float cell: false on NaN. *)
Definition fge (a : flutuante) (q : Q) : bool :=
  match a with
  | Fin x => Qle_bool q x
  | PInf => true
  | NInf | NaN => false
  end.

(** The cells of a column that are not missing. *)
Definition validos (col : list flutuante) : list flutuante :=
  List.filter (λ c, negb (isna c)) col.

(** *** processar_cotahist *)

Definition colunas_spec : list (string * nat * nat) :=
  [ ("tipo_registro", 0, 2); ("data_pregao", 2, 10); ("cod_bdi", 10, 12);
    ("ticker", 12, 24); ("tipo_mercado", 24, 27); ("nome_empresa", 27, 39);
    ("especificacao", 39, 49); ("prazo_dias", 49, 52); ("moeda", 52, 56);
    ("preco_abertura", 56, 69); ("preco_maximo", 69, 82); ("preco_minimo", 82, 95);
    ("preco_medio", 95, 108); ("preco_ultimo", 108, 121);
    ("preco_melhor_compra", 121, 134); ("preco_melhor_venda", 134, 147);
    ("total_negocios", 147, 152); ("quantidade_negociada", 152, 170);
    ("volume_total", 170, 188); ("preco_exercicio", 188, 201);
    ("indicador_correcao", 201, 202); ("data_vencimento", 202, 210);
    ("fator_cotacao", 210, 217); ("preco_exercicio_pontos", 217, 230);
    ("isin", 230, 242); ("distribuicao", 242, 245) ]%nat.

(** [linha[inicio:fim]] for [0 <= inicio <= fim]: clamped to the line. *)
Definition fatia (linha : string) (inicio fim : nat) : string :=
  String.substring inicio (fim - inicio) linha.

(** [str.isspace] on the characters of a latin1 line. *)
Definition isspace (c : ascii) : bool :=
  let n := N_of_ascii c in
  ((9 <=? n) && (n <=? 13) || (28 <=? n) && (n <=? 32) || (n =? 133) || (n =? 160))%N.

Fixpoint lstrip (s : string) : string :=
  match s with
  | EmptyString => EmptyString
  | String c r => if isspace c then lstrip r else s
  end.

Fixpoint rstrip (s : string) : string :=
  match s with
  | EmptyString => EmptyString
  | String c r =>
      match rstrip r with
      | EmptyString => if isspace c then EmptyString else String c EmptyString
      | r' => String c r'
      end
  end.

(** [s.strip()] *)
Definition strip (s : string) : string := rstrip (lstrip s).

(** The dictionary built for one line of type [01]. *)
Definition registro (linha : string) : gmap string string :=
  list_to_map (map (λ c, (c.1.1, strip (fatia linha c.1.2 c.2))) colunas_spec).

(** One turn of the reading loop: what the line adds to [dados]. *)
Definition processar_linha (linha : string) : list (gmap string string) :=
  if String.prefix "00" linha || String.prefix "99" linha then []
  else if String.prefix "01" linha then [registro linha]
  else [].

Definition campo (reg : gmap string string) (nome : string) : string :=
  default EmptyString (reg !! nome).

Definition isdigit (c : ascii) : bool :=
  let n := N_of_ascii c in ((48 <=? n) && (n <=? 57))%N.

Fixpoint so_digitos (s : string) : bool :=
  match s with
  | EmptyString => true
  | String c r => isdigit c && so_digitos r
  end.

(** The integer a string of decimal digits denotes. *)
Fixpoint valor_decimal_aux (acc : N) (s : string) : N :=
  match s with
  | EmptyString => acc
  | String c r => valor_decimal_aux (10 * acc + (N_of_ascii c - 48))%N r
  end.
Definition valor_decimal (s : string) : N := valor_decimal_aux 0 s.

Section Cotahist.

(** The two pandas converters are taken as given: [pd.to_datetime] with
    [format='%Y%m%d'] raises on a cell it cannot read, and
    [pd.to_numeric] with [errors='coerce'] returns a float cell for
    every string, NaN for one it cannot read (a cell such as [inf] is
    read, as an infinity). *)
Variable Timestamp : Type.
Variable to_datetime : string → resultado Timestamp.
Variable to_numeric : string → flutuante.
Variable data_leb : Timestamp → Timestamp → bool.

(** A row of [df] after the column conversions: [campos] is the record
    as read (every column as a string), the converted columns stand
    beside it. *)
Record Cotacao := {
  campos : gmap string string;
  data_pregao : Timestamp;
  preco_abertura : flutuante;
  preco_maximo : flutuante;
  preco_minimo : flutuante;
  preco_medio : flutuante;
  preco_ultimo : flutuante;
  volume_total : flutuante;
  quantidade_negociada : flutuante;
  total_negocios : flutuante;
  ticker : string;
  nome_empresa : string
}.

(** [pd.to_numeric(df[campo], errors='coerce') / 100] on one cell. *)
Definition centavos (s : string) : flutuante := fdiv (to_numeric s) (Fin 100).

Definition converter (reg : gmap string string) : resultado Cotacao :=
  d ← to_datetime (campo reg "data_pregao");
  mret {| campos := reg;
          data_pregao := d;
          preco_abertura := centavos (campo reg "preco_abertura");
          preco_maximo := centavos (campo reg "preco_maximo");
          preco_minimo := centavos (campo reg "preco_minimo");
          preco_medio := centavos (campo reg "preco_medio");
          preco_ultimo := centavos (campo reg "preco_ultimo");
          volume_total := centavos (campo reg "volume_total");
          quantidade_negociada := to_numeric (campo reg "quantidade_negociada");
          total_negocios := to_numeric (campo reg "total_negocios");
          ticker := strip (campo reg "ticker");
          nome_empresa := strip (campo reg "nome_empresa") |}.

(** The six columns divided by 100, by name. *)
Definition campos_escalados : list (string * (Cotacao → flutuante)) :=
  [ ("preco_abertura", preco_abertura); ("preco_maximo", preco_maximo);
    ("preco_minimo", preco_minimo); ("preco_medio", preco_medio);
    ("preco_ultimo", preco_ultimo); ("volume_total", volume_total) ].

Definition chave_leb (c1 c2 : Cotacao) : bool :=
  if data_leb (data_pregao c1) (data_pregao c2)
  then if data_leb (data_pregao c2) (data_pregao c1)
       then String.leb (ticker c1) (ticker c2)
       else true
  else false.

Fixpoint inserir (c : Cotacao) (l : list Cotacao) : list Cotacao :=
  match l with
  | [] => [c]
  | d :: r => if chave_leb c d then c :: l else d :: inserir c r
  end.

(** [df.sort_values(['data_pregao', 'ticker'])] *)
Definition sort_values (l : list Cotacao) : list Cotacao := foldr inserir [] l.

(** [CotacaoProcessor.processar_cotahist] on the lines of the file.  A
    frame built from no record has no column, and selecting
    [data_pregao] from it raises. *)
Definition processar_cotahist (linhas : list string) : resultado (list Cotacao) :=
  let dados := flat_map processar_linha linhas in
  match dados with
  | [] => Erro (KeyError "data_pregao")
  | _ => sort_values <$> mapM converter dados
  end.

End Cotahist.

(** *** calcular_metricas *)

(** The columns of [df_acoes] that [calcular_metricas] reads. *)
Record Negocio := {
  n_ticker : string;
  n_preco_ultimo : flutuante;
  n_volume_total : flutuante;
  n_nome_empresa : string
}.

Definition grupo (df_acoes : list Negocio) (t : string) : list Negocio :=
  List.filter (λ n, String.eqb (n_ticker n) t) df_acoes.

(** One row of [metricas]. *)
Record Metrica := {
  m_ticker : string;
  m_retorno_esperado : flutuante;
  m_desvio_padrao : flutuante;
  m_sharpe_ratio : flutuante;
  m_preco_atual : flutuante;
  m_volume_medio : flutuante;
  m_nome_empresa : option string
}.

(** What [DataFrame.dropna()] looks at: a row goes when any cell is
    missing; an infinity is not a missing value. *)
Definition tem_na (m : Metrica) : bool :=
  isna (m_retorno_esperado m) || isna (m_desvio_padrao m) || isna (m_sharpe_ratio m)
  || isna (m_preco_atual m) || isna (m_volume_medio m)
  || match m_nome_empresa m with None => true | Some _ => false end.

Definition dropna (l : list Metrica) : list Metrica := List.filter (λ m, negb (tem_na m)) l.

Section Reducoes.

(** The reductions of a column of float cells to one cell,
    [DataFrame.mean], [DataFrame.std] and the mean of a group, and
    [np.sqrt], are the floating-point routines of pandas and numpy; they
    are taken as given, so that nothing proved about [calcular_metricas]
    depends on how they round. *)
Variable mean : list flutuante → flutuante.
Variable std : list flutuante → flutuante.
Variable grupo_mean : list flutuante → flutuante.
Variable sqrt : Q → flutuante.

(** The row of ticker [t].  The three columns taken from [df_acoes] are
    aligned on the ticker: a ticker without a row there gets missing
    cells. *)
Definition linha_metrica (df_acoes : list Negocio) (dias_anualizacao : Q)
    (t : string) (retornos : list flutuante) : Metrica :=
  let retorno_esperado := fmul (mean retornos) (Fin dias_anualizacao) in
  let desvio_padrao := fmul (std retornos) (sqrt dias_anualizacao) in
  {| m_ticker := t;
     m_retorno_esperado := retorno_esperado;
     m_desvio_padrao := desvio_padrao;
     m_sharpe_ratio := fdiv retorno_esperado desvio_padrao;
     m_preco_atual := default NaN (last (validos (map n_preco_ultimo (grupo df_acoes t))));
     m_volume_medio :=
       match grupo df_acoes t with
       | [] => NaN
       | g => grupo_mean (map n_volume_total g)
       end;
     m_nome_empresa := head (map n_nome_empresa (grupo df_acoes t)) |}.

(** [CotacaoProcessor.calcular_metricas]: [df_retornos] is given by its
    columns (one per ticker), [df_acoes] by its rows in date order. *)
Definition calcular_metricas (df_retornos : list (string * list flutuante))
    (df_acoes : list Negocio) (dias_anualizacao : Q) : list Metrica :=
  dropna (map (λ c, linha_metrica df_acoes dias_anualizacao c.1 c.2) df_retornos).

End Reducoes.

(** *** The reductions in exact arithmetic *)

(** The same reductions computed without rounding, for the worked
    examples: missing cells are skipped, the sum of the rest is divided
    by their number. *)
Module Exato.

Definition soma (v : list flutuante) : flutuante := foldr fadd (Fin 0) v.

Definition contagem (v : list flutuante) : Q := inject_Z (Z.of_nat (length v)).

(** NaN when no cell is left. *)
Definition mean (col : list flutuante) : flutuante :=
  match validos col with
  | [] => NaN
  | v => fdiv (soma v) (Fin (contagem v))
  end.

(** The sample variance ([ddof=1]): NaN with fewer than two cells. *)
Definition var (col : list flutuante) : flutuante :=
  match validos col with
  | [] | [_] => NaN
  | v =>
      let m := fdiv (soma v) (Fin (contagem v)) in
      fdiv (soma (map (λ r, fmul (fsub r m) (fsub r m)) v)) (Fin (contagem v - 1))
  end.

(** The square root of [n/d] as [sqrt (n * d) / d], rounded down at
    twelve decimal places of the numerator: zero at zero only. *)
Definition raiz (q : Q) : Q :=
  Z.sqrt (Qnum q * Zpos (Qden q) * 10 ^ 24) # (Qden q * 10 ^ 12).

Definition sqrt (q : Q) : flutuante :=
  if Qlt_bool q 0 then NaN else Fin (raiz q).

Definition std (col : list flutuante) : flutuante :=
  match var col with
  | Fin v => sqrt v
  | PInf => PInf
  | NInf | NaN => NaN
  end.

End Exato.

End DataProcessor.

(** ** Quantities the statements below speak about *)

Module Carteira.
Import Optimizer.

(** The money an assignment puts into sector [s]. *)
Definition investimento_setor (metricas : list Ativo) (a : Var → Q) (s : string) : Q :=
  somaQ (map (λ i, preco_atual i * a (y_var (ticker i)))
             (List.filter (λ i, String.eqb (setor i) s) metricas)).

(** The sectors that carry investment under an assignment. *)
Definition setores_investidos (metricas : list Ativo) (a : Var → Q) : list string :=
  List.filter (λ s, Qlt_bool 0 (investimento_setor metricas a s))
              (unique (map setor metricas)).

(** The investment-weighted average of [f] over the line items of a
    portfolio, with the realised quantities as weights. *)
Definition media_ponderada (f : ItemCarteira → Q) (df : DataFrame) : Q :=
  somaQ (map (λ it, f it * it_preco it * inject_Z (it_quantidade it)) (linhas df))
  / somaQ (map it_investimento (linhas df)).

End Carteira.

Module Metricas.
Import DataProcessor.

(** A row whose volatility is strictly positive. *)
Definition volatilidade_positiva (m : Metrica) : Prop :=
  match m_desvio_padrao m with
  | Fin v => 0 < v
  | PInf => True
  | NInf | NaN => False
  end.

(** A row whose volatility is not negative. *)
Definition volatilidade_nao_negativa (m : Metrica) : Prop :=
  match m_desvio_padrao m with
  | Fin v => 0 <= v
  | PInf => True
  | NInf | NaN => False
  end.

(** A cell holding an infinity. *)
Definition infinito (f : flutuante) : Prop := f = PInf ∨ f = NInf.

End Metricas.

(** ** Worked universes, scenarios and solver outputs *)

Module Exemplos.
Import Optimizer.

Definition Var_eqb (v w : Var) : bool :=
  match v, w with
  | x_var i, x_var j | y_var i, y_var j | z_setor i, z_setor j => String.eqb i j
  | _, _ => false
  end.

(** The assignment that gives the listed variables their value and every
    other variable [0]. *)
Fixpoint atribuicao (l : list (Var * Q)) (v : Var) : Q :=
  match l with
  | [] => 0
  | (w, q) :: r => if Var_eqb w v then q else atribuicao r v
  end.

Definition ativo (t s : string) (mu sigma p : Q) : Ativo :=
  {| ticker := t; nome_empresa := t; setor := s;
     retorno_esperado := mu; desvio_padrao := sigma;
     sharpe_ratio := Fin (mu / sigma); preco_atual := p |}.

(** Three assets: A (price 100, return 0.20, risk 0.10), B (price 50,
    return 0.15, risk 0.20) and C (price 200, return -0.05, risk 0.05). *)
Definition ativo_A : Ativo := ativo "AAAA3" "Financeiro" 0.20 0.10 100.
Definition ativo_B : Ativo := ativo "BBBB4" "Energia" 0.15 0.20 50.
Definition ativo_C : Ativo := ativo "CCCC3" "Energia" (-0.05) 0.05 200.
Definition universo : list Ativo := [ativo_A; ativo_B; ativo_C].

(** Budget 10000, risk cap 0.25, return floor 0.10, one or two assets;
    no other key. *)
Definition cenario (L_min : Z) : gmap string valor :=
  list_to_map
    [ ("orcamento", VFloat 10000); ("risco_maximo", VFloat 0.25);
      ("retorno_minimo", VFloat 0.10); ("num_ativos_min", VInt L_min);
      ("num_ativos_max", VInt 2) ]%string.

(** 50 lots of A and 100 lots of B. *)
Definition compra_AB : Var → Q :=
  atribuicao [ (x_var "AAAA3", 1); (y_var "AAAA3", 50);
               (x_var "BBBB4", 1); (y_var "BBBB4", 100) ].

(** Nothing bought. *)
Definition compra_nada : Var → Q := atribuicao [].

(** One lot of A, returned by the solver as [1 + 1e-10]: integral within
    the [IntFeasTol = 1e-9] that [otimizar] sets. *)
Definition compra_A_quase_inteira : Var → Q :=
  atribuicao [ (x_var "AAAA3", 1); (y_var "AAAA3", 1 + (1 # 10000000000)) ].

(** The model built for a universe and a scenario (an empty model when
    the construction raises). *)
Definition modelo_de (metricas : list Ativo) (config : gmap string valor) : Modelo :=
  match construir_modelo metricas config with
  | Ok m => m
  | Erro _ => {| binarias := []; inteiras := []; objetivo := cte 0; restricoes := [] |}
  end.

Definition resolvido (a : Var → Q) : Resolvido :=
  {| status := OPTIMAL; X := Some a; ObjVal := 0; MIPGap := 0; Runtime := 1 |}.

(** What [otimizar] returns on a solver output (an empty solution when it
    returns none or raises). *)
Definition solucao_de (metricas : list Ativo) (r : Resolvido) : Solucao :=
  match otimizar metricas r with
  | Ok (Some sol) => sol
  | _ => {| carteira := DataFrame_de []; num_ativos := 0; retorno_total := 0;
            risco_total := 0; sharpe_carteira := 0; investimento_total := 0;
            funcao_objetivo := 0; gap := 0; tempo_exec := 0 |}
  end.

(** Three assets of one sector and one of another, for the aggressive
    preset. *)
Definition universo_setores : list Ativo :=
  [ ativo "FINA3" "Financeiro" 0.20 0.30 100;
    ativo "FINB4" "Financeiro" 0.20 0.30 100;
    ativo "FINC3" "Financeiro" 0.20 0.30 100;
    ativo "ENEA3" "Energia" 0.20 0.30 100 ].

(** One lot of each financial asset, none of the energy asset, both
    sector indicators raised. *)
Definition compra_um_setor : Var → Q :=
  atribuicao [ (x_var "FINA3", 1); (y_var "FINA3", 1);
               (x_var "FINB4", 1); (y_var "FINB4", 1);
               (x_var "FINC3", 1); (y_var "FINC3", 1);
               (z_setor "Financeiro", 1); (z_setor "Energia", 1) ].

(** A converter for cells made of decimal digits only, the content of
    the numeric fields of a tape line; any other cell is left unread. *)
Definition to_numeric_digitos (s : string) : flutuante :=
  match s with
  | EmptyString => NaN
  | _ => if DataProcessor.so_digitos s
         then Fin (inject_Z (Z.of_N (DataProcessor.valor_decimal s)))
         else NaN
  end.

(** A date cell read as the number its eight digits denote. *)
Definition to_datetime_digitos (s : string) : resultado N :=
  if DataProcessor.so_digitos s && Nat.eqb (String.length s) 8
  then Ok (DataProcessor.valor_decimal s)
  else Erro (ValueError s).

Definition repetir (n : nat) (c : ascii) : string :=
  string_of_list_ascii (List.repeat c n).

(** A 245-character line of type [01]: PETR4 on 2024-01-02, opening at
    37.38 and closing at 37.78, with a volume of 1234567.89; the cell of
    the lowest price holds an asterisk. *)
Definition linha_petr4 : string :=
  ("01" +:+ "20240102" +:+ "02" +:+ "PETR4       " +:+ "010" +:+ "PETROBRAS   "
   +:+ "PN      N2" +:+ "   " +:+ "R$  "
   +:+ "0000000003738" +:+ "0000000003790" +:+ "            *"
   +:+ "0000000003760" +:+ "0000000003778"
   +:+ "0000000003777" +:+ "0000000003778"
   +:+ "12345" +:+ "000000000012345678" +:+ "000000000123456789"
   +:+ repetir 57 "0")%string.

(** Two days of the same log return for one ticker (the first row of a
    returns frame is always missing). *)
Definition retornos_constantes : list (string * list flutuante) :=
  [ ("AAAA3"%string, [NaN; Fin 0.01; Fin 0.01]) ].

Definition negocios_constantes : list DataProcessor.Negocio :=
  [ DataProcessor.Build_Negocio "AAAA3" (Fin 10) (Fin 2000000) "EMPRESA A";
    DataProcessor.Build_Negocio "AAAA3" (Fin 10.1) (Fin 2000000) "EMPRESA A";
    DataProcessor.Build_Negocio "AAAA3" (Fin 10.2) (Fin 2000000) "EMPRESA A" ].

End Exemplos.

(** ** Further quantities of the optimizer *)

Module Leitura.
Import Optimizer.

(** The keys [construir_modelo] reads with [self.config[...]], in the
    order it reads them. *)
Definition chaves_obrigatorias : list string :=
  [ "orcamento"; "risco_maximo"; "retorno_minimo"; "num_ativos_min"; "num_ativos_max" ].

(** The rows of the portfolio frame that belong to sector [s]. *)
Definition linhas_setor (df : DataFrame) (s : string) : list ItemCarteira :=
  List.filter (λ it, String.eqb (it_setor it) s) (linhas df).

End Leitura.

(** ** Further worked instances *)

Module Exemplos2.
Import Optimizer Exemplos.

(** The scenario of [Exemplos] with the return floor left out. *)
Definition cenario_sem_retorno : gmap string valor :=
  delete "retorno_minimo"%string (cenario 1).

(** A universe with a suspended asset quoted at zero. *)
Definition universo_preco_nulo : list Ativo :=
  [ ativo_A; ativo "ZERO3" "Energia" 0.10 0.10 0 ].

(** A scenario like [cenario] with a chosen budget, risk cap and return
    floor, asking for at most two assets and for none at least. *)
Definition cenario_com (B R T : Q) : gmap string valor :=
  list_to_map
    [ ("orcamento", VFloat B); ("risco_maximo", VFloat R);
      ("retorno_minimo", VFloat T); ("num_ativos_min", VInt 0);
      ("num_ativos_max", VInt 2) ]%string.

(** [cenario 1] with a cap of 60% of the budget on each asset. *)
Definition cenario_teto : gmap string valor :=
  <["max_ativo_pct"%string := VFloat 0.6]> (cenario 1).

(** [cenario 1] with sector diversification: at most 60% of the budget
    per sector and at least one sector. *)
Definition cenario_setorial : gmap string valor :=
  <["diversificacao_setor"%string := VBool true]>
    (<["alpha_setor_max"%string := VFloat 0.6]> (cenario 1)).

Definition compra_AB_setorial : Var → Q :=
  atribuicao [ (x_var "AAAA3", 1); (y_var "AAAA3", 50);
               (x_var "BBBB4", 1); (y_var "BBBB4", 100);
               (z_setor "Financeiro", 1); (z_setor "Energia", 1) ].

End Exemplos2.

(** ** src/config.py: obter_config *)

Module Cenarios.
Import Config.

Definition TOP_N_ATIVOS : Z := 20.

(** An entry of the dictionary [obter_config] returns: a number or flag
    as in the presets, or a string ([cenario_nome]). *)
Inductive entrada :=
| Num (v : valor)
| Str (s : string).

(** [str.lower] on one character of a Latin-1 string. *)
Definition lower_char (c : ascii) : ascii :=
  let n := N_of_ascii c in
  if ((65 <=? n) && (n <=? 90) || (192 <=? n) && (n <=? 222) && negb (n =? 215))%N
  then ascii_of_N (n + 32)
  else c.

Fixpoint lower (s : string) : string :=
  match s with
  | EmptyString => EmptyString
  | String c r => String (lower_char c) (lower r)
  end.

Definition cenarios : gmap string (gmap string valor) :=
  list_to_map
    [ ("conservador", CENARIO_CONSERVADOR);
      ("moderado", CENARIO_MODERADO);
      ("agressivo", CENARIO_AGRESSIVO) ]%string.

(** [cenarios.get(cenario.lower(), CENARIO_MODERADO)] *)
Definition preset_de (cenario : string) : gmap string valor :=
  default CENARIO_MODERADO (cenarios !! lower cenario).

(** [obter_config]: a copy of the chosen preset updated with the run
    keys. *)
Definition obter_config (cenario : string) : gmap string entrada :=
  <["cenario_nome"%string := Str (lower cenario)]>
    (<["top_n_ativos"%string := Num (VInt TOP_N_ATIVOS)]>
       (<["mip_gap"%string := Num (VFloat MIP_GAP)]>
          (<["time_limit"%string := Num (VInt TIME_LIMIT)]>
             (Num <$> preset_de cenario)))).

(** The dictionary as [PortfolioOptimizer] reads it: [construir_modelo]
    looks up numeric keys only, and the one string entry,
    [cenario_nome], is read by [salvar_solucao] alone. *)
Definition numericos (config : gmap string entrada) : gmap string valor :=
  omap (λ e, match e with Num v => Some v | Str _ => None end) config.

(** The keys [construir_modelo] looks up, with [config[...]] or with
    [config.get]. *)
Definition chaves_lidas : list string :=
  [ "orcamento"; "risco_maximo"; "retorno_minimo"; "num_ativos_min"; "num_ativos_max";
    "diversificacao_setor"; "alpha_setor_min"; "alpha_setor_max"; "num_setores_min";
    "max_ativo_pct"; "excluir_retorno_negativo" ].

End Cenarios.

(** ** src/data_processor.py: classificar_setores *)

Module Setores.
Import DataProcessor.

(** A row of [df_setores] (columns [setor], [prefixo]); a cell is [None]
    when pandas did not read it as a string (a missing value or a
    number), in which case it has no [strip]. *)
Definition LinhaSetor : Type := option string * option string.

(** The loop that fills [mapa_setores], from the dictionary built so far. *)
Fixpoint preencher_mapa (mapa : gmap string string) (df_setores : list LinhaSetor)
    : resultado (gmap string string) :=
  match df_setores with
  | [] => Ok mapa
  | (setor, prefixo) :: resto =>
      match prefixo with
      | None => Erro (AttributeError "strip")
      | Some p =>
          match setor with
          | None => Erro (AttributeError "strip")
          | Some s => preencher_mapa (<[strip p := strip s]> mapa) resto
          end
      end
  end.

Definition mapa_setores (df_setores : list LinhaSetor) : resultado (gmap string string) :=
  preencher_mapa ∅ df_setores.

(** [ticker[:4]] *)
Definition prefixo4 (ticker : string) : string := String.substring 0 4 ticker.

(** The inner function [obter_setor]. *)
Definition obter_setor (mapa : gmap string string) (ticker : string) : string :=
  match mapa !! ticker with
  | Some setor => setor
  | None => default "Outros"%string (mapa !! prefixo4 ticker)
  end.

(** [CotacaoProcessor.classificar_setores]: the metrics rows with their
    new [setor] column. *)
Definition classificar_setores (df_setores : list LinhaSetor) (metricas : list Metrica)
    : resultado (list (Metrica * string)) :=
  mapa ← mapa_setores df_setores;
  mret (map (λ m, (m, obter_setor mapa (m_ticker m))) metricas).

(** The key a row of the sector file enters under, when it has one. *)
Definition chave_linha (l : LinhaSetor) : option string := strip <$> l.2.

End Setores.

(** ** src/data_processor.py: filtrar_acoes_principais *)

Module Liquidez.
Import DataProcessor.

Definition isupper_AZ (c : ascii) : bool :=
  let n := N_of_ascii c in ((65 <=? n) && (n <=? 90))%N.

(** What may follow the four letters for [(3|4|5|6|11)$] to match: one of
    the five suffixes, then the end of the string or a last newline
    (which [$] lets through). *)
Definition sufixo_acao (r : string) : bool :=
  existsb (λ s, String.eqb r s || String.eqb r (s +:+ String "010" EmptyString))
          ["3"; "4"; "5"; "6"; "11"]%string.

(** [str.match(r'^[A-Z]{4}(3|4|5|6|11)$')] on one ticker. *)
Definition ticker_acao (t : string) : bool :=
  match t with
  | String a (String b (String c (String d r))) =>
      isupper_AZ a && isupper_AZ b && isupper_AZ c && isupper_AZ d && sufixo_acao r
  | _ => false
  end.

Section Filtro.

Variable Timestamp : Type.

(** Whether a date cell is [NaT] (what [to_datetime] makes of a blank
    cell); [count] skips such cells. *)
Variable isnat : Timestamp → bool.

(** The mean of the volume cells of a group, as [groupby.agg] computes
    it: a floating-point routine of pandas, taken as given. *)
Variable mean : list flutuante → flutuante.

Definition do_ticker (t : string) (df : list (Cotacao Timestamp)) : list (Cotacao Timestamp) :=
  List.filter (λ c, String.eqb (ticker _ c) t) df.

(** The [dias_negociacao] column of [liquidez] for ticker [t]. *)
Definition dias_negociacao (df : list (Cotacao Timestamp)) (t : string) : Z :=
  Z.of_nat (length (List.filter (λ c, negb (isnat (data_pregao _ c))) (do_ticker t df))).

(** The [volume_medio] column of [liquidez] for ticker [t]. *)
Definition volume_medio (df : list (Cotacao Timestamp)) (t : string) : flutuante :=
  mean (map (volume_total _) (do_ticker t df)).

(** The mask that selects [ativos_liquidos]; a comparison with NaN is
    false. *)
Definition liquido (df : list (Cotacao Timestamp)) (min_dias_negociacao : Z)
    (min_volume_medio : Q) (t : string) : bool :=
  (min_dias_negociacao <=? dias_negociacao df t)%Z
  && fge (volume_medio df t) min_volume_medio.

(** The rows [filtrar_acoes_principais] starts from: lot-of-shares
    records ([cod_bdi == '02']) whose ticker has the share pattern. *)
Definition acoes (df_completo : list (Cotacao Timestamp)) : list (Cotacao Timestamp) :=
  List.filter (λ c, ticker_acao (ticker _ c))
    (List.filter (λ c, String.eqb (campo (campos _ c) "cod_bdi") "02") df_completo).

(** [CotacaoProcessor.filtrar_acoes_principais] *)
Definition filtrar_acoes_principais (df_completo : list (Cotacao Timestamp))
    (min_dias_negociacao : Z) (min_volume_medio : Q) : list (Cotacao Timestamp) :=
  let df_acoes := acoes df_completo in
  List.filter (λ c, liquido df_acoes min_dias_negociacao min_volume_medio (ticker _ c))
              df_acoes.

End Filtro.

End Liquidez.

(** ** Worked sector files and trading days *)

Module Exemplos3.
Import DataProcessor Setores Liquidez.

(** A sector file with a prefix entry, a full-ticker entry (padded) and
    a second entry for the same key. *)
Definition setores_csv : list LinhaSetor :=
  [ (Some "Aeronautica", Some "EMBR");
    (Some " Bens Industriais ", Some "EMBR3 ");
    (Some "Petroleo", Some "PETR");
    (Some "Petroleo e Gas", Some "PETR") ]%string.

Definition mapa_csv : gmap string string :=
  match mapa_setores setores_csv with
  | Ok mapa => mapa
  | Erro _ => ∅
  end.

(** A row of the quotes frame with the given class, ticker, date (as a
    number, 0 for a blank date) and volume. *)
Definition cotacao (bdi t : string) (d : N) (vol : Q) : Cotacao N :=
  {| campos := {[ "cod_bdi"%string := bdi ]};
     data_pregao := d;
     preco_abertura := Fin 10; preco_maximo := Fin 10; preco_minimo := Fin 10;
     preco_medio := Fin 10; preco_ultimo := Fin 10;
     volume_total := Fin vol; quantidade_negociada := Fin 1; total_negocios := Fin 1;
     ticker := t; nome_empresa := t |}.

Definition sem_data (d : N) : bool := N.eqb d 0.

Definition pregoes : list (Cotacao N) :=
  [ cotacao "02" "PETR4" 20240102 2000000;
    cotacao "02" "XPTO3" 20240102 10;
    cotacao "96" "PETR4F" 20240102 5000000;
    cotacao "02" "PETR4" 20240103 3000000 ]%string.

End Exemplos3.

(** ** src/results_analyzer.py: the sector table of imprimir_resumo *)

Module Analise.
Import Optimizer.

(** Insertion into a list ordered by [leb]. *)
Fixpoint inserir_ordenado {A} (leb : A → A → bool) (x : A) (l : list A) : list A :=
  match l with
  | [] => [x]
  | y :: r => if leb x y then x :: l else y :: inserir_ordenado leb x r
  end.

Definition ordenar {A} (leb : A → A → bool) (l : list A) : list A :=
  foldr (inserir_ordenado leb) [] l.

(** One row of [dist_setor]. *)
Record LinhaDist := {
  ld_setor : string;
  ld_investimento : Q;
  ld_num_ativos : nat;
  ld_percentual : flutuante
}.

(** The group keys of [groupby('setor')]: the distinct sectors, sorted. *)
Definition chaves_setor (linhas : list ItemCarteira) : list string :=
  ordenar String.leb (unique (map it_setor linhas)).

Definition grupo_setor (linhas : list ItemCarteira) (s : string) : list ItemCarteira :=
  List.filter (λ it, String.eqb (it_setor it) s) linhas.

(** [groupby('setor').agg({'investimento': 'sum', 'ticker': 'count'})] *)
Definition agregar (linhas : list ItemCarteira) : list (string * Q * nat) :=
  map (λ s, (s, somaQ (map it_investimento (grupo_setor linhas s)),
             length (grupo_setor linhas s)))
      (chaves_setor linhas).

(** Column division in pandas: nothing is raised on a zero divisor. *)
Definition dividir (x y : Q) : flutuante :=
  if Qeq_bool y 0 then
    if Qlt_bool 0 x then PInf else if Qlt_bool x 0 then NInf else NaN
  else Fin (x / y).

Definition tem_coluna (df : DataFrame) (c : string) : bool :=
  existsb (String.eqb c) (colunas df).

(** The table [dist_setor] that [imprimir_resumo] prints: sum and count
    per sector, share of the total, largest investment first.  A
    portfolio frame has its nine columns or none (see [DataFrame_de]);
    without columns [groupby('setor')] raises. *)
Definition dist_setor (carteira : DataFrame) : resultado (list LinhaDist) :=
  if negb (tem_coluna carteira "setor") then Erro (KeyError "setor")
  else
    let agg := agregar (linhas carteira) in
    let total := somaQ (map (λ g, g.1.2) agg) in
    mret (ordenar (λ a b, Qle_bool (ld_investimento b) (ld_investimento a))
            (map (λ g, {| ld_setor := g.1.1;
                          ld_investimento := g.1.2;
                          ld_num_ativos := g.2;
                          ld_percentual := dividir g.1.2 total |}) agg)).

(** The defined cells of a column of shares. *)
Definition finitos (l : list flutuante) : list Q :=
  omap (λ f, match f with Fin q => Some q | _ => None end) l.

End Analise.

(** ** src/config.py: obter_diretorios_cenario; src/optimizer.py: salvar_solucao *)

Module Diretorios.
Import Cenarios.

Section Sistema_de_arquivos.

(** [os.makedirs(cenario_dir, exist_ok=True)] is taken as given: it
    creates the directory or raises (a name with a NUL byte, a name that
    is too long, a path already taken by a file). *)
Variable makedirs : string → resultado unit.

(** [obter_diretorios_cenario]: the directory is created first, then
    the five path strings are returned. *)
Definition obter_diretorios_cenario (cenario : string) : resultado (gmap string string) :=
  let cenario_dir := "output/" +:+ lower cenario +:+ "/" in
  _ ← makedirs cenario_dir;
  mret (list_to_map
          [ ("dir", cenario_dir);
            ("carteira_csv", cenario_dir +:+ "carteira_otimizada.csv");
            ("relatorio_txt", cenario_dir +:+ "relatorio_otimizacao.txt");
            ("grafico_png", cenario_dir +:+ "resultados_carteira.png");
            ("analise_xlsx", cenario_dir +:+ "analise_completa.xlsx") ]%string).

(** [PortfolioOptimizer.salvar_solucao(arquivo)], up to the call of
    [to_csv]: the result is the path string handed to [to_csv], or
    [None] when [self.solucao] is empty and nothing is written.  Without
    [arquivo] the path is [dirs['carteira_csv']] for
    [config.get('cenario_nome', 'moderado')], looked up before
    [self.solucao] is tested; a name that is not a string has no
    [lower]. *)
Definition salvar_solucao (config : gmap string entrada) (tem_solucao : bool)
    (arquivo : option string) : resultado (option string) :=
  arquivo ← match arquivo with
            | Some arquivo => Ok arquivo
            | None =>
                match default (Str "moderado") (config !! "cenario_nome"%string) with
                | Str cenario_nome =>
                    dirs ← obter_diretorios_cenario cenario_nome;
                    match dirs !! "carteira_csv"%string with
                    | Some arquivo => Ok arquivo
                    | None => Erro (KeyError "carteira_csv")
                    end
                | Num _ => Erro (AttributeError "lower")
                end
            end;
  mret (if tem_solucao then Some arquivo else None).

End Sistema_de_arquivos.

End Diretorios.

(** ** src/data_processor.py: calcular_retornos, after the pivot *)

Module Retornos.
Import DataProcessor.

Section Log_retornos.

(** The dates of the index, and [np.log] on a positive number. *)
Variable Data : Type.
Variable ln : Q → Q.

(** [np.log] on a float cell: [-inf] at zero, NaN below. *)
Definition flog (f : flutuante) : flutuante :=
  match f with
  | Fin x => if Qlt_bool 0 x then Fin (ln x) else if Qeq_bool x 0 then NInf else NaN
  | PInf => PInf
  | NInf | NaN => NaN
  end.

(** One cell of [np.log(df_precos / df_precos.shift(1))]: the price of
    the day and the price one row above. *)
Definition retorno_celula (preco anterior : flutuante) : flutuante :=
  flog (fdiv preco anterior).

(** The rows of [np.log(df_precos / df_precos.shift(1))] from the row
    above [anterior] on; a row of [df_precos] is a date and one cell per
    ticker column. *)
Fixpoint variacoes (anterior : list flutuante) (df_precos : list (Data * list flutuante))
    : list (Data * list flutuante) :=
  match df_precos with
  | [] => []
  | (d, linha) :: resto =>
      (d, zip_with retorno_celula linha anterior) :: variacoes linha resto
  end.

(** [df_precos.shift(1)] starts with a row of missing cells. *)
Definition log_retornos (df_precos : list (Data * list flutuante))
    : list (Data * list flutuante) :=
  match df_precos with
  | [] => []
  | (_, linha) :: _ => variacoes (map (λ _, NaN) linha) df_precos
  end.

Definition alguma_definida (linha : list flutuante) : bool :=
  existsb (λ c, negb (isna c)) linha.

(** [CotacaoProcessor.calcular_retornos] on the pivoted price frame:
    the log returns, without the rows where every cell is missing. *)
Definition calcular_retornos (df_precos : list (Data * list flutuante))
    : list (Data * list flutuante) :=
  List.filter (λ r, alguma_definida r.2) (log_retornos df_precos).

End Log_retornos.

End Retornos.

(** ** An asset at the limits of its scenario *)

Module Exemplos4.
Import Optimizer Exemplos.





End Exemplos4.

(** ** The layout of a tape line, cell by cell *)

(** A line of the tape seen from the side of the layout, for the
    decoding round trip: 26 cells of fixed width written one after the
    other, each holding a value with white space before or after it. *)
Module Fita.
Import DataProcessor.

(** The widths of the cells, in the order of the layout: the lengths of
    its consecutive ranges [[0,2)], [[2,10)], [[10,12)], [[12,24)], ...,
    [[230,242)], [[242,245)]. *)
Definition larguras : list nat :=
  [ 2; 8; 2; 12; 3; 12; 10; 3; 4; 13; 13; 13; 13; 13; 13; 13; 5; 18; 18; 13;
    1; 8; 7; 13; 12; 3 ]%nat.

(** The range of each cell, for cells of the given widths written from
    position [ini] on. *)
Fixpoint intervalos (ini : nat) (ws : list nat) : list (nat * nat) :=
  match ws with
  | [] => []
  | w :: r => (ini, ini + w)%nat :: intervalos (ini + w) r
  end.

(** The names of the cells, in the same order. *)
Definition nomes : list string := map (λ c, c.1.1) colunas_spec.

(** The characters of a latin1 line that Python takes for white space:
    tab to carriage return, the four separators, the space, NEL and the
    no-break space. *)
Definition branco (c : ascii) : bool :=
  existsb (N.eqb (N_of_ascii c)) [9; 10; 11; 12; 13; 28; 29; 30; 31; 32; 133; 160]%N.

Fixpoint brancos (s : string) : bool :=
  match s with
  | EmptyString => true
  | String c r => branco c && brancos r
  end.

(** The last character of [String c r]. *)
Fixpoint ultimo (c : ascii) (r : string) : ascii :=
  match r with
  | EmptyString => c
  | String c' r' => ultimo c' r'
  end.

(** A value that neither starts nor ends with white space. *)
Definition aparado (v : string) : bool :=
  match v with
  | EmptyString => true
  | String c r => negb (branco c) && negb (branco (ultimo c r))
  end.

(** A cell as written on the tape: the value [val], after the white
    space [esq] and before the white space [dir]. *)
Record Celula := {
  esq : string;
  val : string;
  dir : string
}.

Definition texto (c : Celula) : string := esq c +:+ val c +:+ dir c.

Definition bem_formada (c : Celula) : bool :=
  brancos (esq c) && aparado (val c) && brancos (dir c).

(** The line made of the cells, followed by [resto] (the end of line,
    or whatever follows the last cell). *)
Definition linha_de (cs : list Celula) (resto : string) : string :=
  foldr (λ c r, texto c +:+ r) resto cs.

(** Some characters that occur in no number. *)
Definition simbolo (c : ascii) : bool :=
  existsb (Ascii.eqb c) ["*"; "/"; "#"; "?"; "!"; "@"; "%"; "&"; "="; "$"; ":"; ";"]%char.

Fixpoint contem (p : ascii → bool) (s : string) : bool :=
  match s with
  | EmptyString => false
  | String c r => p c || contem p r
  end.

End Fita.

(** ** A worked tape line *)

Module Exemplos5.
Import Fita.

Definition celula (e v d : string) : Celula := {| esq := e; val := v; dir := d |}.

(** PETR4 on 2024-01-02, opening at 37.38 and closing at 37.78, with a
    volume of 1234567.89.  The ticker has a space before it, the company
    name a tab, the term cell is blank and the cell of the lowest price
    holds an asterisk. *)
Definition celulas_petr4 : list Celula :=
  [ celula "" "01" "";
    celula "" "20240102" "";
    celula "" "02" "";
    celula " " "PETR4" "      ";
    celula "" "010" "";
    celula (String "009" "") "PETROBRAS" "  ";
    celula "" "PN      N2" "";
    celula "" "" "   ";
    celula "" "R$" "  ";
    celula "" "0000000003738" "";
    celula "" "0000000003790" "";
    celula "            " "*" "";
    celula "" "0000000003760" "";
    celula "" "0000000003778" "";
    celula "" "0000000003777" "";
    celula "" "0000000003778" "";
    celula "" "12345" "";
    celula "" "000000000012345678" "";
    celula "" "000000000123456789" "";
    celula "" "0000000000000" "";
    celula "" "0" "";
    celula "" "99991231" "";
    celula "" "0000001" "";
    celula "" "0000000000000" "";
    celula "" "BRPETRACNPR6" "";
    celula "" "123" "" ]%string.

(** The line as it is read from the file, with its end of line. *)
Definition linha_petr4_celulas : string :=
  linha_de celulas_petr4 (String "010" "").

End Exemplos5.

(** * Properties *)

Section Racionais.

Lemma Qlt_bool_iff (a b : Q) : Qlt_bool a b = true ↔ a < b.
Proof.
  unfold Qlt_bool. rewrite negb_true_iff.
  destruct (Qle_bool b a) eqn:E.
  - apply Qle_bool_iff in E. split; [discriminate | intros H; lra].
  - split; [intros _ | reflexivity].
    apply Qnot_le_lt. intros H. apply Qle_bool_iff in H. congruence.
Qed.

Lemma Qlt_bool_false (a b : Q) : Qlt_bool a b = false ↔ b <= a.
Proof.
  unfold Qlt_bool. rewrite negb_false_iff. apply Qle_bool_iff.
Qed.

Lemma somaQ_cons (x : Q) (l : list Q) : somaQ (x :: l) = x + somaQ l.
Proof. reflexivity. Qed.

Lemma somaQ_app (l1 l2 : list Q) : somaQ (l1 ++ l2) == somaQ l1 + somaQ l2.
Proof.
  induction l1 as [|x l1 IH]; simpl.
  - unfold somaQ at 2; simpl. lra.
  - rewrite !somaQ_cons, IH. lra.
Qed.

Lemma somaQ_map_ext {A} (f g : A → Q) (l : list A) :
  (∀ x, In x l → f x == g x) → somaQ (map f l) == somaQ (map g l).
Proof.
  induction l as [|x l IH]; intros H; simpl.
  - reflexivity.
  - rewrite !somaQ_cons. rewrite (H x) by (left; reflexivity).
    rewrite IH; [reflexivity|]. intros y Hy. apply H. right. exact Hy.
Qed.

Lemma somaQ_map_nonneg {A} (f : A → Q) (l : list A) :
  (∀ x, In x l → 0 <= f x) → 0 <= somaQ (map f l).
Proof.
  induction l as [|x l IH]; intros H; simpl.
  - apply Qle_refl.
  - rewrite somaQ_cons.
    assert (0 <= f x) by (apply H; left; reflexivity).
    assert (0 <= somaQ (map f l)) by (apply IH; intros y Hy; apply H; right; exact Hy).
    lra.
Qed.

Lemma somaQ_map_scale {A} (k : Q) (f : A → Q) (l : list A) :
  somaQ (map (λ x, k * f x) l) == k * somaQ (map f l).
Proof.
  induction l as [|x l IH]; simpl.
  - unfold somaQ; simpl. lra.
  - rewrite !somaQ_cons, IH. lra.
Qed.

(** [int] agrees with the floor on a non-negative float. *)
Lemma py_int_floor (q : Q) : 0 <= q → py_int q = Qfloor q.
Proof.
  intros H. destruct q as [n d]. unfold py_int, Qfloor; simpl.
  apply Z.quot_div_nonneg; [|lia].
  unfold Qle in H; simpl in H. lia.
Qed.

(** Rounding leaves an integral value alone. *)
Lemma py_round_inject_Z (q : Q) (n : Z) : q == inject_Z n → py_round q = n.
Proof.
  intros H. unfold py_round.
  assert (Hf : Qfloor q = n) by (rewrite (Qfloor_comp _ _ H); apply Qfloor_Z).
  rewrite Hf.
  assert (Hr : Qlt_bool (q - inject_Z n) (1 # 2) = true).
  { apply Qlt_bool_iff. rewrite H. lra. }
  rewrite Hr. reflexivity.
Qed.

End Racionais.

(** ** The scenario presets *)

Section Presets.
Import Config.

Lemma moderado_sem_chave : CENARIO_MODERADO !! "excluir_retorno_negativo"%string = None.
Proof. reflexivity. Qed.

Lemma agressivo_sem_chave : CENARIO_AGRESSIVO !! "excluir_retorno_negativo"%string = None.
Proof. reflexivity. Qed.

(** C9, as stated, does not hold: the key sets of the conservative and
    of the moderate preset differ, and neither the moderate nor the
    aggressive preset defines the negative-return flag. *)
Lemma presets_chaves_diferentes :
  (dom CENARIO_CONSERVADOR ≠ dom CENARIO_MODERADO)
  ∧ ("excluir_retorno_negativo"%string ∉ dom CENARIO_MODERADO)
  ∧ ("excluir_retorno_negativo"%string ∉ dom CENARIO_AGRESSIVO).
Proof.
  assert (Hm : "excluir_retorno_negativo"%string ∉ dom CENARIO_MODERADO).
  { rewrite elem_of_dom, moderado_sem_chave. intros [v Hv]. discriminate Hv. }
  assert (Ha : "excluir_retorno_negativo"%string ∉ dom CENARIO_AGRESSIVO).
  { rewrite elem_of_dom, agressivo_sem_chave. intros [v Hv]. discriminate Hv. }
  split; [|split; assumption].
  intros E. apply Hm. rewrite <- E. apply elem_of_dom. eexists. reflexivity.
Qed.

(** C9, amended: the three presets define the same ten keys; the
    conservative preset alone defines [excluir_retorno_negativo] on top
    of them, the moderate and the aggressive presets leave it out. *)
Theorem presets_chaves :
  dom CENARIO_MODERADO = chaves_comuns
  ∧ dom CENARIO_AGRESSIVO = chaves_comuns
  ∧ dom CENARIO_CONSERVADOR = chaves_comuns ∪ {["excluir_retorno_negativo"%string]}
  ∧ "excluir_retorno_negativo"%string ∉ chaves_comuns.
Proof.
  repeat split; try (vm_compute; reflexivity).
  assert (H : dom CENARIO_MODERADO = chaves_comuns) by (vm_compute; reflexivity).
  rewrite <- H, elem_of_dom, moderado_sem_chave.
  intros [v Hv]. discriminate Hv.
Qed.

End Presets.

(** ** The model *)

Section Modelo.
Import Optimizer.

Lemma valor_expr_var a v : valor_expr a (var v) == a v.
Proof. unfold valor_expr, var, somaQ; simpl. lra. Qed.

Lemma valor_expr_cte a q : valor_expr a (cte q) == q.
Proof. unfold valor_expr, cte, somaQ; simpl. lra. Qed.

Lemma valor_expr_escala a k e : valor_expr a (escala k e) == k * valor_expr a e.
Proof.
  unfold valor_expr, escala; simpl. rewrite map_map; simpl.
  rewrite (somaQ_map_ext _ (λ t, k * (t.1 * a t.2))) by (intros; lra).
  rewrite somaQ_map_scale. lra.
Qed.

Lemma valor_expr_mais a e1 e2 :
  valor_expr a (mais e1 e2) == valor_expr a e1 + valor_expr a e2.
Proof.
  unfold valor_expr, mais; simpl. rewrite map_app, somaQ_app. lra.
Qed.

Lemma valor_expr_menos a e1 e2 :
  valor_expr a (menos e1 e2) == valor_expr a e1 - valor_expr a e2.
Proof.
  unfold menos. rewrite valor_expr_mais, valor_expr_escala. lra.
Qed.

Lemma valor_expr_quicksum {A} a (f : A → LinExpr) (l : list A) :
  valor_expr a (quicksum (map f l)) == somaQ (map (λ i, valor_expr a (f i)) l).
Proof.
  induction l as [|x l IH]; simpl.
  - rewrite valor_expr_cte. reflexivity.
  - rewrite valor_expr_mais, somaQ_cons, IH. reflexivity.
Qed.

Lemma valor_expr_gasto a i :
  valor_expr a (gasto i) == preco_atual i * a (y_var (ticker i)).
Proof. unfold gasto. rewrite valor_expr_escala, valor_expr_var. reflexivity. Qed.

Lemma valor_total a (l : list Ativo) :
  valor_expr a (quicksum (map gasto l))
  == somaQ (map (λ i, preco_atual i * a (y_var (ticker i))) l).
Proof.
  rewrite valor_expr_quicksum. apply somaQ_map_ext. intros. apply valor_expr_gasto.
Qed.

Lemma valor_ponderado a (f : Ativo → Q) (l : list Ativo) :
  valor_expr a (quicksum (map (λ i, escala (f i) (gasto i)) l))
  == somaQ (map (λ i, f i * preco_atual i * a (y_var (ticker i))) l).
Proof.
  rewrite valor_expr_quicksum. apply somaQ_map_ext. intros.
  rewrite valor_expr_escala, valor_expr_gasto. lra.
Qed.

Lemma satisfaz_b_correto a c : satisfaz_b a c = true ↔ satisfaz a c.
Proof.
  unfold satisfaz_b, satisfaz. destruct (sense c).
  - apply Qle_bool_iff.
  - apply Qle_bool_iff.
  - apply Qeq_bool_iff.
Qed.

Lemma binaria_b_correto a v : binaria_b a v = true → binaria a v.
Proof.
  unfold binaria_b, binaria. rewrite orb_true_iff, !Qeq_bool_iff. tauto.
Qed.

Lemma inteira_nn_b_correto a v : inteira_nn_b a v = true → inteira_nn a v.
Proof.
  unfold inteira_nn_b, inteira_nn. rewrite andb_true_iff, Qle_bool_iff, Qeq_bool_iff.
  intros [H0 Hi]. exists (Qfloor (a v)). split; [|exact Hi].
  change 0%Z with (Qfloor 0). apply Qfloor_resp_le. exact H0.
Qed.

(** The executable check is sound for feasibility. *)
Lemma viavel_b_correto m a : viavel_b m a = true → viavel m a.
Proof.
  unfold viavel_b, viavel. rewrite !andb_true_iff, !forallb_forall.
  intros [[Hb Hi] Hc]. rewrite !List.Forall_forall. repeat split.
  - intros v Hv. apply binaria_b_correto, Hb, Hv.
  - intros v Hv. apply inteira_nn_b_correto, Hi, Hv.
  - intros c Hin. apply satisfaz_b_correto, Hc, Hin.
Qed.

(** What a successful [construir_modelo] has read and built. *)
Lemma construir_modelo_inv metricas config m :
  construir_modelo metricas config = Ok m →
  ∃ vB vR vT vLmin vLmax M,
    config !! "orcamento"%string = Some vB
    ∧ config !! "risco_maximo"%string = Some vR
    ∧ config !! "retorno_minimo"%string = Some vT
    ∧ config !! "num_ativos_min"%string = Some vLmin
    ∧ config !! "num_ativos_max"%string = Some vLmax
    ∧ max_lotes metricas (num vB) = Ok M
    ∧ binarias m = map (λ i, x_var (ticker i)) metricas
                   ++ (restricoes_diversificacao metricas config (num vB)).1
    ∧ inteiras m = map (λ i, y_var (ticker i)) metricas
    ∧ restricoes m =
        [ {| nome := "orcamento"; lhs := quicksum (map gasto metricas);
             sense := LE; rhs := cte (num vB) |};
          {| nome := "risco";
             lhs := menos (quicksum (map (λ i, escala (desvio_padrao i) (gasto i)) metricas))
                          (escala (num vR) (quicksum (map gasto metricas)));
             sense := LE; rhs := cte 0 |};
          {| nome := "retorno_min";
             lhs := menos (quicksum (map (λ i, escala (retorno_esperado i) (gasto i)) metricas))
                          (escala (num vT) (quicksum (map gasto metricas)));
             sense := GE; rhs := cte 0 |};
          {| nome := "min_ativos";
             lhs := quicksum (map (λ i, var (x_var (ticker i))) metricas);
             sense := GE; rhs := cte (num vLmin) |};
          {| nome := "max_ativos";
             lhs := quicksum (map (λ i, var (x_var (ticker i))) metricas);
             sense := LE; rhs := cte (num vLmax) |} ]
        ++ (restricoes_diversificacao metricas config (num vB)).2
        ++ restricoes_max_ativo metricas config (num vB)
        ++ restricoes_negativos metricas config
        ++ restricoes_consistencia metricas M.
Proof.
  unfold construir_modelo, getitem.
  destruct (config !! "orcamento"%string) as [vB|]; [|discriminate].
  destruct (config !! "risco_maximo"%string) as [vR|]; [|discriminate].
  destruct (config !! "retorno_minimo"%string) as [vT|]; [|discriminate].
  destruct (config !! "num_ativos_min"%string) as [vLmin|]; [|discriminate].
  destruct (config !! "num_ativos_max"%string) as [vLmax|]; [|discriminate].
  cbn [fmap resultado_fmap mbind resultado_bind].
  destruct (max_lotes metricas (num vB)) as [M|e] eqn:HM; [|discriminate].
  cbn [mbind resultado_bind mret resultado_ret].
  intros [= <-]. exists vB, vR, vT, vLmin, vLmax, M.
  repeat split; first [reflexivity | exact HM].
Qed.

End Modelo.

Section Consistencia.
Import Optimizer.

Lemma min_preco_spec (ps : list Q) (p : Q) :
  In (min_preco p ps) (p :: ps) ∧ ∀ q, In q (p :: ps) → min_preco p ps <= q.
Proof.
  revert p. induction ps as [|q ps IH]; intros p; unfold min_preco; simpl.
  - split; [left; reflexivity|]. intros q [<-|[]]. apply Qle_refl.
  - fold (min_preco (if Qlt_bool q p then q else p) ps).
    destruct (IH (if Qlt_bool q p then q else p)) as [Hin Hle].
    destruct (Qlt_bool q p) eqn:E.
    + apply Qlt_bool_iff in E. split.
      * destruct Hin as [Hin|Hin]; [right; left; exact Hin | right; right; exact Hin].
      * intros r [<-|[<-|Hr]].
        -- assert (min_preco q ps <= q) by (apply Hle; left; reflexivity). lra.
        -- apply Hle. left. reflexivity.
        -- apply Hle. right. exact Hr.
    + apply Qlt_bool_false in E. split.
      * destruct Hin as [Hin|Hin]; [left; exact Hin | right; right; exact Hin].
      * intros r [<-|[<-|Hr]].
        -- apply Hle. left. reflexivity.
        -- assert (min_preco p ps <= p) by (apply Hle; left; reflexivity). lra.
        -- apply Hle. right. exact Hr.
Qed.

(** C6: on a non-empty universe with positive prices and a budget
    [B >= 0], [max_lotes] is computed (no division by zero) and is at
    least [floor(B / price_i)] for every asset [i]; hence every lot
    count [n] that the budget can pay for asset [i] alone passes
    [y_i <= M * x_i]. *)
Theorem max_lotes_suficiente (metricas : list Ativo) (B : Q) :
  metricas ≠ [] →
  (∀ i, In i metricas → 0 < preco_atual i) →
  0 <= B →
  ∃ M, max_lotes metricas B = Ok M
       ∧ ∀ i, In i metricas →
           (Qfloor (B / preco_atual i) ≤ M)%Z
           ∧ ∀ n : Z, inject_Z n * preco_atual i <= B → (n ≤ M)%Z.
Proof.
  intros Hne Hpos HB. unfold max_lotes.
  destruct metricas as [|i0 rest]; [congruence|]. cbn [map].
  set (p := preco_atual i0). set (ps := map preco_atual rest).
  destruct (min_preco_spec ps p) as [Hin Hle].
  assert (Hall : ∀ i, In i (i0 :: rest) → In (preco_atual i) (p :: ps)).
  { intros i [<-|Hi]; [left; reflexivity | right; apply in_map; exact Hi]. }
  assert (Hmpos : 0 < min_preco p ps).
  { destruct Hin as [Hin|Hin].
    - rewrite <- Hin. apply Hpos. left. reflexivity.
    - apply in_map_iff in Hin. destruct Hin as (j & Hj & Hjin).
      rewrite <- Hj. apply Hpos. right. exact Hjin. }
  destruct (Qeq_bool (min_preco p ps) 0) eqn:E.
  { apply Qeq_bool_iff in E. lra. }
  eexists. split; [reflexivity|].
  intros i Hi.
  assert (Hpi : 0 < preco_atual i) by (apply Hpos; exact Hi).
  assert (Hmi : min_preco p ps <= preco_atual i) by (apply Hle, Hall, Hi).
  assert (Hdiv : B / preco_atual i <= B / min_preco p ps).
  { apply Qle_shift_div_l; [exact Hmpos|].
    assert (Hq : 0 <= B / preco_atual i).
    { apply Qle_shift_div_l; [exact Hpi | lra]. }
    assert (Heq : B == B / preco_atual i * preco_atual i).
    { field. lra. }
    rewrite Heq at 2. nra. }
  assert (Hnn : 0 <= B / min_preco p ps).
  { apply Qle_shift_div_l; [exact Hmpos | lra]. }
  rewrite (py_int_floor _ Hnn).
  assert (Hfl : (Qfloor (B / preco_atual i) ≤ Qfloor (B / min_preco p ps))%Z)
    by (apply Qfloor_resp_le; exact Hdiv).
  split; [exact Hfl|].
  intros n Hn.
  assert (Hn' : inject_Z n <= B / preco_atual i).
  { apply Qle_shift_div_l; [exact Hpi | exact Hn]. }
  apply Qfloor_resp_le in Hn'. rewrite Qfloor_Z in Hn'. lia.
Qed.

(** What feasibility gives for one asset: the domains of its two
    variables and the two consistency constraints. *)
Lemma consistencia_ativo metricas config m a i :
  construir_modelo metricas config = Ok m →
  viavel m a →
  In i metricas →
  binaria a (x_var (ticker i))
  ∧ inteira_nn a (y_var (ticker i))
  ∧ ∃ M, a (y_var (ticker i)) <= inject_Z M * a (x_var (ticker i))
         ∧ a (x_var (ticker i)) <= a (y_var (ticker i)).
Proof.
  intros Hm (Hb & Hi & Hc) Hin.
  destruct (construir_modelo_inv _ _ _ Hm)
    as (vB & vR & vT & vLmin & vLmax & M & _ & _ & _ & _ & _ & _ & Eb & Ei & Ec).
  rewrite Eb in Hb. rewrite Ei in Hi. rewrite Ec in Hc.
  rewrite List.Forall_forall in Hb, Hi, Hc.
  split; [|split].
  - apply Hb, in_or_app. left. apply (in_map (λ i, x_var (ticker i))). exact Hin.
  - apply Hi. apply (in_map (λ i, y_var (ticker i))). exact Hin.
  - exists M.
    assert (Hcons : ∀ c, In c (restricoes_consistencia metricas M) → satisfaz a c).
    { intros c Hcin. apply Hc. apply in_or_app; right.
      do 3 (apply in_or_app; right). exact Hcin. }
    split.
    + specialize (Hcons
        {| nome := "consistencia_max_" +:+ ticker i;
           lhs := var (y_var (ticker i)); sense := LE;
           rhs := escala (inject_Z M) (var (x_var (ticker i))) |}).
      unfold satisfaz in Hcons; cbn [sense lhs rhs] in Hcons.
      rewrite valor_expr_escala, !valor_expr_var in Hcons. apply Hcons.
      unfold restricoes_consistencia. apply in_flat_map. exists i.
      split; [exact Hin | left; reflexivity].
    + specialize (Hcons
        {| nome := "consistencia_min_" +:+ ticker i;
           lhs := var (y_var (ticker i)); sense := GE;
           rhs := escala 1 (var (x_var (ticker i))) |}).
      unfold satisfaz in Hcons; cbn [sense lhs rhs] in Hcons.
      rewrite valor_expr_escala, !valor_expr_var in Hcons.
      rewrite Qmult_1_l in Hcons. apply Hcons.
      unfold restricoes_consistencia. apply in_flat_map. exists i.
      split; [exact Hin | right; left; reflexivity].
Qed.

(** C7: in every assignment the built model accepts, for every asset,
    [x_i = 1] exactly when [y_i >= 1], and [x_i = 0] exactly when
    [y_i = 0].  (This holds for every value of the big-M, so in
    particular when it is at least 1.) *)
Theorem selecao_quantidade metricas config m a :
  construir_modelo metricas config = Ok m →
  viavel m a →
  ∀ i, In i metricas →
    (a (x_var (ticker i)) == 1 ↔ 1 <= a (y_var (ticker i)))
    ∧ (a (x_var (ticker i)) == 0 ↔ a (y_var (ticker i)) == 0).
Proof.
  intros Hm Hv i Hin.
  destruct (consistencia_ativo _ _ _ _ _ Hm Hv Hin) as (Hx & (n & Hn0 & Hn) & M & Hmax & Hmin).
  assert (Hy0 : 0 <= a (y_var (ticker i))).
  { rewrite Hn. change 0 with (inject_Z 0). rewrite <- Zle_Qle. exact Hn0. }
  destruct Hx as [Hx|Hx]; rewrite Hx in Hmax, Hmin |- *.
  - assert (a (y_var (ticker i)) == 0) by lra.
    repeat split; intros; lra.
  - repeat split; intros; lra.
Qed.

End Consistencia.

Section Consistencia_instancias.
Import Optimizer Exemplos.

(** The bound on the three-asset universe with a budget of 10000. *)
Lemma max_lotes_suficiente_witness :
  universo ≠ []
  ∧ (∀ i, In i universo → 0 < preco_atual i)
  ∧ 0 <= 10000
  ∧ ∃ M, max_lotes universo 10000 = Ok M
         ∧ ∀ i, In i universo →
             (Qfloor (10000 / preco_atual i) ≤ M)%Z
             ∧ ∀ n : Z, inject_Z n * preco_atual i <= 10000 → (n ≤ M)%Z.
Proof.
  assert (H1 : universo ≠ []) by discriminate.
  assert (H2 : ∀ i, In i universo → 0 < preco_atual i).
  { intros i [<-|[<-|[<-|[]]]]; reflexivity. }
  assert (H3 : 0 <= 10000) by discriminate.
  split; [exact H1|]. split; [exact H2|]. split; [exact H3|].
  exact (max_lotes_suficiente universo 10000 H1 H2 H3).
Defined.

(** The coupling on the purchase of 50 lots of A and 100 of B. *)
Lemma selecao_quantidade_witness :
  ∃ m, construir_modelo universo (cenario 1) = Ok m
       ∧ viavel m compra_AB
       ∧ ∀ i, In i universo →
           (compra_AB (x_var (ticker i)) == 1 ↔ 1 <= compra_AB (y_var (ticker i)))
           ∧ (compra_AB (x_var (ticker i)) == 0 ↔ compra_AB (y_var (ticker i)) == 0).
Proof.
  exists (modelo_de universo (cenario 1)).
  assert (Hm : construir_modelo universo (cenario 1) = Ok (modelo_de universo (cenario 1)))
    by (vm_compute; reflexivity).
  assert (Hv : viavel (modelo_de universo (cenario 1)) compra_AB)
    by (apply viavel_b_correto; vm_compute; reflexivity).
  split; [exact Hm|]. split; [exact Hv|].
  exact (selecao_quantidade universo (cenario 1) _ compra_AB Hm Hv).
Defined.

End Consistencia_instancias.

(** ** Negative-return exclusion *)

Section Exclusao.
Import Optimizer.

Lemma get_insert_ne (config : gmap string valor) (k k' : string) v d :
  k ≠ k' → get (<[k:=v]> config) k' d = get config k' d.
Proof. intros H. unfold get. rewrite lookup_insert_ne by exact H. reflexivity. Qed.

Lemma getitem_insert_ne (config : gmap string valor) (k k' : string) v :
  k ≠ k' → getitem (<[k:=v]> config) k' = getitem config k'.
Proof. intros H. unfold getitem. rewrite lookup_insert_ne by exact H. reflexivity. Qed.

Lemma restricoes_negativos_omissao metricas (config : gmap string valor) :
  config !! "excluir_retorno_negativo"%string = None →
  restricoes_negativos metricas config
  = map (λ i, {| nome := "no_negative_" +:+ ticker i;
                 lhs := var (y_var (ticker i)); sense := EQ; rhs := cte 0 |})
        (List.filter (λ i, Qlt_bool (retorno_esperado i) 0) metricas).
Proof.
  intros H. unfold restricoes_negativos, get. rewrite H. reflexivity.
Qed.

(** C10: when the scenario has no [excluir_retorno_negativo] key, the
    model built is the one built with the key set to [True]: for every
    asset with a negative expected return it contains the constraint
    [y_i == 0], so every assignment it accepts buys none of it. *)
Theorem exclusao_por_omissao metricas (config : gmap string valor) m :
  config !! "excluir_retorno_negativo"%string = None →
  construir_modelo metricas config = Ok m →
  construir_modelo metricas (<["excluir_retorno_negativo"%string := VBool true]> config) = Ok m
  ∧ ∀ i, In i metricas → retorno_esperado i < 0 →
      In {| nome := "no_negative_" +:+ ticker i;
            lhs := var (y_var (ticker i)); sense := EQ; rhs := cte 0 |} (restricoes m)
      ∧ ∀ a, viavel m a → a (y_var (ticker i)) == 0.
Proof.
  intros Hnone Hm. split.
  - rewrite <- Hm. unfold construir_modelo.
    rewrite !getitem_insert_ne by discriminate.
    unfold restricoes_diversificacao, restricoes_max_ativo.
    rewrite !get_insert_ne by discriminate.
    assert (Hneg : restricoes_negativos metricas
                     (<["excluir_retorno_negativo"%string := VBool true]> config)
                   = restricoes_negativos metricas config).
    { rewrite (restricoes_negativos_omissao _ _ Hnone).
      unfold restricoes_negativos, get. rewrite lookup_insert_eq. reflexivity. }
    rewrite Hneg. reflexivity.
  - intros i Hin Hneg.
    destruct (construir_modelo_inv _ _ _ Hm)
      as (vB & vR & vT & vLmin & vLmax & M & _ & _ & _ & _ & _ & _ & _ & _ & Ec).
    assert (Hc : In {| nome := "no_negative_" +:+ ticker i;
                       lhs := var (y_var (ticker i)); sense := EQ; rhs := cte 0 |}
                    (restricoes m)).
    { rewrite Ec. apply in_or_app; right. do 2 (apply in_or_app; right).
      apply in_or_app; left.
      rewrite (restricoes_negativos_omissao _ _ Hnone).
      apply (in_map (λ i, {| nome := "no_negative_" +:+ ticker i;
                             lhs := var (y_var (ticker i)); sense := EQ; rhs := cte 0 |})).
      apply filter_In. split; [exact Hin | apply Qlt_bool_iff; exact Hneg]. }
    split; [exact Hc|].
    intros a (_ & _ & Hall). rewrite List.Forall_forall in Hall.
    specialize (Hall _ Hc). unfold satisfaz in Hall; cbn [sense lhs rhs] in Hall.
    rewrite valor_expr_var, valor_expr_cte in Hall. exact Hall.
Qed.

End Exclusao.

Section Exclusao_instancias.
Import Optimizer Exemplos Config.

(** The moderate preset on the three-asset universe: asset C is fixed
    at zero although the preset does not mention the flag. *)
Lemma exclusao_por_omissao_witness :
  CENARIO_MODERADO !! "excluir_retorno_negativo"%string = None
  ∧ construir_modelo universo CENARIO_MODERADO = Ok (modelo_de universo CENARIO_MODERADO)
  ∧ construir_modelo universo
      (<["excluir_retorno_negativo"%string := VBool true]> CENARIO_MODERADO)
    = Ok (modelo_de universo CENARIO_MODERADO)
  ∧ ∀ i, In i universo → retorno_esperado i < 0 →
      In {| nome := "no_negative_" +:+ ticker i;
            lhs := var (y_var (ticker i)); sense := EQ; rhs := cte 0 |}
         (restricoes (modelo_de universo CENARIO_MODERADO))
      ∧ ∀ a, viavel (modelo_de universo CENARIO_MODERADO) a → a (y_var (ticker i)) == 0.
Proof.
  assert (Hm : construir_modelo universo CENARIO_MODERADO
               = Ok (modelo_de universo CENARIO_MODERADO)) by (vm_compute; reflexivity).
  split; [exact moderado_sem_chave|]. split; [exact Hm|].
  exact (exclusao_por_omissao universo CENARIO_MODERADO _ moderado_sem_chave Hm).
Defined.

End Exclusao_instancias.

(** ** Extraction of the solution *)

Section Extracao.
Import Optimizer Carteira.

(** What [extrair_solucao] returns when it returns. *)
Lemma extrair_solucao_inv metricas a r sol :
  extrair_solucao metricas a r = Ok sol →
  let S := List.filter (selecionado a) metricas in
  S ≠ []
  ∧ carteira sol = DataFrame_de (map (item_carteira a) S)
  ∧ num_ativos sol = length S
  ∧ investimento_total sol = somaQ (map it_investimento (map (item_carteira a) S))
  ∧ retorno_total sol =
      (if Qlt_bool 0 (investimento_total sol)
       then somaQ (map (λ i, retorno_esperado i * preco_atual i * a (y_var (ticker i))) S)
            / investimento_total sol
       else 0)
  ∧ risco_total sol =
      (if Qlt_bool 0 (investimento_total sol)
       then somaQ (map (λ i, desvio_padrao i * preco_atual i * a (y_var (ticker i))) S)
            / investimento_total sol
       else 0).
Proof.
  intros H. cbv zeta. unfold extrair_solucao in H. cbv zeta in H.
  destruct (List.filter (selecionado a) metricas) as [|i S'].
  - cbn in H. discriminate H.
  - cbn [map DataFrame_de coluna_investimento colunas linhas] in H.
    change (existsb (String.eqb "investimento") chaves_item) with true in H.
    cbn [fmap resultado_fmap mbind resultado_bind mret resultado_ret] in H.
    injection H as H; subst sol. cbn [carteira num_ativos investimento_total retorno_total risco_total].
    repeat split; try reflexivity. discriminate.
Qed.

(** With no asset selected the portfolio frame has no column and the
    extraction stops at [df_carteira['investimento']]. *)
Lemma extrair_solucao_vazia metricas a r :
  List.filter (selecionado a) metricas = [] →
  extrair_solucao metricas a r = Erro (KeyError "investimento").
Proof.
  intros H. unfold extrair_solucao. rewrite H. reflexivity.
Qed.

(** C3, on the code: when no asset is selected ([x_i <= 0.5] for every
    [i]) the extractor does not return zero ratios; it raises
    [KeyError: 'investimento']. *)
Theorem extracao_sem_selecao_falha metricas a r :
  (∀ i, In i metricas → ¬ 1 # 2 < a (x_var (ticker i))) →
  extrair_solucao metricas a r = Erro (KeyError "investimento").
Proof.
  intros H. apply extrair_solucao_vazia.
  induction metricas as [|i l IH]; [reflexivity|].
  cbn [List.filter].
  destruct (selecionado a i) eqn:E.
  - exfalso. apply (H i); [left; reflexivity|]. apply Qlt_bool_iff. exact E.
  - apply IH. intros j Hj. apply H. right. exact Hj.
Qed.

Lemma selecionado_binaria a i :
  binaria a (x_var (ticker i)) →
  (selecionado a i = true ∧ a (x_var (ticker i)) == 1)
  ∨ (selecionado a i = false ∧ a (x_var (ticker i)) == 0).
Proof.
  intros [H|H]; [right | left]; (split; [|exact H]); unfold selecionado.
  - apply Qlt_bool_false. rewrite H. discriminate.
  - apply Qlt_bool_iff. rewrite H. reflexivity.
Qed.

(** The number of selected assets is the sum of the selection variables. *)
Lemma conta_selecionados a (l : list Ativo) :
  (∀ i, In i l → binaria a (x_var (ticker i))) →
  somaQ (map (λ i, a (x_var (ticker i))) l)
  == inject_Z (Z.of_nat (length (List.filter (selecionado a) l))).
Proof.
  induction l as [|i l IH]; intros H.
  - reflexivity.
  - cbn [map List.filter]. rewrite somaQ_cons.
    rewrite IH by (intros j Hj; apply H; right; exact Hj).
    destruct (selecionado_binaria a i (H i (or_introl eq_refl))) as [[-> Hx]|[-> Hx]];
      rewrite Hx.
    + cbn [length]. rewrite Nat2Z.inj_succ. unfold Z.succ. rewrite inject_Z_plus.
      change (inject_Z 1) with 1. lra.
    + lra.
Qed.

(** A sum whose terms vanish off the selection is the sum over the
    selection. *)
Lemma soma_selecionados a (g : Ativo → Q) (l : list Ativo) :
  (∀ i, In i l → selecionado a i = false → g i == 0) →
  somaQ (map g l) == somaQ (map g (List.filter (selecionado a) l)).
Proof.
  induction l as [|i l IH]; intros H.
  - reflexivity.
  - cbn [map List.filter]. rewrite somaQ_cons.
    rewrite IH by (intros j Hj; apply H; right; exact Hj).
    destruct (selecionado a i) eqn:E.
    + reflexivity.
    + rewrite (H i (or_introl eq_refl) E). lra.
Qed.

Lemma soma_positiva (g : Ativo → Q) (l : list Ativo) :
  l ≠ [] → (∀ i, In i l → 0 < g i) → 0 < somaQ (map g l).
Proof.
  intros Hne H. destruct l as [|i l]; [congruence|].
  cbn [map]. rewrite somaQ_cons.
  assert (0 < g i) by (apply H; left; reflexivity).
  assert (0 <= somaQ (map g l)).
  { apply somaQ_map_nonneg. intros j Hj. apply Qlt_le_weak, H. right. exact Hj. }
  lra.
Qed.

End Extracao.

Section Resultado.
Import Optimizer Carteira.

(** The extracted figures of an exactly feasible incumbent, against the
    left-hand sides of the model. *)
Lemma extracao_de_viavel metricas config m a r sol :
  (∀ i, In i metricas → 0 < preco_atual i) →
  construir_modelo metricas config = Ok m →
  viavel m a →
  extrair_solucao metricas a r = Ok sol →
  ∀ f : Ativo → Q,
    let S := List.filter (selecionado a) metricas in
    0 < investimento_total sol
    ∧ investimento_total sol
      == somaQ (map (λ i, preco_atual i * a (y_var (ticker i))) metricas)
    ∧ somaQ (map (λ i, f i * preco_atual i * a (y_var (ticker i))) S)
      == somaQ (map (λ i, f i * preco_atual i * a (y_var (ticker i))) metricas)
    ∧ inject_Z (Z.of_nat (num_ativos sol))
      == somaQ (map (λ i, a (x_var (ticker i))) metricas).
Proof.
  intros Hpos Hm Hv Hext f S.
  destruct (extrair_solucao_inv _ _ _ _ Hext) as (Hne & _ & Hnum & Htot & _ & _).
  fold S in Hne, Hnum, Htot.
  assert (Hfacts : ∀ i, In i metricas →
            (selecionado a i = true ∧ ∃ n : Z, (1 ≤ n)%Z ∧ a (y_var (ticker i)) == inject_Z n)
            ∨ (selecionado a i = false ∧ a (y_var (ticker i)) == 0)).
  { intros i Hi.
    destruct (consistencia_ativo _ _ _ _ _ Hm Hv Hi) as (Hx & (n & Hn0 & Hn) & M & Hmax & Hmin).
    assert (Hy0 : 0 <= a (y_var (ticker i))).
    { rewrite Hn. change 0 with (inject_Z 0). rewrite <- Zle_Qle. exact Hn0. }
    destruct (selecionado_binaria a i Hx) as [[Hs Hx1]|[Hs Hx0]].
    - left. split; [exact Hs|]. exists n. split; [|exact Hn].
      rewrite Hx1, Hn in Hmin. change 1 with (inject_Z 1) in Hmin.
      rewrite <- Zle_Qle in Hmin. exact Hmin.
    - right. split; [exact Hs|]. rewrite Hx0 in Hmax. lra. }
  assert (HinS : ∀ i, In i S → In i metricas ∧ selecionado a i = true).
  { intros i Hi. apply filter_In in Hi. exact Hi. }
  assert (Hsel : ∀ g : Ativo → Q,
            somaQ (map (λ i, g i * a (y_var (ticker i))) metricas)
            == somaQ (map (λ i, g i * a (y_var (ticker i))) S)).
  { intros g. apply (soma_selecionados a (λ i, g i * a (y_var (ticker i)))).
    intros i Hi Hs. destruct (Hfacts i Hi) as [[Hs' _]|[_ Hy]]; [congruence|].
    rewrite Hy. lra. }
  assert (HtotS : investimento_total sol
                  == somaQ (map (λ i, preco_atual i * a (y_var (ticker i))) S)).
  { rewrite Htot, map_map. apply somaQ_map_ext. intros i Hi.
    destruct (HinS i Hi) as [Him Hs].
    destruct (Hfacts i Him) as [[_ (n & _ & Hn)]|[Hs' _]]; [|congruence].
    unfold item_carteira; cbn [it_investimento].
    rewrite (py_round_inject_Z _ _ Hn), Hn. lra. }
  repeat split.
  - rewrite HtotS. apply soma_positiva; [exact Hne|].
    intros i Hi. destruct (HinS i Hi) as [Him Hs].
    destruct (Hfacts i Him) as [[_ (n & Hn1 & Hn)]|[Hs' _]]; [|congruence].
    assert (1 <= a (y_var (ticker i))).
    { rewrite Hn. change 1 with (inject_Z 1). rewrite <- Zle_Qle. exact Hn1. }
    assert (0 < preco_atual i) by (apply Hpos; exact Him).
    nra.
  - rewrite HtotS. symmetry. apply Hsel.
  - symmetry. apply (Hsel (λ i, f i * preco_atual i)).
  - rewrite Hnum. symmetry. apply conta_selecionados.
    intros i Hi. destruct (consistencia_ativo _ _ _ _ _ Hm Hv Hi) as (Hx & _). exact Hx.
Qed.

(** The limits of C1 hold when the incumbent is one the model accepts
    exactly ([x] binary, [y] integral, every constraint): for a universe
    with positive prices the solution [otimizar] returns then has
    between [num_ativos_min] and [num_ativos_max] assets, an
    [investimento_total] within the budget, a [risco_total] within
    [risco_maximo] and a [retorno_total] of at least [retorno_minimo].
    The three constraints are the linearised form of the extracted
    ratios. *)
Lemma resultado_respeita_limites metricas config m r sol :
  (∀ i, In i metricas → 0 < preco_atual i) →
  construir_modelo metricas config = Ok m →
  (∀ a, X r = Some a → viavel m a) →
  otimizar metricas r = Ok (Some sol) →
  ∃ vB vR vT vLmin vLmax,
    config !! "orcamento"%string = Some vB
    ∧ config !! "risco_maximo"%string = Some vR
    ∧ config !! "retorno_minimo"%string = Some vT
    ∧ config !! "num_ativos_min"%string = Some vLmin
    ∧ config !! "num_ativos_max"%string = Some vLmax
    ∧ num vLmin <= inject_Z (Z.of_nat (num_ativos sol))
    ∧ inject_Z (Z.of_nat (num_ativos sol)) <= num vLmax
    ∧ investimento_total sol <= num vB
    ∧ risco_total sol <= num vR
    ∧ num vT <= retorno_total sol.
Proof.
  intros Hpos Hm Hviavel Hot.
  assert (Hex : ∃ a, X r = Some a ∧ extrair_solucao metricas a r = Ok sol).
  { unfold otimizar in Hot.
    destruct (status r); try discriminate Hot;
      (destruct (X r) as [a|]; [|destruct metricas; discriminate Hot]);
      exists a; (split; [reflexivity|]);
      destruct (extrair_solucao metricas a r) as [s|e]; cbn in Hot; congruence. }
  destruct Hex as (a & HX & Hext).
  pose proof (Hviavel a HX) as Hv.
  destruct (construir_modelo_inv _ _ _ Hm)
    as (vB & vR & vT & vLmin & vLmax & M & HB & HR & HT & HLmin & HLmax & _ & _ & _ & Ec).
  exists vB, vR, vT, vLmin, vLmax.
  do 5 (split; [assumption|]).
  destruct Hv as (Hvb & Hvi & Hc). pose proof Hc as Hc'.
  rewrite List.Forall_forall in Hc'. rewrite Ec in Hc'.
  assert (Hv : viavel m a) by (repeat split; assumption).
  destruct (extracao_de_viavel _ _ _ _ _ _ Hpos Hm Hv Hext desvio_padrao)
    as (Hpos_tot & Htot & Hrisco & Hnum).
  destruct (extracao_de_viavel _ _ _ _ _ _ Hpos Hm Hv Hext retorno_esperado)
    as (_ & _ & Hret & _).
  destruct (extrair_solucao_inv _ _ _ _ Hext) as (_ & _ & _ & _ & Eret & Erisco).
  assert (Hlt : Qlt_bool 0 (investimento_total sol) = true) by (apply Qlt_bool_iff; exact Hpos_tot).
  rewrite Hlt in Eret, Erisco.
  (* the five base constraints *)
  pose proof (Hc' _ (or_introl eq_refl)) as C1.
  pose proof (Hc' _ (or_intror (or_introl eq_refl))) as C2.
  pose proof (Hc' _ (or_intror (or_intror (or_introl eq_refl)))) as C3.
  pose proof (Hc' _ (or_intror (or_intror (or_intror (or_introl eq_refl))))) as C4.
  pose proof (Hc' _ (or_intror (or_intror (or_intror (or_intror (or_introl eq_refl)))))) as C5.
  unfold satisfaz in C1, C2, C3, C4, C5. cbn [sense lhs rhs] in C1, C2, C3, C4, C5.
  rewrite valor_expr_cte in C1, C2, C3, C4, C5.
  rewrite valor_total in C1.
  rewrite valor_expr_menos, valor_expr_escala, valor_total, valor_ponderado in C2, C3.
  rewrite (valor_expr_quicksum a (λ i, var (x_var (ticker i)))) in C4, C5.
  rewrite (somaQ_map_ext _ (λ i, a (x_var (ticker i)))) in C4, C5
    by (intros; apply valor_expr_var).
  rewrite <- Hnum in C4, C5. rewrite <- Htot in C1, C2, C3.
  rewrite <- Hrisco in C2. rewrite <- Hret in C3.
  repeat split.
  - exact C4.
  - exact C5.
  - exact C1.
  - rewrite Erisco. apply Qle_shift_div_r; [exact Hpos_tot | lra].
  - rewrite Eret. apply Qle_shift_div_l; [exact Hpos_tot | lra].
Qed.

End Resultado.

Section Resultado_instancias.
Import Optimizer Carteira Exemplos Config.

(** The limits on the solution extracted from 50 lots of A and 100 of B. *)
Lemma resultado_respeita_limites_witness :
  (∀ i, In i universo → 0 < preco_atual i)
  ∧ construir_modelo universo (cenario 1) = Ok (modelo_de universo (cenario 1))
  ∧ viavel (modelo_de universo (cenario 1)) compra_AB
  ∧ otimizar universo (resolvido compra_AB)
    = Ok (Some (solucao_de universo (resolvido compra_AB)))
  ∧ ∃ vB vR vT vLmin vLmax,
      cenario 1 !! "orcamento"%string = Some vB
      ∧ cenario 1 !! "risco_maximo"%string = Some vR
      ∧ cenario 1 !! "retorno_minimo"%string = Some vT
      ∧ cenario 1 !! "num_ativos_min"%string = Some vLmin
      ∧ cenario 1 !! "num_ativos_max"%string = Some vLmax
      ∧ num vLmin <= inject_Z (Z.of_nat (num_ativos (solucao_de universo (resolvido compra_AB))))
      ∧ inject_Z (Z.of_nat (num_ativos (solucao_de universo (resolvido compra_AB)))) <= num vLmax
      ∧ investimento_total (solucao_de universo (resolvido compra_AB)) <= num vB
      ∧ risco_total (solucao_de universo (resolvido compra_AB)) <= num vR
      ∧ num vT <= retorno_total (solucao_de universo (resolvido compra_AB)).
Proof.
  assert (Hpos : ∀ i, In i universo → 0 < preco_atual i).
  { intros i [<-|[<-|[<-|[]]]]; reflexivity. }
  assert (Hm : construir_modelo universo (cenario 1) = Ok (modelo_de universo (cenario 1)))
    by (vm_compute; reflexivity).
  assert (Hv : viavel (modelo_de universo (cenario 1)) compra_AB)
    by (apply viavel_b_correto; vm_compute; reflexivity).
  assert (Hot : otimizar universo (resolvido compra_AB)
                = Ok (Some (solucao_de universo (resolvido compra_AB))))
    by (vm_compute; reflexivity).
  split; [exact Hpos|]. split; [exact Hm|]. split; [exact Hv|]. split; [exact Hot|].
  refine (resultado_respeita_limites universo (cenario 1) _ (resolvido compra_AB) _
            Hpos Hm _ Hot).
  intros a Ha. injection Ha as <-. exact Hv.
Defined.

(** With [num_ativos_min = 0] the model accepts the empty purchase, and
    its extraction raises. *)
Lemma extracao_sem_selecao_falha_witness :
  construir_modelo universo (cenario 0) = Ok (modelo_de universo (cenario 0))
  ∧ viavel (modelo_de universo (cenario 0)) compra_nada
  ∧ (∀ i, In i universo → ¬ 1 # 2 < compra_nada (x_var (ticker i)))
  ∧ extrair_solucao universo compra_nada (resolvido compra_nada)
    = Erro (KeyError "investimento").
Proof.
  assert (Hsel : ∀ i, In i universo → ¬ 1 # 2 < compra_nada (x_var (ticker i))).
  { intros i _. discriminate. }
  split; [vm_compute; reflexivity|].
  split; [apply viavel_b_correto; vm_compute; reflexivity|].
  split; [exact Hsel|].
  exact (extracao_sem_selecao_falha universo compra_nada (resolvido compra_nada) Hsel).
Defined.

(** C5, on the code: with one lot of asset A returned by the solver as
    [1 + 1e-10] (every constraint satisfied, [x] binary, [y] integral
    within [IntFeasTol]), [investimento_total] is the sum of the rounded
    investments (100) and [num_ativos] is 1, but [retorno_total] and
    [risco_total] are not the averages weighted by the rounded
    quantities: their numerators use the unrounded [y.X]. *)
Theorem razoes_usam_quantidade_nao_arredondada :
  let a := compra_A_quase_inteira in
  let m := modelo_de [ativo_A] (cenario 1) in
  let sol := solucao_de [ativo_A] (resolvido a) in
  construir_modelo [ativo_A] (cenario 1) = Ok m
  ∧ forallb (satisfaz_b a) (restricoes m) = true
  ∧ forallb (binaria_b a) (binarias m) = true
  ∧ Qabs (a (y_var "AAAA3") - inject_Z (py_round (a (y_var "AAAA3")))) <= 1 # 1000000000
  ∧ otimizar [ativo_A] (resolvido a) = Ok (Some sol)
  ∧ investimento_total sol == 100
  ∧ num_ativos sol = 1%nat
  ∧ media_ponderada it_retorno_esperado (carteira sol) == 0.20
  ∧ media_ponderada it_desvio_padrao (carteira sol) == 0.10
  ∧ ¬ retorno_total sol == media_ponderada it_retorno_esperado (carteira sol)
  ∧ ¬ risco_total sol == media_ponderada it_desvio_padrao (carteira sol).
Proof.
  cbv zeta.
  split; [vm_compute; reflexivity|].
  split; [vm_compute; reflexivity|].
  split; [vm_compute; reflexivity|].
  split; [vm_compute; discriminate|].
  split; [vm_compute; reflexivity|].
  split; [vm_compute; reflexivity|].
  split; [vm_compute; reflexivity|].
  split; [vm_compute; reflexivity|].
  split; [vm_compute; reflexivity|].
  split; apply Qeq_bool_neq; vm_compute; reflexivity.
Qed.

(** C2, on the code: under the aggressive preset (sector diversification
    on, [alpha_setor_min = 0], [num_setores_min = 2]) the model accepts
    an assignment that invests in one sector only; the indicator of the
    empty sector is simply set to 1. *)
Theorem setores_ativos_sem_investimento :
  let m := modelo_de universo_setores CENARIO_AGRESSIVO in
  construir_modelo universo_setores CENARIO_AGRESSIVO = Ok m
  ∧ viavel m compra_um_setor
  ∧ get CENARIO_AGRESSIVO "diversificacao_setor" (VBool false) = VBool true
  ∧ get CENARIO_AGRESSIVO "num_setores_min" (VInt 1) = VInt 2
  ∧ get CENARIO_AGRESSIVO "alpha_setor_min" (VFloat 0) = VFloat 0
  ∧ setores_investidos universo_setores compra_um_setor = ["Financeiro"%string]
  ∧ investimento_setor universo_setores compra_um_setor "Energia" == 0
  ∧ compra_um_setor (z_setor "Energia") == 1.
Proof.
  cbv zeta.
  split; [vm_compute; reflexivity|].
  split; [apply viavel_b_correto; vm_compute; reflexivity|].
  repeat split; vm_compute; reflexivity.
Qed.

End Resultado_instancias.

Section Limites_instancias.
Import Optimizer Carteira Exemplos Exemplos4.


End Limites_instancias.

(** ** Metrics *)

Section Metricas_retidas.
Import DataProcessor Metricas.

Lemma somaQ_map_zero {A} (f : A → Q) (l : list A) :
  (∀ x, In x l → f x == 0) → somaQ (map f l) == 0.
Proof.
  intros H. rewrite (somaQ_map_ext f (λ _, 0) l H). clear H.
  induction l as [|x l IH]; [reflexivity|].
  cbn [map]. rewrite somaQ_cons, IH. lra.
Qed.

Context (mean std grupo_mean : list flutuante → flutuante) (sqrt : Q → flutuante).

(** What is used of the floating-point routines: a standard deviation
    is never negative, and the square root of a positive number is a
    positive number. *)
Hypothesis std_nao_negativo :
  ∀ col, match std col with
         | Fin v => 0 <= v
         | NInf => False
         | PInf | NaN => True
         end.
Hypothesis sqrt_positiva : ∀ q, 0 < q → ∃ s, sqrt q = Fin s ∧ 0 < s.

Lemma isna_fdiv_zero (r v : Q) :
  ¬ r == 0 → v == 0 → infinito (fdiv (Fin r) (Fin v)).
Proof.
  intros Hr Hv. unfold fdiv, infinito.
  assert (E0 : Qeq_bool v 0 = true) by (apply Qeq_bool_iff; exact Hv).
  rewrite E0.
  destruct (Qlt_bool 0 r) eqn:E1; [left; reflexivity|].
  destruct (Qlt_bool r 0) eqn:E2; [right; reflexivity|].
  apply Qlt_bool_false in E1, E2. exfalso. apply Hr. lra.
Qed.

(** C4, amended: every row kept by [calcular_metricas] has no missing
    cell, and its volatility is not negative; zero is not excluded.  A ticker whose returns have a standard deviation of
    exactly 0 and a mean that is a non-zero number, with a price and a
    mean volume in [df_acoes], is kept: its volatility is 0 and its
    Sharpe ratio is an infinity, which [dropna] does not take for a
    missing value. *)
Theorem metricas_retidas df_retornos df_acoes dias :
  0 < dias →
  (∀ row, In row (calcular_metricas mean std grupo_mean sqrt df_retornos df_acoes dias) →
     isna (m_retorno_esperado row) = false
     ∧ isna (m_desvio_padrao row) = false
     ∧ isna (m_sharpe_ratio row) = false
     ∧ isna (m_preco_atual row) = false
     ∧ isna (m_volume_medio row) = false
     ∧ is_Some (m_nome_empresa row)
     ∧ volatilidade_nao_negativa row)
  ∧ (∀ t col m v,
       In (t, col) df_retornos →
       mean col = Fin m → ¬ m == 0 →
       std col = Fin v → v == 0 →
       validos (map n_preco_ultimo (grupo df_acoes t)) ≠ [] →
       grupo df_acoes t ≠ [] →
       isna (grupo_mean (map n_volume_total (grupo df_acoes t))) = false →
       ∃ row, In row (calcular_metricas mean std grupo_mean sqrt df_retornos df_acoes dias)
              ∧ m_ticker row = t
              ∧ (∃ v', m_desvio_padrao row = Fin v' ∧ v' == 0)
              ∧ infinito (m_sharpe_ratio row)).
Proof.
  intros Hdias. destruct (sqrt_positiva dias Hdias) as (s & Es & Hs). split.
  - intros row Hrow. unfold calcular_metricas, dropna in Hrow.
    apply filter_In in Hrow. destruct Hrow as [Hin Hna].
    apply negb_true_iff in Hna.
    unfold tem_na in Hna. rewrite !orb_false_iff in Hna.
    destruct Hna as [[[[[Hr Hd] Hsh] Hp] Hvol] Hnome].
    do 5 (split; [assumption|]).
    split; [destruct (m_nome_empresa row); [eexists; reflexivity | discriminate Hnome]|].
    clear Hr Hsh Hp Hvol Hnome.
    apply in_map_iff in Hin. destruct Hin as ([t col] & <- & _).
    unfold volatilidade_nao_negativa.
    cbn [linha_metrica m_desvio_padrao fst snd] in Hd |- *.
    rewrite Es in Hd |- *. pose proof (std_nao_negativo col) as Hstd.
    destruct (std col) as [v| | |]; cbn [fmul] in Hd |- *.
    + nra.
    + unfold inf_vezes in Hd |- *.
      assert (E : Qlt_bool 0 s = true) by (apply Qlt_bool_iff; exact Hs).
      rewrite E. exact I.
    + destruct Hstd.
    + discriminate Hd.
  - intros t col m v Hin Em Hm Ev Hv Hpreco Hgrupo Hvol.
    set (row := linha_metrica mean std grupo_mean sqrt df_acoes dias t col).
    assert (Eret : m_retorno_esperado row = Fin (m * dias)).
    { unfold row; cbn [linha_metrica m_retorno_esperado]. rewrite Em. reflexivity. }
    assert (Edp : m_desvio_padrao row = Fin (v * s)).
    { unfold row; cbn [linha_metrica m_desvio_padrao]. rewrite Ev, Es. reflexivity. }
    assert (Esh : m_sharpe_ratio row = fdiv (Fin (m * dias)) (Fin (v * s))).
    { unfold row; cbn [linha_metrica m_sharpe_ratio]. rewrite Em, Ev, Es. reflexivity. }
    assert (Hinf : infinito (m_sharpe_ratio row)).
    { rewrite Esh. apply isna_fdiv_zero; [|rewrite Hv; lra].
      intros E. apply Hm. nra. }
    exists row. split; [|split; [reflexivity|split; [|exact Hinf]]].
    + unfold calcular_metricas, dropna. apply filter_In. split.
      * apply (in_map (λ c, linha_metrica mean std grupo_mean sqrt df_acoes dias c.1 c.2)
                      _ (t, col)). exact Hin.
      * apply negb_true_iff. unfold tem_na. rewrite Eret, Edp.
        cbn [isna orb].
        assert (E1 : isna (m_sharpe_ratio row) = false)
          by (destruct Hinf as [-> | ->]; reflexivity).
        rewrite E1. cbn [orb].
        unfold row; cbn [linha_metrica m_preco_atual m_volume_medio m_nome_empresa].
        assert (E2 : isna (default NaN (last (validos (map n_preco_ultimo (grupo df_acoes t)))))
                     = false).
        { destruct (last (validos (map n_preco_ultimo (grupo df_acoes t)))) as [p|] eqn:El.
          - assert (Hp : In p (validos (map n_preco_ultimo (grupo df_acoes t)))).
            { apply list_elem_of_In. apply last_Some_elem_of. exact El. }
            apply filter_In in Hp. destruct Hp as [_ Hp].
            apply negb_true_iff in Hp. exact Hp.
          - apply last_None in El. contradiction. }
        rewrite E2. cbn [orb].
        destruct (grupo df_acoes t) as [|n g] eqn:Eg; [contradiction|].
        rewrite Hvol. reflexivity.
    + exists (v * s). split; [exact Edp|]. rewrite Hv. lra.
Qed.

End Metricas_retidas.

Section Metricas_instancias.
Import DataProcessor Metricas Exemplos.

Lemma raiz_nao_negativa (q : Q) : 0 <= Exato.raiz q.
Proof.
  unfold Exato.raiz, Qle; simpl. rewrite Z.mul_1_r. apply Z.sqrt_nonneg.
Qed.

Lemma raiz_positiva (q : Q) : 0 < q → 0 < Exato.raiz q.
Proof.
  intros H. unfold Exato.raiz, Qlt; simpl. rewrite Z.mul_1_r.
  apply Z.sqrt_pos.
  assert (0 < Qnum q)%Z by (unfold Qlt in H; simpl in H; lia).
  lia.
Qed.

Lemma exato_std_nao_negativo (col : list flutuante) :
  match Exato.std col with
  | Fin v => 0 <= v
  | NInf => False
  | PInf | NaN => True
  end.
Proof.
  unfold Exato.std, Exato.sqrt. destruct (Exato.var col) as [v| | |]; try exact I.
  destruct (Qlt_bool v 0); [exact I | apply raiz_nao_negativa].
Qed.

Lemma exato_sqrt_positiva (q : Q) : 0 < q → ∃ s, Exato.sqrt q = Fin s ∧ 0 < s.
Proof.
  intros H. exists (Exato.raiz q). split; [|apply raiz_positiva; exact H].
  unfold Exato.sqrt.
  destruct (Qlt_bool q 0) eqn:E; [apply Qlt_bool_iff in E; lra | reflexivity].
Qed.

(** C4, as stated, does not hold: two equal daily returns of 0.01 (on
    which mean and standard deviation are computed without rounding)
    give a volatility of exactly 0 and a Sharpe ratio of [+inf]; the
    row has no missing cell and [dropna] keeps it. *)
Lemma volatilidade_nula_retida :
  ¬ (∀ row,
       In row (calcular_metricas Exato.mean Exato.std Exato.mean Exato.sqrt
                 retornos_constantes negocios_constantes 252) →
       volatilidade_positiva row).
Proof.
  intros H.
  remember (calcular_metricas Exato.mean Exato.std Exato.mean Exato.sqrt
              retornos_constantes negocios_constantes 252) as out eqn:Eout.
  vm_compute in Eout. subst out.
  specialize (H _ (or_introl eq_refl)).
  unfold volatilidade_positiva in H; cbn in H.
  revert H. vm_compute. discriminate.
Qed.

(** The constant column of the example is kept with volatility 0. *)
Lemma metricas_retidas_witness :
  0 < 252
  ∧ ∃ row, In row (calcular_metricas Exato.mean Exato.std Exato.mean Exato.sqrt
                     retornos_constantes negocios_constantes 252)
           ∧ m_ticker row = "AAAA3"%string
           ∧ (∃ v, m_desvio_padrao row = Fin v ∧ v == 0)
           ∧ infinito (m_sharpe_ratio row).
Proof.
  assert (Hdias : 0 < 252) by reflexivity.
  split; [exact Hdias|].
  destruct (metricas_retidas Exato.mean Exato.std Exato.mean Exato.sqrt
              exato_std_nao_negativo exato_sqrt_positiva
              retornos_constantes negocios_constantes 252 Hdias) as [_ H].
  apply (H "AAAA3"%string [NaN; Fin 0.01; Fin 0.01]
           (200 # 20000) (0 # 16000000000000000000000000000000000000)).
  - left. reflexivity.
  - vm_compute. reflexivity.
  - vm_compute. discriminate.
  - vm_compute. reflexivity.
  - reflexivity.
  - vm_compute. discriminate.
  - vm_compute. discriminate.
  - vm_compute. reflexivity.
Defined.

End Metricas_instancias.

(** ** Strings *)

Section Cadeias.

Lemma append_vazio (s : string) : s +:+ "" = s.
Proof.
  induction s as [|c s IH]; [reflexivity|].
  change (String c (s +:+ "") = String c s). rewrite IH. reflexivity.
Qed.

Lemma juntar_assoc (s1 s2 s3 : string) : (s1 +:+ s2) +:+ s3 = s1 +:+ (s2 +:+ s3).
Proof.
  induction s1 as [|c s1 IH]; [reflexivity|].
  change (String c ((s1 +:+ s2) +:+ s3) = String c (s1 +:+ (s2 +:+ s3))).
  rewrite IH. reflexivity.
Qed.

Lemma comprimento_juntar (s1 s2 : string) :
  String.length (s1 +:+ s2) = (String.length s1 + String.length s2)%nat.
Proof. induction s1 as [|c s1 IH]; simpl; [reflexivity | f_equal; exact IH]. Qed.

Lemma substring_pula (a b : string) (n m : nat) :
  String.substring (String.length a + n) m (a +:+ b) = String.substring n m b.
Proof. induction a as [|c a IH]; [reflexivity|]. exact IH. Qed.

Lemma substring_toma (a b : string) :
  String.substring 0 (String.length a) (a +:+ b) = a.
Proof.
  induction a as [|c a IH]; [destruct b; reflexivity|].
  change (String c (String.substring 0 (String.length a) (a +:+ b)) = String c a).
  rewrite IH. reflexivity.
Qed.

End Cadeias.

(** ** The tape parser *)

Section Cotahist_decodificacao.
Import DataProcessor Fita.

Context (Timestamp : Type)
        (to_datetime : string → resultado Timestamp)
        (to_numeric : string → flutuante)
        (data_leb : Timestamp → Timestamp → bool).

(** What is used of [pd.to_numeric]: on a cell made of decimal digits it
    returns the integer the digits denote, and a cell that holds a
    character no number contains is coerced to NaN. *)
Hypothesis to_numeric_decimal :
  ∀ s, s ≠ EmptyString → so_digitos s = true →
       to_numeric s = Fin (inject_Z (Z.of_N (valor_decimal s))).
Hypothesis to_numeric_coerce :
  ∀ s, contem simbolo s = true → to_numeric s = NaN.

Lemma prefix_01 (linha : string) :
  String.prefix "01" linha = true →
  String.prefix "00" linha = false ∧ String.prefix "99" linha = false.
Proof.
  destruct linha as [|c1 [|c2 resto]]; cbn -[ascii_dec]; try discriminate.
  - destruct (ascii_dec "0" c1); discriminate.
  - destruct (ascii_dec "0" c1) as [<-|]; [|discriminate].
    destruct (ascii_dec "1" c2) as [<-|]; [|discriminate].
    intros _. split; reflexivity.
Qed.

Lemma colunas_spec_NoDup linha :
  NoDup (map (λ c : string * nat * nat, (c.1.1, strip (fatia linha c.1.2 c.2))) colunas_spec).*1.
Proof.
  rewrite <- list_fmap_compose.
  change (NoDup (map (λ c : string * nat * nat, c.1.1) colunas_spec)).
  apply (bool_decide_unpack _). vm_compute. exact I.
Qed.

Lemma registro_lookup linha nome inicio fim :
  In (nome, inicio, fim) colunas_spec →
  registro linha !! nome = Some (strip (fatia linha inicio fim)).
Proof.
  intros Hin. unfold registro.
  apply elem_of_list_to_map_1; [apply colunas_spec_NoDup|].
  apply list_elem_of_In.
  apply (in_map (λ c : string * nat * nat, (c.1.1, strip (fatia linha c.1.2 c.2)))
                colunas_spec (nome, inicio, fim)).
  exact Hin.
Qed.

Lemma campo_registro linha nome inicio fim :
  In (nome, inicio, fim) colunas_spec →
  campo (registro linha) nome = strip (fatia linha inicio fim).
Proof.
  intros Hin. unfold campo. rewrite (registro_lookup _ _ _ _ Hin). reflexivity.
Qed.

(** *** White space *)

Lemma isspace_branco (c : ascii) : isspace c = branco c.
Proof.
  destruct c as [[] [] [] [] [] [] [] []]; vm_compute; reflexivity.
Qed.

Lemma lstrip_brancos (e s : string) :
  brancos e = true → lstrip (e +:+ s) = lstrip s.
Proof.
  induction e as [|c e IH]; [reflexivity|].
  cbn [brancos]. intros H. apply andb_true_iff in H. destruct H as [Hc He].
  change (String c e +:+ s) with (String c (e +:+ s)).
  cbn [lstrip]. rewrite isspace_branco, Hc. exact (IH He).
Qed.

Lemma rstrip_brancos (d : string) : brancos d = true → rstrip d = EmptyString.
Proof.
  induction d as [|c d IH]; [reflexivity|].
  cbn [brancos]. intros H. apply andb_true_iff in H. destruct H as [Hc Hd].
  cbn [rstrip]. rewrite (IH Hd), isspace_branco, Hc. reflexivity.
Qed.

Lemma rstrip_valor (c : ascii) (r d : string) :
  branco (ultimo c r) = false → brancos d = true →
  rstrip (String c r +:+ d) = String c r.
Proof.
  revert c. induction r as [|c' r IH]; intros c Hu Hd.
  - cbn [ultimo] in Hu. change (String c "" +:+ d) with (String c d).
    cbn [rstrip]. rewrite (rstrip_brancos d Hd), isspace_branco, Hu. reflexivity.
  - cbn [ultimo] in Hu.
    change (String c (String c' r) +:+ d) with (String c (String c' r +:+ d)).
    cbn [rstrip]. rewrite (IH c' Hu Hd). reflexivity.
Qed.

(** A well-formed cell strips to its value. *)
Lemma strip_celula (c : Celula) : bem_formada c = true → strip (texto c) = val c.
Proof.
  unfold bem_formada, texto, strip. rewrite !andb_true_iff.
  intros [[He Hv] Hd]. rewrite (lstrip_brancos _ _ He).
  destruct (val c) as [|a r].
  - change ("" +:+ dir c) with (dir c).
    rewrite <- (append_vazio (dir c)), (lstrip_brancos _ _ Hd). reflexivity.
  - cbn [aparado] in Hv. apply andb_true_iff in Hv. destruct Hv as [Ha Hu].
    apply negb_true_iff in Ha, Hu.
    change (String a r +:+ dir c) with (String a (r +:+ dir c)).
    cbn [lstrip]. rewrite isspace_branco, Ha.
    exact (rstrip_valor a r (dir c) Hu Hd).
Qed.

Lemma strip_aparado (v : string) : aparado v = true → strip v = v.
Proof.
  intros H.
  pose proof (strip_celula {| esq := ""; val := v; dir := "" |}) as E.
  unfold bem_formada, texto in E. cbn [esq val dir brancos andb] in E.
  change ("" +:+ v +:+ "") with (v +:+ "") in E.
  rewrite append_vazio, H in E. exact (E eq_refl).
Qed.

(** *** Slices of a line made of cells *)

(** The slice of the line at the range of its [k]-th cell is the text of
    that cell. *)
Lemma fatia_celula (cs : list Celula) (ws : list nat) (resto : string) :
  Forall2 (λ c w, String.length (texto c) = w) cs ws →
  ∀ pre k ck i f,
    cs !! k = Some ck →
    intervalos (String.length pre) ws !! k = Some (i, f) →
    fatia (pre +:+ linha_de cs resto) i f = texto ck.
Proof.
  induction 1 as [|c w cs ws Hw _ IH]; intros pre k ck i f Hk Hi.
  - destruct k; discriminate Hk.
  - destruct k as [|k].
    + injection Hk as <-. cbn in Hi. injection Hi as <- <-.
      unfold fatia.
      replace (String.length pre + w - String.length pre)%nat with w by lia.
      rewrite <- (Nat.add_0_r (String.length pre)), substring_pula.
      cbn [linha_de foldr]. rewrite <- Hw. apply substring_toma.
    + cbn [linha_de foldr]. rewrite <- juntar_assoc.
      apply (IH (pre +:+ texto c) k ck i f).
      * exact Hk.
      * cbn in Hi. rewrite comprimento_juntar, Hw. exact Hi.
Qed.

(** *** Every line is made of cells *)

Lemma separar_brancos_iniciais (s : string) :
  ∃ e t, s = e +:+ t ∧ brancos e = true
         ∧ match t with EmptyString => True | String a _ => branco a = false end.
Proof.
  induction s as [|c s (e & t & -> & He & Ht)].
  - exists EmptyString, EmptyString. repeat split.
  - destruct (branco c) eqn:Ec.
    + exists (String c e), t. split; [reflexivity|]. split; [|exact Ht].
      cbn [brancos]. rewrite Ec, He. reflexivity.
    + exists EmptyString, (String c (e +:+ t)). repeat split. exact Ec.
Qed.

Lemma separar_brancos_finais (t : string) :
  ∃ v d, t = v +:+ d ∧ brancos d = true
         ∧ match v, t with
           | EmptyString, _ => True
           | String a r, String b _ => a = b ∧ branco (ultimo a r) = false
           | String _ _, EmptyString => False
           end.
Proof.
  induction t as [|c t (v & d & -> & Hd & Hv)].
  - exists EmptyString, EmptyString. repeat split.
  - destruct v as [|a r].
    + destruct (branco c) eqn:Ec.
      * exists EmptyString, (String c d). split; [reflexivity|]. split; [|exact I].
        cbn [brancos]. rewrite Ec. exact Hd.
      * exists (String c EmptyString), d. repeat split; assumption.
    + exists (String c (String a r)), d. split; [reflexivity|]. split; [exact Hd|].
      split; [reflexivity|]. cbn [ultimo].
      change (String a r +:+ d) with (String a (r +:+ d)) in Hv. exact (proj2 Hv).
Qed.

(** Any text is that of a well-formed cell. *)
Lemma texto_de_celula (s : string) : ∃ c, texto c = s ∧ bem_formada c = true.
Proof.
  destruct (separar_brancos_iniciais s) as (e & t & -> & He & Ht).
  destruct (separar_brancos_finais t) as (v & d & -> & Hd & Hv).
  exists {| esq := e; val := v; dir := d |}. split; [reflexivity|].
  unfold bem_formada; cbn [esq val dir]. rewrite He, Hd, andb_true_r. cbn [andb].
  destruct v as [|a r]; [reflexivity|].
  change (String a r +:+ d) with (String a (r +:+ d)) in Ht, Hv.
  destruct Hv as [_ Hu]. cbn [aparado]. rewrite Ht, Hu. reflexivity.
Qed.

Lemma separar_prefixo (n : nat) (s : string) :
  (n ≤ String.length s)%nat → ∃ a b, s = a +:+ b ∧ String.length a = n.
Proof.
  revert s. induction n as [|n IH]; intros s Hn.
  - exists EmptyString, s. split; reflexivity.
  - destruct s as [|c s]; [cbn in Hn; lia|].
    destruct (IH s) as (a & b & -> & Ha); [cbn in Hn; lia|].
    exists (String c a), b. split; [reflexivity|]. cbn. rewrite Ha. reflexivity.
Qed.

Lemma linha_em_celulas_de (ws : list nat) (linha : string) :
  (list_sum ws ≤ String.length linha)%nat →
  ∃ cs resto, linha = linha_de cs resto
              ∧ Forall2 (λ c w, String.length (texto c) = w) cs ws
              ∧ Forall (λ c, bem_formada c = true) cs.
Proof.
  revert linha. induction ws as [|w ws IH]; intros linha Hn.
  - exists [], linha. split; [reflexivity|]. split; constructor.
  - change (list_sum (w :: ws)) with (w + list_sum ws)%nat in Hn.
    destruct (separar_prefixo w linha) as (a & b & -> & Ha); [lia|].
    rewrite comprimento_juntar in Hn.
    destruct (IH b) as (cs & resto & -> & Hlen & Hbf); [lia|].
    destruct (texto_de_celula a) as (c & <- & Hc).
    exists (c :: cs), resto. split; [reflexivity|].
    split; constructor; assumption.
Qed.

(** A line of at least 245 characters is made of 26 well-formed cells
    of the widths of the layout, and of what follows them. *)
Lemma linha_em_celulas (linha : string) :
  (245 ≤ String.length linha)%nat →
  ∃ cs resto, linha = linha_de cs resto
              ∧ Forall2 (λ c w, String.length (texto c) = w) cs larguras
              ∧ Forall (λ c, bem_formada c = true) cs.
Proof. intros H. apply linha_em_celulas_de. exact H. Qed.

Lemma colunas_intervalos :
  (λ c : string * nat * nat, (c.1.2, c.2)) <$> colunas_spec = intervalos 0 larguras.
Proof. reflexivity. Qed.

(** The stripped slice of the [k]-th column is the value of the [k]-th
    cell. *)
Lemma coluna_celula cs resto k nome i f ck :
  Forall2 (λ c w, String.length (texto c) = w) cs larguras →
  Forall (λ c, bem_formada c = true) cs →
  colunas_spec !! k = Some (nome, i, f) →
  cs !! k = Some ck →
  strip (fatia (linha_de cs resto) i f) = val ck.
Proof.
  intros Hlen Hbf Hcol Hk.
  assert (Hi : intervalos (String.length "") larguras !! k = Some (i, f)).
  { change (String.length "") with 0%nat.
    rewrite <- colunas_intervalos, list_lookup_fmap, Hcol. reflexivity. }
  pose proof (fatia_celula cs larguras resto Hlen "" k ck i f Hk Hi) as E.
  change (fatia (linha_de cs resto) i f = texto ck) in E. rewrite E.
  apply strip_celula. exact (Forall_lookup_1 _ _ _ _ Hbf Hk).
Qed.

Lemma map_zip_valores (linha : string) (cols : list (string * nat * nat)) (cs : list Celula) :
  Forall2 (λ col c, strip (fatia linha col.1.2 col.2) = val c) cols cs →
  map (λ c : string * nat * nat, (c.1.1, strip (fatia linha c.1.2 c.2))) cols
  = zip (map (λ c : string * nat * nat, c.1.1) cols) (map val cs).
Proof.
  induction 1 as [|col c cols cs E _ IH]; [reflexivity|].
  cbn [map zip zip_with]. rewrite E, IH. reflexivity.
Qed.

(** The record of a line made of well-formed cells holds the values of
    the cells under the names of the columns. *)
Lemma registro_de_celulas cs resto :
  Forall2 (λ c w, String.length (texto c) = w) cs larguras →
  Forall (λ c, bem_formada c = true) cs →
  registro (linha_de cs resto) = list_to_map (zip nomes (map val cs)).
Proof.
  intros Hlen Hbf. unfold registro, nomes. f_equal. apply map_zip_valores.
  apply Forall2_same_length_lookup_2.
  - rewrite (Forall2_length _ _ _ Hlen). reflexivity.
  - intros k [[nome i] f] ck Hcol Hk.
    exact (coluna_celula cs resto k nome i f ck Hlen Hbf Hcol Hk).
Qed.

(** C8: a line made of the 26 cells of the layout (as every line of at
    least 245 characters is, see [linha_em_celulas]), whose first cell
    is [01] and whose date cell is readable, gives exactly one record:
    the values of the cells, without the white space around them, under
    the names of the columns.  After the conversions the ticker and the
    company name are those values, and each of the five price columns
    and the volume column holds, for a cell of decimal digits, the
    integer it denotes divided by 100; for a cell [pd.to_numeric] cannot
    read (such as one that holds a character no number contains) it
    holds NaN, and nothing is raised. *)
Theorem linha_01_decodificada (cs : list Celula) (resto : string) (d : Timestamp) :
  Forall2 (λ c w, String.length (texto c) = w) cs larguras →
  Forall (λ c, bem_formada c = true) cs →
  texto <$> cs !! 0%nat = Some "01"%string →
  to_datetime <$> (val <$> cs !! 1%nat) = Some (Ok d) →
  processar_linha (linha_de cs resto) = [list_to_map (zip nomes (map val cs))]
  ∧ ∃ c, processar_cotahist Timestamp to_datetime to_numeric data_leb [linha_de cs resto]
         = Ok [c]
         ∧ campos _ c = list_to_map (zip nomes (map val cs))
         ∧ data_pregao _ c = d
         ∧ Some (ticker _ c) = val <$> cs !! 3%nat
         ∧ Some (nome_empresa _ c) = val <$> cs !! 5%nat
         ∧ ∀ k proj ck,
             In (k, proj)
                [ (9%nat, preco_abertura Timestamp); (10%nat, preco_maximo Timestamp);
                  (11%nat, preco_minimo Timestamp); (12%nat, preco_medio Timestamp);
                  (13%nat, preco_ultimo Timestamp); (18%nat, volume_total Timestamp) ] →
             cs !! k = Some ck →
             (val ck ≠ EmptyString → so_digitos (val ck) = true →
              proj c = Fin (inject_Z (Z.of_N (valor_decimal (val ck))) / 100))
             ∧ (to_numeric (val ck) = NaN → proj c = NaN)
             ∧ (contem simbolo (val ck) = true → proj c = NaN).
Proof.
  intros Hlen Hbf H0 Hdata.
  rewrite <- (registro_de_celulas cs resto Hlen Hbf).
  set (linha := linha_de cs resto).
  assert (Hcampo : ∀ k nome i f ck,
            colunas_spec !! k = Some (nome, i, f) → cs !! k = Some ck →
            campo (registro linha) nome = val ck).
  { intros k nome i f ck Hcol Hk. rewrite (campo_registro linha nome i f).
    - exact (coluna_celula cs resto k nome i f ck Hlen Hbf Hcol Hk).
    - apply list_elem_of_In. exact (list_elem_of_lookup_2 _ _ _ Hcol). }
  assert (Hval : ∀ k ck, cs !! k = Some ck → strip (val ck) = val ck).
  { intros k ck Hk. apply strip_aparado.
    pose proof (Forall_lookup_1 _ _ _ _ Hbf Hk) as Hb. unfold bem_formada in Hb.
    rewrite !andb_true_iff in Hb. tauto. }
  assert (Hcomp : length cs = 26%nat) by (rewrite (Forall2_length _ _ _ Hlen); reflexivity).
  assert (H01 : String.prefix "01" linha = true).
  { unfold linha. destruct cs as [|c0 cs']; [discriminate H0|].
    cbn in H0. injection H0 as Ht0. cbn [linha_de foldr]. rewrite Ht0.
    apply String.prefix_correct. exact (substring_toma "01" _). }
  destruct (prefix_01 _ H01) as [H00 H99].
  assert (Hlinha : processar_linha linha = [registro linha]).
  { unfold processar_linha. rewrite H00, H99, H01. reflexivity. }
  split; [exact Hlinha|].
  destruct (cs !! 1%nat) as [c1|] eqn:E1; [|discriminate Hdata].
  cbn in Hdata. injection Hdata as Hd.
  destruct (lookup_lt_is_Some_2 cs 3) as [c3 E3]; [lia|].
  destruct (lookup_lt_is_Some_2 cs 5) as [c5 E5]; [lia|].
  set (reg := registro linha) in *.
  set (c := {| campos := reg;
               data_pregao := d;
               preco_abertura := centavos to_numeric (campo reg "preco_abertura");
               preco_maximo := centavos to_numeric (campo reg "preco_maximo");
               preco_minimo := centavos to_numeric (campo reg "preco_minimo");
               preco_medio := centavos to_numeric (campo reg "preco_medio");
               preco_ultimo := centavos to_numeric (campo reg "preco_ultimo");
               volume_total := centavos to_numeric (campo reg "volume_total");
               quantidade_negociada := to_numeric (campo reg "quantidade_negociada");
               total_negocios := to_numeric (campo reg "total_negocios");
               ticker := strip (campo reg "ticker");
               nome_empresa := strip (campo reg "nome_empresa") |}).
  exists c. split; [|split; [|split; [|split; [|split]]]].
  - unfold processar_cotahist. cbn [flat_map]. rewrite Hlinha. cbn [app mapM].
    unfold converter. rewrite (Hcampo 1%nat "data_pregao"%string 2%nat 10%nat c1 eq_refl E1), Hd.
    reflexivity.
  - reflexivity.
  - reflexivity.
  - unfold c; cbn [ticker]. rewrite E3. cbn [fmap option_fmap option_map].
    rewrite (Hcampo 3%nat "ticker"%string 12%nat 24%nat c3 eq_refl E3), (Hval _ _ E3).
    reflexivity.
  - unfold c; cbn [nome_empresa]. rewrite E5. cbn [fmap option_fmap option_map].
    rewrite (Hcampo 5%nat "nome_empresa"%string 27%nat 39%nat c5 eq_refl E5), (Hval _ _ E5).
    reflexivity.
  - intros k proj ck Hin Hk.
    assert (Hproj : proj c = centavos to_numeric (val ck)).
    { cbn [In] in Hin.
      destruct Hin as [E|[E|[E|[E|[E|[E|[]]]]]]]; injection E as <- <-.
      - unfold c; cbn [preco_abertura].
        rewrite (Hcampo 9%nat "preco_abertura"%string 56%nat 69%nat ck eq_refl Hk). reflexivity.
      - unfold c; cbn [preco_maximo].
        rewrite (Hcampo 10%nat "preco_maximo"%string 69%nat 82%nat ck eq_refl Hk). reflexivity.
      - unfold c; cbn [preco_minimo].
        rewrite (Hcampo 11%nat "preco_minimo"%string 82%nat 95%nat ck eq_refl Hk). reflexivity.
      - unfold c; cbn [preco_medio].
        rewrite (Hcampo 12%nat "preco_medio"%string 95%nat 108%nat ck eq_refl Hk). reflexivity.
      - unfold c; cbn [preco_ultimo].
        rewrite (Hcampo 13%nat "preco_ultimo"%string 108%nat 121%nat ck eq_refl Hk). reflexivity.
      - unfold c; cbn [volume_total].
        rewrite (Hcampo 18%nat "volume_total"%string 170%nat 188%nat ck eq_refl Hk). reflexivity. }
    rewrite Hproj. unfold centavos. split; [|split].
    + intros Hne Hdig. rewrite (to_numeric_decimal _ Hne Hdig). reflexivity.
    + intros ->. reflexivity.
    + intros Hs. rewrite (to_numeric_coerce _ Hs). reflexivity.
Qed.

End Cotahist_decodificacao.

Section Cotahist_instancias.
Import DataProcessor Fita Exemplos Exemplos5.

Lemma to_numeric_digitos_decimal (s : string) :
  s ≠ EmptyString → so_digitos s = true →
  to_numeric_digitos s = Fin (inject_Z (Z.of_N (valor_decimal s))).
Proof.
  intros Hne Hd. unfold to_numeric_digitos.
  destruct s; [congruence|]. rewrite Hd. reflexivity.
Qed.

Lemma simbolo_nao_digito (c : ascii) : simbolo c = true → isdigit c = false.
Proof.
  destruct c as [[] [] [] [] [] [] [] []]; vm_compute; congruence.
Qed.

Lemma to_numeric_digitos_coerce (s : string) :
  contem simbolo s = true → to_numeric_digitos s = NaN.
Proof.
  intros H. unfold to_numeric_digitos. destruct s as [|a r]; [reflexivity|].
  assert (E : so_digitos (String a r) = false).
  { revert H. generalize (String a r). clear. intros s.
    induction s as [|c s IH]; [discriminate|].
    cbn [contem so_digitos]. intros H. apply orb_true_iff in H. destruct H as [H|H].
    - rewrite (simbolo_nao_digito c H). reflexivity.
    - rewrite (IH H). apply andb_false_r. }
  rewrite E. reflexivity.
Qed.

(** The PETR4 line, with the digit converters: the space before the
    ticker and the tab before the company name are dropped, and the
    asterisk in the cell of the lowest price gives NaN. *)
Lemma linha_01_decodificada_witness :
  Forall2 (λ c w, String.length (texto c) = w) celulas_petr4 larguras
  ∧ Forall (λ c, bem_formada c = true) celulas_petr4
  ∧ texto <$> celulas_petr4 !! 0%nat = Some "01"%string
  ∧ to_datetime_digitos <$> (val <$> celulas_petr4 !! 1%nat) = Some (Ok 20240102%N)
  ∧ processar_linha linha_petr4_celulas = [list_to_map (zip nomes (map val celulas_petr4))]
  ∧ ∃ c, processar_cotahist N to_datetime_digitos to_numeric_digitos N.leb
           [linha_petr4_celulas] = Ok [c]
         ∧ ticker _ c = "PETR4"%string
         ∧ nome_empresa _ c = "PETROBRAS"%string
         ∧ preco_abertura _ c = Fin (inject_Z 3738 / 100)
         ∧ preco_minimo _ c = NaN
         ∧ volume_total _ c = Fin (inject_Z 123456789 / 100).
Proof.
  assert (Hlen : Forall2 (λ c w, String.length (texto c) = w) celulas_petr4 larguras)
    by (repeat constructor).
  assert (Hbf : Forall (λ c, bem_formada c = true) celulas_petr4)
    by (repeat constructor).
  assert (H0 : texto <$> celulas_petr4 !! 0%nat = Some "01"%string) by reflexivity.
  assert (Hd : to_datetime_digitos <$> (val <$> celulas_petr4 !! 1%nat)
               = Some (Ok 20240102%N)) by (vm_compute; reflexivity).
  destruct (linha_01_decodificada N to_datetime_digitos to_numeric_digitos N.leb
              to_numeric_digitos_decimal to_numeric_digitos_coerce
              celulas_petr4 (String "010" "") 20240102%N Hlen Hbf H0 Hd)
    as (Hl & c & Hc & _ & _ & Ht & Hn & Hnum).
  split; [exact Hlen|]. split; [exact Hbf|]. split; [exact H0|]. split; [exact Hd|].
  split; [exact Hl|].
  exists c. split; [exact Hc|].
  split; [injection Ht as ->; reflexivity|].
  split; [injection Hn as ->; reflexivity|].
  split; [|split].
  - destruct (Hnum 9%nat (preco_abertura N) (celula "" "0000000003738" "")) as (H & _ & _);
      [cbn; tauto | reflexivity |].
    rewrite H; [vm_compute; reflexivity | discriminate | reflexivity].
  - destruct (Hnum 11%nat (preco_minimo N) (celula "            " "*" "")) as (_ & _ & H);
      [cbn; tauto | reflexivity |].
    apply H. reflexivity.
  - destruct (Hnum 18%nat (volume_total N) (celula "" "000000000123456789" "")) as (H & _ & _);
      [cbn; tauto | reflexivity |].
    rewrite H; [vm_compute; reflexivity | discriminate | reflexivity].
Defined.

End Cotahist_instancias.

(** ** Sector diversification *)

Section Setores.
Import Optimizer Carteira.

Lemma unique_aux_In (vistos l : list string) (s : string) :
  In s (unique_aux vistos l) → In s l.
Proof.
  revert vistos. induction l as [|t l IH]; intros vistos H; [exact H|].
  cbn [unique_aux] in H. destruct (existsb (String.eqb t) vistos).
  - right. apply (IH _ H).
  - destruct H as [<-|H]; [left; reflexivity | right; apply (IH _ H)].
Qed.

Lemma ativos_setor_nao_vazio (metricas : list Ativo) (s : string) :
  In s (unique (map setor metricas)) →
  List.filter (λ i, String.eqb (setor i) s) metricas ≠ [].
Proof.
  intros H. apply unique_aux_In, in_map_iff in H. destruct H as (i & <- & Hi).
  intros E.
  assert (Hin : In i (List.filter (λ j, String.eqb (setor j) (setor i)) metricas)).
  { apply filter_In. split; [exact Hi | apply String.eqb_refl]. }
  rewrite E in Hin. exact Hin.
Qed.

(** What feasibility gives for one sector when diversification is on. *)
Lemma setor_viavel metricas (config : gmap string valor) m a s vB :
  construir_modelo metricas config = Ok m →
  viavel m a →
  config !! "orcamento"%string = Some vB →
  truthy (get config "diversificacao_setor" (VBool false)) = true →
  In s (unique (map setor metricas)) →
  binaria a (z_setor s)
  ∧ investimento_setor metricas a s
    <= num (get config "alpha_setor_max" (VFloat 0.3)) * num vB
  ∧ investimento_setor metricas a s <= num vB * a (z_setor s)
  ∧ (0 < num (get config "alpha_setor_min" (VFloat 0)) →
     num (get config "alpha_setor_min" (VFloat 0)) * num vB * a (z_setor s)
     <= investimento_setor metricas a s).
Proof.
  intros Hm (Hb & _ & Hc) HB Hdiv Hs.
  destruct (construir_modelo_inv _ _ _ Hm)
    as (vB' & vR & vT & vLmin & vLmax & M & HB' & _ & _ & _ & _ & _ & Eb & _ & Ec).
  rewrite HB in HB'. injection HB' as <-.
  rewrite Eb in Hb. rewrite Ec in Hc. rewrite List.Forall_forall in Hb, Hc.
  unfold restricoes_diversificacao in Hb, Hc. rewrite Hdiv in Hb, Hc.
  cbn [fst snd] in Hb, Hc.
  split.
  { apply Hb, in_or_app. right. apply in_map. exact Hs. }
  assert (Hsec : ∀ c,
            In c (restricoes_setor metricas (num vB)
                    (num (get config "alpha_setor_min" (VFloat 0)))
                    (num (get config "alpha_setor_max" (VFloat 0.3))) s) →
            satisfaz a c).
  { intros c Hin. apply Hc. apply in_or_app. right. apply in_or_app. left.
    apply in_or_app. left. apply in_flat_map. exists s. split; [exact Hs | exact Hin]. }
  pose proof (ativos_setor_nao_vazio metricas s Hs) as Hne.
  unfold investimento_setor. unfold restricoes_setor in Hsec.
  destruct (List.filter (λ i, String.eqb (setor i) s) metricas) as [|i0 l0] eqn:Ef;
    [congruence|].
  rewrite <- !valor_total.
  split; [|split].
  - specialize (Hsec _ (or_introl eq_refl)).
    unfold satisfaz in Hsec; cbn [sense lhs rhs] in Hsec.
    rewrite valor_expr_cte in Hsec. exact Hsec.
  - specialize (Hsec _ (or_intror (or_introl eq_refl))).
    unfold satisfaz in Hsec; cbn [sense lhs rhs] in Hsec.
    rewrite valor_expr_escala, valor_expr_var in Hsec. exact Hsec.
  - intros Hpos. apply Qlt_bool_iff in Hpos. rewrite Hpos in Hsec.
    specialize (Hsec _ (or_intror (or_intror (or_introl eq_refl)))).
    unfold satisfaz in Hsec; cbn [sense lhs rhs] in Hsec.
    rewrite valor_expr_escala, valor_expr_var in Hsec. exact Hsec.
Qed.

(** The part of C2 that holds: no sector receives more than
    [alpha_setor_max * B]. *)
Lemma teto_setor metricas (config : gmap string valor) m a s vB :
  construir_modelo metricas config = Ok m →
  viavel m a →
  config !! "orcamento"%string = Some vB →
  truthy (get config "diversificacao_setor" (VBool false)) = true →
  In s (unique (map setor metricas)) →
  investimento_setor metricas a s
  <= num (get config "alpha_setor_max" (VFloat 0.3)) * num vB.
Proof.
  intros Hm Hv HB Hdiv Hs.
  destruct (setor_viavel _ _ _ _ _ _ Hm Hv HB Hdiv Hs) as (_ & H & _). exact H.
Qed.

Lemma conta_setores (a : Var → Q) (inv : string → Q) (l : list string) :
  (∀ s, In s l → binaria a (z_setor s) ∧ (a (z_setor s) == 1 → 0 < inv s)) →
  somaQ (map (λ s, a (z_setor s)) l)
  <= inject_Z (Z.of_nat (length (List.filter (λ s, Qlt_bool 0 (inv s)) l))).
Proof.
  induction l as [|s l IH]; intros H.
  - apply Qle_refl.
  - cbn [map List.filter]. rewrite somaQ_cons.
    assert (IH' := IH (λ t Ht, H t (or_intror Ht))).
    destruct (H s (or_introl eq_refl)) as [[Hz|Hz] Hinv].
    + rewrite Hz.
      destruct (Qlt_bool 0 (inv s)); [|lra].
      cbn [length]. rewrite Nat2Z.inj_succ. unfold Z.succ. rewrite inject_Z_plus.
      change (inject_Z 1) with 1. lra.
    + assert (E : Qlt_bool 0 (inv s) = true) by (apply Qlt_bool_iff, Hinv, Hz).
      rewrite E, Hz. cbn [length]. rewrite Nat2Z.inj_succ. unfold Z.succ.
      rewrite inject_Z_plus. change (inject_Z 1) with 1. lra.
Qed.

(** The sector count that C2 asks for does hold once a raised indicator
    forces a positive investment, that is when [alpha_setor_min > 0]
    (and the budget is positive). *)
Lemma setores_garantidos_com_minimo metricas (config : gmap string valor) m a vB :
  construir_modelo metricas config = Ok m →
  viavel m a →
  config !! "orcamento"%string = Some vB →
  truthy (get config "diversificacao_setor" (VBool false)) = true →
  0 < num (get config "alpha_setor_min" (VFloat 0)) →
  0 < num vB →
  num (get config "num_setores_min" (VInt 1))
  <= inject_Z (Z.of_nat (length (setores_investidos metricas a))).
Proof.
  intros Hm Hv HB Hdiv Hmin HBpos.
  assert (Hcount : num (get config "num_setores_min" (VInt 1))
                   <= somaQ (map (λ s, a (z_setor s)) (unique (map setor metricas)))).
  { destruct Hv as (_ & _ & Hc).
    destruct (construir_modelo_inv _ _ _ Hm)
      as (vB' & vR & vT & vLmin & vLmax & M & _ & _ & _ & _ & _ & _ & _ & _ & Ec).
    rewrite Ec in Hc. rewrite List.Forall_forall in Hc.
    unfold restricoes_diversificacao in Hc. rewrite Hdiv in Hc. cbn [fst snd] in Hc.
    match type of Hc with
    | context [ _ ++ [?c] ] =>
        assert (Hsat : satisfaz a c)
        by (apply Hc; apply in_or_app; right; apply in_or_app; left;
            apply in_or_app; right; left; reflexivity)
    end.
    unfold satisfaz in Hsat; cbn [sense lhs rhs] in Hsat.
    rewrite valor_expr_cte, (valor_expr_quicksum a (λ s, var (z_setor s))) in Hsat.
    rewrite (somaQ_map_ext _ (λ s, a (z_setor s))) in Hsat
      by (intros; apply valor_expr_var).
    exact Hsat. }
  eapply Qle_trans; [exact Hcount|].
  unfold setores_investidos. apply conta_setores.
  intros s Hs.
  destruct (setor_viavel _ _ _ _ _ _ Hm Hv HB Hdiv Hs) as (Hz & _ & _ & Hlow).
  split; [exact Hz|]. intros Hz1. specialize (Hlow Hmin). rewrite Hz1 in Hlow. nra.
Qed.

End Setores.

(** ** Reported ratios on an integral incumbent *)

Section Razoes.
Import Optimizer Carteira.

Lemma media_ponderada_itens (f : Ativo → Q) (g : ItemCarteira → Q) a (S : list Ativo) :
  (∀ i, g (item_carteira a i) = f i) →
  (∀ i, In i S → ∃ n : Z, a (y_var (ticker i)) == inject_Z n) →
  somaQ (map (λ it, g it * it_preco it * inject_Z (it_quantidade it))
             (map (item_carteira a) S))
  == somaQ (map (λ i, f i * preco_atual i * a (y_var (ticker i))) S).
Proof.
  intros Hg Hint. rewrite map_map. apply somaQ_map_ext. intros i Hi.
  destruct (Hint i Hi) as [n Hn].
  rewrite Hg. unfold item_carteira; cbn [it_preco it_quantidade].
  rewrite (py_round_inject_Z _ _ Hn), Hn. reflexivity.
Qed.

(** The part of C5 about the two ratios holds when every [y.X] is an
    exact integer: the reported return and risk are then the averages
    weighted by the realised quantities. *)
Lemma razoes_de_solucao_inteira metricas a r sol :
  (∀ i, In i metricas → ∃ n : Z, a (y_var (ticker i)) == inject_Z n) →
  extrair_solucao metricas a r = Ok sol →
  0 < investimento_total sol →
  retorno_total sol == media_ponderada it_retorno_esperado (carteira sol)
  ∧ risco_total sol == media_ponderada it_desvio_padrao (carteira sol).
Proof.
  intros Hint Hext Hpos.
  destruct (extrair_solucao_inv _ _ _ _ Hext) as (_ & Hcart & _ & Htot & Eret & Erisco).
  assert (Hlt : Qlt_bool 0 (investimento_total sol) = true) by (apply Qlt_bool_iff; exact Hpos).
  rewrite Hlt in Eret, Erisco.
  assert (HintS : ∀ i, In i (List.filter (selecionado a) metricas) →
                       ∃ n : Z, a (y_var (ticker i)) == inject_Z n).
  { intros i Hi. apply filter_In in Hi. apply Hint, Hi. }
  unfold media_ponderada. rewrite Hcart. unfold DataFrame_de; cbn [linhas].
  rewrite <- Htot. rewrite Eret, Erisco. unfold Qdiv.
  rewrite (media_ponderada_itens retorno_esperado it_retorno_esperado a _ (λ _, eq_refl) HintS).
  rewrite (media_ponderada_itens desvio_padrao it_desvio_padrao a _ (λ _, eq_refl) HintS).
  split; reflexivity.
Qed.

End Razoes.

(** ** The model: construction errors and infeasible scenarios *)

Section Construcao.
Import Optimizer.

Lemma min_preco_nao_nulo (metricas : list Ativo) i0 rest :
  metricas = i0 :: rest →
  (∀ i, In i metricas → ¬ preco_atual i == 0) →
  ¬ min_preco (preco_atual i0) (map preco_atual rest) == 0.
Proof.
  intros -> H.
  destruct (min_preco_spec (map preco_atual rest) (preco_atual i0)) as [Hin _].
  destruct Hin as [Hin|Hin].
  - rewrite <- Hin. apply H. left. reflexivity.
  - apply in_map_iff in Hin. destruct Hin as (j & Hj & Hjin).
    rewrite <- Hj. apply H. right. exact Hjin.
Qed.

End Construcao.

Section Construcao_erros.
Import Optimizer Leitura.

(** X1: a scenario that lacks one of the five keys read with
    [self.config[...]] makes [construir_modelo] raise [KeyError] on the
    first such key in reading order, whatever the universe. *)
Theorem construir_modelo_chave_ausente metricas (config : gmap string valor) pre k pos :
  chaves_obrigatorias = pre ++ k :: pos →
  (∀ k', In k' pre → is_Some (config !! k')) →
  config !! k = None →
  construir_modelo metricas config = Erro (KeyError k).
Proof.
  intros Hsplit Hpre Hk. unfold chaves_obrigatorias in Hsplit.
  assert (Hsome : ∀ k', In k' pre → ∃ v, getitem config k' = Ok v).
  { intros k' Hin. destruct (Hpre k' Hin) as [v Hv]. exists v.
    unfold getitem. rewrite Hv. reflexivity. }
  assert (Hnone : getitem config k = Erro (KeyError k)).
  { unfold getitem. rewrite Hk. reflexivity. }
  unfold construir_modelo.
  destruct pre as [|p1 pre]; cbn [app] in Hsplit.
  { injection Hsplit as <- _. rewrite Hnone. reflexivity. }
  injection Hsplit as <- Hsplit.
  destruct (Hsome "orcamento"%string (or_introl eq_refl)) as [v1 ->].
  destruct pre as [|p2 pre]; cbn [app] in Hsplit.
  { injection Hsplit as <- _. rewrite Hnone. reflexivity. }
  injection Hsplit as <- Hsplit.
  destruct (Hsome "risco_maximo"%string (or_intror (or_introl eq_refl))) as [v2 ->].
  destruct pre as [|p3 pre]; cbn [app] in Hsplit.
  { injection Hsplit as <- _. rewrite Hnone. reflexivity. }
  injection Hsplit as <- Hsplit.
  destruct (Hsome "retorno_minimo"%string
              (or_intror (or_intror (or_introl eq_refl)))) as [v3 ->].
  destruct pre as [|p4 pre]; cbn [app] in Hsplit.
  { injection Hsplit as <- _. rewrite Hnone. reflexivity. }
  injection Hsplit as <- Hsplit.
  destruct (Hsome "num_ativos_min"%string
              (or_intror (or_intror (or_intror (or_introl eq_refl))))) as [v4 ->].
  destruct pre as [|p5 pre]; cbn [app] in Hsplit.
  { injection Hsplit as <- _. rewrite Hnone. reflexivity. }
  injection Hsplit as _ Hsplit. destruct pre; discriminate Hsplit.
Qed.

Lemma construir_modelo_ok metricas (config : gmap string valor) :
  (∀ k, In k chaves_obrigatorias → is_Some (config !! k)) →
  (∀ i, In i metricas → ¬ preco_atual i == 0) →
  ∃ m, construir_modelo metricas config = Ok m.
Proof.
  intros Hk Hp. unfold construir_modelo, getitem.
  destruct (Hk "orcamento"%string) as [v1 ->]; [cbn; tauto|].
  destruct (Hk "risco_maximo"%string) as [v2 ->]; [cbn; tauto|].
  destruct (Hk "retorno_minimo"%string) as [v3 ->]; [cbn; tauto|].
  destruct (Hk "num_ativos_min"%string) as [v4 ->]; [cbn; tauto|].
  destruct (Hk "num_ativos_max"%string) as [v5 ->]; [cbn; tauto|].
  cbn [fmap resultado_fmap mbind resultado_bind].
  assert (HM : ∃ M, max_lotes metricas (num v1) = Ok M).
  { unfold max_lotes. destruct metricas as [|i0 rest] eqn:E; [eexists; reflexivity|].
    cbn [map].
    pose proof (min_preco_nao_nulo (i0 :: rest) i0 rest eq_refl Hp) as Hmin.
    destruct (Qeq_bool (min_preco (preco_atual i0) (map preco_atual rest)) 0) eqn:E0.
    - apply Qeq_bool_iff in E0. contradiction.
    - eexists. reflexivity. }
  destruct HM as [M ->]. eexists. reflexivity.
Qed.

(** X2: with the five keys present and no price equal to zero,
    [construir_modelo] returns a model; no other key is needed (each is
    read with [.get] and a default). *)
Theorem construir_modelo_sucesso metricas (config : gmap string valor) :
  (∀ k, In k chaves_obrigatorias → is_Some (config !! k)) →
  (∀ i, In i metricas → ¬ preco_atual i == 0) →
  ∃ m, construir_modelo metricas config = Ok m.
Proof. exact (construir_modelo_ok metricas config). Qed.

(** X3: with the five keys present, a universe whose cheapest price is
    zero makes [construir_modelo] raise [ZeroDivisionError] (in
    [B / min(preco.values())]). *)
Theorem construir_modelo_preco_nulo metricas (config : gmap string valor) i0 :
  (∀ k, In k chaves_obrigatorias → is_Some (config !! k)) →
  (∀ i, In i metricas → 0 <= preco_atual i) →
  In i0 metricas → preco_atual i0 == 0 →
  construir_modelo metricas config = Erro ZeroDivisionError.
Proof.
  intros Hk Hp Hin H0. unfold construir_modelo, getitem.
  destruct (Hk "orcamento"%string) as [v1 ->]; [cbn; tauto|].
  destruct (Hk "risco_maximo"%string) as [v2 ->]; [cbn; tauto|].
  destruct (Hk "retorno_minimo"%string) as [v3 ->]; [cbn; tauto|].
  destruct (Hk "num_ativos_min"%string) as [v4 ->]; [cbn; tauto|].
  destruct (Hk "num_ativos_max"%string) as [v5 ->]; [cbn; tauto|].
  cbn [fmap resultado_fmap mbind resultado_bind].
  assert (HM : max_lotes metricas (num v1) = Erro ZeroDivisionError).
  { unfold max_lotes. destruct metricas as [|j rest]; [destruct Hin|]. cbn [map].
    destruct (min_preco_spec (map preco_atual rest) (preco_atual j)) as [Hmin Hle].
    assert (Hle0 : min_preco (preco_atual j) (map preco_atual rest) <= 0).
    { rewrite <- H0. apply Hle. destruct Hin as [<-|Hin]; [left; reflexivity|].
      right. apply in_map. exact Hin. }
    assert (Hge0 : 0 <= min_preco (preco_atual j) (map preco_atual rest)).
    { destruct Hmin as [<-|Hmin]; [apply Hp; left; reflexivity|].
      apply in_map_iff in Hmin. destruct Hmin as (l & <- & Hl). apply Hp. right. exact Hl. }
    assert (E : Qeq_bool (min_preco (preco_atual j) (map preco_atual rest)) 0 = true).
    { apply Qeq_bool_iff. lra. }
    rewrite E. reflexivity. }
  rewrite HM. reflexivity.
Qed.

End Construcao_erros.

Section Construcao_erros_instancias.
Import Optimizer Leitura Exemplos Exemplos2.

(** Without [retorno_minimo] the construction stops at that key. *)
Lemma construir_modelo_chave_ausente_witness :
  chaves_obrigatorias
  = ["orcamento"; "risco_maximo"]%string
    ++ "retorno_minimo"%string :: ["num_ativos_min"; "num_ativos_max"]%string
  ∧ cenario_sem_retorno !! "retorno_minimo"%string = None
  ∧ construir_modelo universo cenario_sem_retorno = Erro (KeyError "retorno_minimo").
Proof.
  assert (H1 : chaves_obrigatorias
               = ["orcamento"; "risco_maximo"]%string
                 ++ "retorno_minimo"%string :: ["num_ativos_min"; "num_ativos_max"]%string)
    by reflexivity.
  assert (H2 : ∀ k', In k' ["orcamento"; "risco_maximo"]%string →
                     is_Some (cenario_sem_retorno !! k')).
  { intros k' [<-|[<-|[]]]; eexists; vm_compute; reflexivity. }
  assert (H3 : cenario_sem_retorno !! "retorno_minimo"%string = None)
    by (vm_compute; reflexivity).
  split; [exact H1|]. split; [exact H3|].
  exact (construir_modelo_chave_ausente universo cenario_sem_retorno _ _ _ H1 H2 H3).
Defined.

Lemma construir_modelo_sucesso_witness :
  ∃ m, construir_modelo universo (cenario 1) = Ok m.
Proof.
  apply construir_modelo_sucesso.
  - intros k [<-|[<-|[<-|[<-|[<-|[]]]]]]; eexists; vm_compute; reflexivity.
  - intros i [<-|[<-|[<-|[]]]]; discriminate.
Defined.

Lemma construir_modelo_preco_nulo_witness :
  construir_modelo universo_preco_nulo (cenario 1) = Erro ZeroDivisionError.
Proof.
  apply (construir_modelo_preco_nulo universo_preco_nulo (cenario 1)
           (ativo "ZERO3" "Energia" 0.10 0.10 0)).
  - intros k [<-|[<-|[<-|[<-|[<-|[]]]]]]; eexists; vm_compute; reflexivity.
  - intros i [<-|[<-|[]]]; discriminate.
  - right. left. reflexivity.
  - reflexivity.
Defined.

End Construcao_erros_instancias.

(** ** Scenarios no assignment can meet *)

Section Inviabilidade.
Import Optimizer.

Lemma somaQ_map_plus {A} (f g : A → Q) (l : list A) :
  somaQ (map (λ x, f x + g x) l) == somaQ (map f l) + somaQ (map g l).
Proof.
  induction l as [|x l IH]; [reflexivity|].
  cbn [map]. rewrite !somaQ_cons, IH. lra.
Qed.

Lemma somaQ_termo_le {A} (f : A → Q) (l : list A) (x : A) :
  (∀ y, In y l → 0 <= f y) → In x l → f x <= somaQ (map f l).
Proof.
  induction l as [|y l IH]; intros Hnn Hin; [destruct Hin|].
  cbn [map]. rewrite somaQ_cons.
  assert (0 <= f y) by (apply Hnn; left; reflexivity).
  assert (0 <= somaQ (map f l)).
  { apply somaQ_map_nonneg. intros z Hz. apply Hnn. right. exact Hz. }
  destruct Hin as [<-|Hin]; [lra|].
  assert (f x <= somaQ (map f l)).
  { apply IH; [|exact Hin]. intros z Hz. apply Hnn. right. exact Hz. }
  lra.
Qed.

(** The base constraints and the per-asset facts of an accepted
    assignment, as inequalities between sums. *)
Lemma restricoes_base_viavel metricas config m a :
  construir_modelo metricas config = Ok m →
  viavel m a →
  ∃ vB vR vT vLmin vLmax M,
    config !! "orcamento"%string = Some vB
    ∧ config !! "risco_maximo"%string = Some vR
    ∧ config !! "retorno_minimo"%string = Some vT
    ∧ config !! "num_ativos_min"%string = Some vLmin
    ∧ config !! "num_ativos_max"%string = Some vLmax
    ∧ max_lotes metricas (num vB) = Ok M
    ∧ somaQ (map (λ i, preco_atual i * a (y_var (ticker i))) metricas) <= num vB
    ∧ somaQ (map (λ i, desvio_padrao i * preco_atual i * a (y_var (ticker i))) metricas)
      - num vR * somaQ (map (λ i, preco_atual i * a (y_var (ticker i))) metricas) <= 0
    ∧ 0 <= somaQ (map (λ i, retorno_esperado i * preco_atual i * a (y_var (ticker i)))
                      metricas)
           - num vT * somaQ (map (λ i, preco_atual i * a (y_var (ticker i))) metricas)
    ∧ num vLmin <= somaQ (map (λ i, a (x_var (ticker i))) metricas)
    ∧ somaQ (map (λ i, a (x_var (ticker i))) metricas) <= num vLmax
    ∧ ∀ i, In i metricas →
        binaria a (x_var (ticker i))
        ∧ (∃ n : Z, (0 ≤ n)%Z ∧ a (y_var (ticker i)) == inject_Z n)
        ∧ a (y_var (ticker i)) <= inject_Z M * a (x_var (ticker i))
        ∧ a (x_var (ticker i)) <= a (y_var (ticker i)).
Proof.
  intros Hm Hv.
  destruct (construir_modelo_inv _ _ _ Hm)
    as (vB & vR & vT & vLmin & vLmax & M & HB & HR & HT & HLmin & HLmax & HM & Eb & Ei & Ec).
  exists vB, vR, vT, vLmin, vLmax, M.
  do 6 (split; [assumption|]).
  destruct Hv as (Hvb & Hvi & Hc).
  rewrite List.Forall_forall in Hvb, Hvi, Hc. rewrite Eb in Hvb. rewrite Ei in Hvi.
  rewrite Ec in Hc.
  pose proof (Hc _ (or_introl eq_refl)) as C1.
  pose proof (Hc _ (or_intror (or_introl eq_refl))) as C2.
  pose proof (Hc _ (or_intror (or_intror (or_introl eq_refl)))) as C3.
  pose proof (Hc _ (or_intror (or_intror (or_intror (or_introl eq_refl))))) as C4.
  pose proof (Hc _ (or_intror (or_intror (or_intror (or_intror (or_introl eq_refl)))))) as C5.
  unfold satisfaz in C1, C2, C3, C4, C5. cbn [sense lhs rhs] in C1, C2, C3, C4, C5.
  rewrite valor_expr_cte in C1, C2, C3, C4, C5.
  rewrite valor_total in C1.
  rewrite valor_expr_menos, valor_expr_escala, valor_total, valor_ponderado in C2, C3.
  rewrite (valor_expr_quicksum a (λ i, var (x_var (ticker i)))) in C4, C5.
  rewrite (somaQ_map_ext _ (λ i, a (x_var (ticker i)))) in C4, C5
    by (intros; apply valor_expr_var).
  do 5 (split; [assumption|]).
  intros i Hin.
  assert (Hcons : ∀ c, In c (restricoes_consistencia metricas M) → satisfaz a c).
  { intros c Hcin. apply Hc. apply in_or_app; right.
    do 3 (apply in_or_app; right). exact Hcin. }
  split; [|split; [|split]].
  - apply Hvb, in_or_app. left. apply (in_map (λ i, x_var (ticker i))). exact Hin.
  - apply Hvi. apply (in_map (λ i, y_var (ticker i))). exact Hin.
  - specialize (Hcons
      {| nome := "consistencia_max_" +:+ ticker i;
         lhs := var (y_var (ticker i)); sense := LE;
         rhs := escala (inject_Z M) (var (x_var (ticker i))) |}).
    unfold satisfaz in Hcons; cbn [sense lhs rhs] in Hcons.
    rewrite valor_expr_escala, !valor_expr_var in Hcons. apply Hcons.
    unfold restricoes_consistencia. apply in_flat_map. exists i.
    split; [exact Hin | left; reflexivity].
  - specialize (Hcons
      {| nome := "consistencia_min_" +:+ ticker i;
         lhs := var (y_var (ticker i)); sense := GE;
         rhs := escala 1 (var (x_var (ticker i))) |}).
    unfold satisfaz in Hcons; cbn [sense lhs rhs] in Hcons.
    rewrite valor_expr_escala, !valor_expr_var in Hcons.
    rewrite Qmult_1_l in Hcons. apply Hcons.
    unfold restricoes_consistencia. apply in_flat_map. exists i.
    split; [exact Hin | right; left; reflexivity].
Qed.

(** When every quantity is zero, no asset is selected and the model can
    only ask for no asset at all. *)
Lemma compra_nula metricas config m a :
  construir_modelo metricas config = Ok m →
  viavel m a →
  (∀ i, In i metricas → a (y_var (ticker i)) == 0) →
  (∀ i, In i metricas → a (x_var (ticker i)) == 0)
  ∧ ∀ v, config !! "num_ativos_min"%string = Some v → num v <= 0.
Proof.
  intros Hm Hv Hy.
  destruct (restricoes_base_viavel _ _ _ _ Hm Hv)
    as (vB & vR & vT & vLmin & vLmax & M & _ & _ & _ & HLmin & _ & _ & _ & _ & _ & Hmin & _ & Hi).
  assert (Hx : ∀ i, In i metricas → a (x_var (ticker i)) == 0).
  { intros i Hin. destruct (Hi i Hin) as ([H0|H1] & _ & _ & Hle); [exact H0|].
    rewrite H1, (Hy i Hin) in Hle. lra. }
  split; [exact Hx|].
  intros v E. rewrite HLmin in E. injection E as <-.
  rewrite (somaQ_map_zero _ _ Hx) in Hmin. exact Hmin.
Qed.

(** X4: a scenario that asks for more assets than the universe holds is
    infeasible: the model accepts no assignment. *)
Theorem modelo_inviavel_poucos_ativos metricas (config : gmap string valor) m v :
  construir_modelo metricas config = Ok m →
  config !! "num_ativos_min"%string = Some v →
  inject_Z (Z.of_nat (length metricas)) < num v →
  ∀ a, ¬ viavel m a.
Proof.
  intros Hm Hv Hlt a Hvi.
  destruct (restricoes_base_viavel _ _ _ _ Hm Hvi)
    as (vB & vR & vT & vLmin & vLmax & M & _ & _ & _ & HLmin & _ & _ & _ & _ & _ & Hmin & _ & Hi).
  rewrite Hv in HLmin. injection HLmin as <-.
  rewrite (conta_selecionados a metricas) in Hmin
    by (intros i Hin; apply (Hi i Hin)).
  assert (Hlen : (length (List.filter (Optimizer.selecionado a) metricas) <= length metricas)%nat)
    by apply filter_length_le.
  assert (inject_Z (Z.of_nat (length (List.filter (selecionado a) metricas)))
          <= inject_Z (Z.of_nat (length metricas))).
  { rewrite <- Zle_Qle. lia. }
  lra.
Qed.

(** X5: when the budget is below the price of every asset, every
    assignment the model accepts buys nothing and selects nothing; so
    the model is infeasible as soon as [num_ativos_min] is positive. *)
Theorem orcamento_abaixo_dos_precos metricas (config : gmap string valor) m vB a :
  construir_modelo metricas config = Ok m →
  config !! "orcamento"%string = Some vB →
  (∀ i, In i metricas → 0 < preco_atual i ∧ num vB < preco_atual i) →
  viavel m a →
  (∀ i, In i metricas → a (x_var (ticker i)) == 0 ∧ a (y_var (ticker i)) == 0)
  ∧ ∀ v, config !! "num_ativos_min"%string = Some v → num v <= 0.
Proof.
  intros Hm HB Hp Hv.
  destruct (restricoes_base_viavel _ _ _ _ Hm Hv)
    as (vB' & vR & vT & vLmin & vLmax & M & HB' & _ & _ & _ & _ & _ & Hbud & _ & _ & _ & _ & Hi).
  rewrite HB in HB'. injection HB' as <-.
  assert (Hy : ∀ i, In i metricas → a (y_var (ticker i)) == 0).
  { intros i Hin.
    assert (Hterm : preco_atual i * a (y_var (ticker i)) <= num vB).
    { eapply Qle_trans; [|exact Hbud].
      apply (somaQ_termo_le (λ i, preco_atual i * a (y_var (ticker i)))); [|exact Hin].
      intros j Hj. destruct (Hi j Hj) as (_ & (n & Hn0 & Hn) & _).
      destruct (Hp j Hj) as [Hpj _].
      assert (0 <= a (y_var (ticker j))).
      { rewrite Hn. change 0 with (inject_Z 0). rewrite <- Zle_Qle. exact Hn0. }
      apply Qmult_le_0_compat; lra. }
    destruct (Hi i Hin) as (_ & (n & Hn0 & Hn) & _).
    destruct (Hp i Hin) as [Hpi HBi].
    rewrite Hn in Hterm |- *.
    assert (Hn1 : (n < 1)%Z).
    { apply Znot_ge_lt. intros Hge.
      assert (1 <= inject_Z n) by (change 1 with (inject_Z 1); rewrite <- Zle_Qle; lia).
      assert (0 <= preco_atual i * (inject_Z n - 1)) by (apply Qmult_le_0_compat; lra).
      lra. }
    assert (n = 0%Z) by lia. subst n. reflexivity. }
  destruct (compra_nula _ _ _ _ Hm Hv Hy) as [Hx Hl].
  split; [|exact Hl].
  intros i Hin. split; [apply Hx | apply Hy]; exact Hin.
Qed.

(** X6: when every asset is more volatile than [risco_maximo] (prices
    positive), every assignment the model accepts buys nothing; so the
    model is infeasible as soon as [num_ativos_min] is positive. *)
Theorem risco_inalcancavel metricas (config : gmap string valor) m vR a :
  construir_modelo metricas config = Ok m →
  config !! "risco_maximo"%string = Some vR →
  (∀ i, In i metricas → 0 < preco_atual i ∧ num vR < desvio_padrao i) →
  viavel m a →
  (∀ i, In i metricas → a (x_var (ticker i)) == 0 ∧ a (y_var (ticker i)) == 0)
  ∧ ∀ v, config !! "num_ativos_min"%string = Some v → num v <= 0.
Proof.
  intros Hm HR Hp Hv.
  destruct (restricoes_base_viavel _ _ _ _ Hm Hv)
    as (vB & vR' & vT & vLmin & vLmax & M & _ & HR' & _ & _ & _ & _ & _ & Hrisk & _ & _ & _ & Hi).
  rewrite HR in HR'. injection HR' as <-.
  set (g := λ i : Ativo, (desvio_padrao i - num vR) * (preco_atual i * a (y_var (ticker i)))).
  assert (Hsum : somaQ (map g metricas) <= 0).
  { unfold g.
    rewrite (somaQ_map_ext _ (λ i, desvio_padrao i * preco_atual i * a (y_var (ticker i))
                                   + - num vR * (preco_atual i * a (y_var (ticker i)))))
      by (intros; lra).
    rewrite somaQ_map_plus, somaQ_map_scale. lra. }
  assert (Hnn : ∀ i, In i metricas → 0 <= g i).
  { intros i Hin. unfold g. destruct (Hi i Hin) as (_ & (n & Hn0 & Hn) & _).
    destruct (Hp i Hin) as [Hpi HRi].
    assert (0 <= a (y_var (ticker i))).
    { rewrite Hn. change 0 with (inject_Z 0). rewrite <- Zle_Qle. exact Hn0. }
    apply Qmult_le_0_compat; [lra | apply Qmult_le_0_compat; lra]. }
  assert (Hy : ∀ i, In i metricas → a (y_var (ticker i)) == 0).
  { intros i Hin.
    assert (Hgi : g i <= 0).
    { eapply Qle_trans; [|exact Hsum]. apply (somaQ_termo_le g); assumption. }
    destruct (Hi i Hin) as (_ & (n & Hn0 & Hn) & _).
    destruct (Hp i Hin) as [Hpi HRi].
    assert (H0 : 0 <= a (y_var (ticker i))).
    { rewrite Hn. change 0 with (inject_Z 0). rewrite <- Zle_Qle. exact Hn0. }
    unfold g in Hgi.
    destruct (Qlt_le_dec 0 (a (y_var (ticker i)))) as [Hlt|Hle]; [|lra].
    assert (0 < (desvio_padrao i - num vR) * (preco_atual i * a (y_var (ticker i)))).
    { apply Qmult_lt_0_compat; [lra | apply Qmult_lt_0_compat; lra]. }
    lra. }
  destruct (compra_nula _ _ _ _ Hm Hv Hy) as [Hx Hl].
  split; [|exact Hl].
  intros i Hin. split; [apply Hx | apply Hy]; exact Hin.
Qed.

(** X7: when every asset has an expected return below [retorno_minimo]
    (prices positive), every assignment the model accepts buys nothing;
    so the model is infeasible as soon as [num_ativos_min] is positive. *)
Theorem retorno_inalcancavel metricas (config : gmap string valor) m vT a :
  construir_modelo metricas config = Ok m →
  config !! "retorno_minimo"%string = Some vT →
  (∀ i, In i metricas → 0 < preco_atual i ∧ retorno_esperado i < num vT) →
  viavel m a →
  (∀ i, In i metricas → a (x_var (ticker i)) == 0 ∧ a (y_var (ticker i)) == 0)
  ∧ ∀ v, config !! "num_ativos_min"%string = Some v → num v <= 0.
Proof.
  intros Hm HT Hp Hv.
  destruct (restricoes_base_viavel _ _ _ _ Hm Hv)
    as (vB & vR & vT' & vLmin & vLmax & M & _ & _ & HT' & _ & _ & _ & _ & _ & Hret & _ & _ & Hi).
  rewrite HT in HT'. injection HT' as <-.
  set (g := λ i : Ativo, (num vT - retorno_esperado i) * (preco_atual i * a (y_var (ticker i)))).
  assert (Hsum : somaQ (map g metricas) <= 0).
  { unfold g.
    rewrite (somaQ_map_ext _ (λ i, num vT * (preco_atual i * a (y_var (ticker i)))
                                   + -1 * (retorno_esperado i * preco_atual i
                                           * a (y_var (ticker i)))))
      by (intros; lra).
    rewrite somaQ_map_plus, !somaQ_map_scale. lra. }
  assert (Hnn : ∀ i, In i metricas → 0 <= g i).
  { intros i Hin. unfold g. destruct (Hi i Hin) as (_ & (n & Hn0 & Hn) & _).
    destruct (Hp i Hin) as [Hpi HTi].
    assert (0 <= a (y_var (ticker i))).
    { rewrite Hn. change 0 with (inject_Z 0). rewrite <- Zle_Qle. exact Hn0. }
    apply Qmult_le_0_compat; [lra | apply Qmult_le_0_compat; lra]. }
  assert (Hy : ∀ i, In i metricas → a (y_var (ticker i)) == 0).
  { intros i Hin.
    assert (Hgi : g i <= 0).
    { eapply Qle_trans; [|exact Hsum]. apply (somaQ_termo_le g); assumption. }
    destruct (Hi i Hin) as (_ & (n & Hn0 & Hn) & _).
    destruct (Hp i Hin) as [Hpi HTi].
    assert (H0 : 0 <= a (y_var (ticker i))).
    { rewrite Hn. change 0 with (inject_Z 0). rewrite <- Zle_Qle. exact Hn0. }
    unfold g in Hgi.
    destruct (Qlt_le_dec 0 (a (y_var (ticker i)))) as [Hlt|Hle]; [|lra].
    assert (0 < (num vT - retorno_esperado i) * (preco_atual i * a (y_var (ticker i)))).
    { apply Qmult_lt_0_compat; [lra | apply Qmult_lt_0_compat; lra]. }
    lra. }
  destruct (compra_nula _ _ _ _ Hm Hv Hy) as [Hx Hl].
  split; [|exact Hl].
  intros i Hin. split; [apply Hx | apply Hy]; exact Hin.
Qed.

End Inviabilidade.

Section Inviabilidade_instancias.
Import Optimizer Exemplos Exemplos2 Config.

(** The moderate preset asks for five assets; the universe has three. *)
Lemma modelo_inviavel_poucos_ativos_witness :
  construir_modelo universo CENARIO_MODERADO = Ok (modelo_de universo CENARIO_MODERADO)
  ∧ ∀ a, ¬ viavel (modelo_de universo CENARIO_MODERADO) a.
Proof.
  assert (Hm : construir_modelo universo CENARIO_MODERADO
               = Ok (modelo_de universo CENARIO_MODERADO)) by (vm_compute; reflexivity).
  split; [exact Hm|].
  apply (modelo_inviavel_poucos_ativos universo CENARIO_MODERADO _ (VInt 5) Hm).
  - reflexivity.
  - reflexivity.
Defined.

Ltac precos_universo :=
  let i := fresh "i" in
  intros i [<-|[<-|[<-|[]]]]; split; reflexivity.

(** A budget of 10 buys none of the three assets. *)
Lemma orcamento_abaixo_dos_precos_witness :
  viavel (modelo_de universo (cenario_com 10 0.25 0.10)) compra_nada
  ∧ (∀ i, In i universo →
       compra_nada (x_var (ticker i)) == 0 ∧ compra_nada (y_var (ticker i)) == 0)
  ∧ ∀ v, cenario_com 10 0.25 0.10 !! "num_ativos_min"%string = Some v → num v <= 0.
Proof.
  assert (Hm : construir_modelo universo (cenario_com 10 0.25 0.10)
               = Ok (modelo_de universo (cenario_com 10 0.25 0.10)))
    by (vm_compute; reflexivity).
  assert (Hv : viavel (modelo_de universo (cenario_com 10 0.25 0.10)) compra_nada)
    by (apply viavel_b_correto; vm_compute; reflexivity).
  split; [exact Hv|].
  apply (orcamento_abaixo_dos_precos universo (cenario_com 10 0.25 0.10) _ (VFloat 10) _ Hm);
    [reflexivity | precos_universo | exact Hv].
Defined.

(** A risk cap of 1% is below the volatility of the three assets. *)
Lemma risco_inalcancavel_witness :
  viavel (modelo_de universo (cenario_com 10000 0.01 0.10)) compra_nada
  ∧ (∀ i, In i universo →
       compra_nada (x_var (ticker i)) == 0 ∧ compra_nada (y_var (ticker i)) == 0)
  ∧ ∀ v, cenario_com 10000 0.01 0.10 !! "num_ativos_min"%string = Some v → num v <= 0.
Proof.
  assert (Hm : construir_modelo universo (cenario_com 10000 0.01 0.10)
               = Ok (modelo_de universo (cenario_com 10000 0.01 0.10)))
    by (vm_compute; reflexivity).
  assert (Hv : viavel (modelo_de universo (cenario_com 10000 0.01 0.10)) compra_nada)
    by (apply viavel_b_correto; vm_compute; reflexivity).
  split; [exact Hv|].
  apply (risco_inalcancavel universo (cenario_com 10000 0.01 0.10) _ (VFloat 0.01) _ Hm);
    [reflexivity | precos_universo | exact Hv].
Defined.

(** A return floor of 50% is above the return of the three assets. *)
Lemma retorno_inalcancavel_witness :
  viavel (modelo_de universo (cenario_com 10000 0.25 0.5)) compra_nada
  ∧ (∀ i, In i universo →
       compra_nada (x_var (ticker i)) == 0 ∧ compra_nada (y_var (ticker i)) == 0)
  ∧ ∀ v, cenario_com 10000 0.25 0.5 !! "num_ativos_min"%string = Some v → num v <= 0.
Proof.
  assert (Hm : construir_modelo universo (cenario_com 10000 0.25 0.5)
               = Ok (modelo_de universo (cenario_com 10000 0.25 0.5)))
    by (vm_compute; reflexivity).
  assert (Hv : viavel (modelo_de universo (cenario_com 10000 0.25 0.5)) compra_nada)
    by (apply viavel_b_correto; vm_compute; reflexivity).
  split; [exact Hv|].
  apply (retorno_inalcancavel universo (cenario_com 10000 0.25 0.5) _ (VFloat 0.5) _ Hm);
    [reflexivity | precos_universo | exact Hv].
Defined.

End Inviabilidade_instancias.

(** ** The extracted portfolio *)

Section Carteira_extraida.
Import Optimizer Carteira Leitura.

Lemma linhas_carteira metricas a r sol :
  extrair_solucao metricas a r = Ok sol →
  linhas (carteira sol) = map (item_carteira a) (List.filter (selecionado a) metricas).
Proof.
  intros H. destruct (extrair_solucao_inv _ _ _ _ H) as (_ & -> & _). reflexivity.
Qed.

(** X8: whenever [extrair_solucao] returns, the portfolio frame has one
    row per asset with [x > 0.5], in the order of the metrics index, and
    at least one; [num_ativos] is its number of rows, [investimento_total]
    the sum of its [investimento] column, and every row has
    [investimento = quantidade * preco]. *)
Theorem carteira_extraida metricas a r sol :
  extrair_solucao metricas a r = Ok sol →
  map it_ticker (linhas (carteira sol))
  = map ticker (List.filter (selecionado a) metricas)
  ∧ num_ativos sol = length (linhas (carteira sol))
  ∧ (0 < num_ativos sol)%nat
  ∧ investimento_total sol = somaQ (map it_investimento (linhas (carteira sol)))
  ∧ ∀ it, In it (linhas (carteira sol)) →
      it_investimento it = inject_Z (it_quantidade it) * it_preco it.
Proof.
  intros H. pose proof (linhas_carteira _ _ _ _ H) as Hl.
  destruct (extrair_solucao_inv _ _ _ _ H) as (Hne & _ & Hnum & Htot & _ & _).
  rewrite Hl. repeat split.
  - rewrite map_map. reflexivity.
  - rewrite length_map. exact Hnum.
  - rewrite Hnum. destruct (List.filter (selecionado a) metricas); [congruence|].
    cbn [length]. lia.
  - exact Htot.
  - intros it Hit. apply in_map_iff in Hit. destruct Hit as (i & <- & _). reflexivity.
Qed.

(** X13: on an empty universe [otimizar] never returns a solution: it
    returns [None] or raises, whatever the solver reports. *)
Theorem universo_vazio_sem_solucao (r : Resolvido) (sol : Solucao) :
  otimizar [] r ≠ Ok (Some sol).
Proof.
  unfold otimizar.
  destruct (status r); destruct (X r); cbn; discriminate.
Qed.

(** The facts about one row of the portfolio extracted from an accepted
    assignment. *)
Lemma linha_de_viavel metricas config m a r sol it :
  construir_modelo metricas config = Ok m →
  viavel m a →
  extrair_solucao metricas a r = Ok sol →
  In it (linhas (carteira sol)) →
  ∃ i n, In i metricas ∧ it = item_carteira a i
         ∧ a (x_var (ticker i)) == 1
         ∧ a (y_var (ticker i)) == inject_Z n
         ∧ it_quantidade it = n ∧ (1 ≤ n)%Z.
Proof.
  intros Hm Hv Hext Hit.
  rewrite (linhas_carteira _ _ _ _ Hext) in Hit.
  apply in_map_iff in Hit. destruct Hit as (i & <- & Hi).
  apply filter_In in Hi. destruct Hi as [Hin Hsel].
  destruct (restricoes_base_viavel _ _ _ _ Hm Hv)
    as (vB & vR & vT & vLmin & vLmax & M & _ & _ & _ & _ & _ & _ & _ & _ & _ & _ & _ & Hi).
  destruct (Hi i Hin) as (Hx & (n & Hn0 & Hn) & _ & Hle).
  destruct (selecionado_binaria a i Hx) as [[_ Hx1]|[Hs _]]; [|congruence].
  exists i, n. split; [exact Hin|]. split; [reflexivity|]. split; [exact Hx1|].
  split; [exact Hn|]. split.
  - unfold item_carteira; cbn [it_quantidade]. apply py_round_inject_Z. exact Hn.
  - rewrite Hx1, Hn in Hle. change 1 with (inject_Z 1) in Hle.
    rewrite <- Zle_Qle in Hle. exact Hle.
Qed.

(** X9: in the portfolio extracted from an assignment the model
    accepts, every row carries the solver's quantity unchanged, and that
    quantity is at least 1 and at most the big-M [max_lotes]. *)
Theorem carteira_quantidades metricas (config : gmap string valor) m a r sol :
  construir_modelo metricas config = Ok m →
  viavel m a →
  extrair_solucao metricas a r = Ok sol →
  ∃ vB M, config !! "orcamento"%string = Some vB
          ∧ max_lotes metricas (num vB) = Ok M
          ∧ ∀ it, In it (linhas (carteira sol)) →
              inject_Z (it_quantidade it) == a (y_var (it_ticker it))
              ∧ (1 ≤ it_quantidade it ≤ M)%Z.
Proof.
  intros Hm Hv Hext.
  destruct (restricoes_base_viavel _ _ _ _ Hm Hv)
    as (vB & vR & vT & vLmin & vLmax & M & HB & _ & _ & _ & _ & HM & _ & _ & _ & _ & _ & Hi).
  exists vB, M. split; [exact HB|]. split; [exact HM|].
  intros it Hit.
  destruct (linha_de_viavel _ _ _ _ _ _ _ Hm Hv Hext Hit)
    as (i & n & Hin & -> & Hx1 & Hn & Hq & Hn1).
  cbn [it_ticker it_quantidade item_carteira] in Hq |- *. rewrite Hq.
  split; [symmetry; exact Hn|]. split; [exact Hn1|].
  destruct (Hi i Hin) as (_ & _ & Hmax & _).
  rewrite Hx1, Hn, Qmult_1_r in Hmax. rewrite <- Zle_Qle in Hmax. exact Hmax.
Qed.

(** An asset with a negative expected return is fixed at zero whenever
    the exclusion flag is true or absent. *)
Lemma negativo_fixado metricas (config : gmap string valor) m a i :
  construir_modelo metricas config = Ok m →
  viavel m a →
  truthy (get config "excluir_retorno_negativo" (VBool true)) = true →
  In i metricas → retorno_esperado i < 0 →
  a (y_var (ticker i)) == 0.
Proof.
  intros Hm (_ & _ & Hc) Hflag Hin Hneg.
  destruct (construir_modelo_inv _ _ _ Hm)
    as (vB & vR & vT & vLmin & vLmax & M & _ & _ & _ & _ & _ & _ & _ & _ & Ec).
  rewrite List.Forall_forall in Hc. rewrite Ec in Hc.
  assert (Hsat : satisfaz a {| nome := "no_negative_" +:+ ticker i;
                               lhs := var (y_var (ticker i)); sense := EQ; rhs := cte 0 |}).
  { apply Hc. apply in_or_app; right. do 2 (apply in_or_app; right).
    apply in_or_app; left. unfold restricoes_negativos. rewrite Hflag.
    apply (in_map (λ i, {| nome := "no_negative_" +:+ ticker i;
                           lhs := var (y_var (ticker i)); sense := EQ; rhs := cte 0 |})).
    apply filter_In. split; [exact Hin | apply Qlt_bool_iff; exact Hneg]. }
  unfold satisfaz in Hsat; cbn [sense lhs rhs] in Hsat.
  rewrite valor_expr_var, valor_expr_cte in Hsat. exact Hsat.
Qed.

(** X10: when [excluir_retorno_negativo] is true or absent, the
    portfolio extracted from an assignment the model accepts has no row
    with a negative expected return. *)
Theorem carteira_sem_retorno_negativo metricas (config : gmap string valor) m a r sol :
  construir_modelo metricas config = Ok m →
  viavel m a →
  truthy (get config "excluir_retorno_negativo" (VBool true)) = true →
  extrair_solucao metricas a r = Ok sol →
  ∀ it, In it (linhas (carteira sol)) → 0 <= it_retorno_esperado it.
Proof.
  intros Hm Hv Hflag Hext it Hit.
  destruct (linha_de_viavel _ _ _ _ _ _ _ Hm Hv Hext Hit)
    as (i & n & Hin & -> & _ & Hn & _ & Hn1).
  cbn [it_retorno_esperado item_carteira].
  destruct (Qlt_le_dec (retorno_esperado i) 0) as [Hneg|Hok]; [|exact Hok].
  pose proof (negativo_fixado _ _ _ _ _ Hm Hv Hflag Hin Hneg) as H0.
  rewrite Hn in H0.
  assert (1 <= inject_Z n) by (change 1 with (inject_Z 1); rewrite <- Zle_Qle; exact Hn1).
  lra.
Qed.

(** X11: when [max_ativo_pct] is below 1, every row of the portfolio
    extracted from an assignment the model accepts has an investment of
    at most [max_ativo_pct * orcamento]. *)
Theorem carteira_teto_por_ativo metricas (config : gmap string valor) m a r sol vB :
  construir_modelo metricas config = Ok m →
  viavel m a →
  config !! "orcamento"%string = Some vB →
  num (get config "max_ativo_pct" (VFloat 1)) < 1 →
  extrair_solucao metricas a r = Ok sol →
  ∀ it, In it (linhas (carteira sol)) →
    it_investimento it <= num (get config "max_ativo_pct" (VFloat 1)) * num vB.
Proof.
  intros Hm Hv HB Hpct Hext it Hit.
  destruct (linha_de_viavel _ _ _ _ _ _ _ Hm Hv Hext Hit)
    as (i & n & Hin & -> & _ & Hn & Hq & _).
  destruct Hv as (_ & _ & Hc).
  destruct (construir_modelo_inv _ _ _ Hm)
    as (vB' & vR & vT & vLmin & vLmax & M & HB' & _ & _ & _ & _ & _ & _ & _ & Ec).
  rewrite HB in HB'. injection HB' as <-.
  rewrite List.Forall_forall in Hc. rewrite Ec in Hc.
  assert (Hsat : satisfaz a {| nome := "max_ativo_" +:+ ticker i; lhs := gasto i; sense := LE;
                               rhs := cte (num (get config "max_ativo_pct" (VFloat 1))
                                           * num vB) |}).
  { apply Hc. apply in_or_app; right. apply in_or_app; right. apply in_or_app; left.
    unfold restricoes_max_ativo.
    assert (E : Qlt_bool (num (get config "max_ativo_pct" (VFloat 1))) 1 = true)
      by (apply Qlt_bool_iff; exact Hpct).
    rewrite E.
    apply (in_map (λ i, {| nome := "max_ativo_" +:+ ticker i; lhs := gasto i; sense := LE;
                           rhs := cte (num (get config "max_ativo_pct" (VFloat 1))
                                       * num vB) |})).
    exact Hin. }
  unfold satisfaz in Hsat; cbn [sense lhs rhs] in Hsat.
  rewrite valor_expr_gasto, valor_expr_cte in Hsat.
  cbn [it_investimento it_quantidade item_carteira] in Hq |- *.
  rewrite Hq. rewrite Hn in Hsat. lra.
Qed.

Lemma construir_modelo_objetivo metricas config m :
  construir_modelo metricas config = Ok m →
  objetivo m = quicksum (map (λ i, escala (retorno_esperado i) (gasto i)) metricas).
Proof.
  unfold construir_modelo, getitem.
  destruct (config !! "orcamento"%string) as [vB|]; [|discriminate].
  destruct (config !! "risco_maximo"%string) as [vR|]; [|discriminate].
  destruct (config !! "retorno_minimo"%string) as [vT|]; [|discriminate].
  destruct (config !! "num_ativos_min"%string) as [vLmin|]; [|discriminate].
  destruct (config !! "num_ativos_max"%string) as [vLmax|]; [|discriminate].
  cbn [fmap resultado_fmap mbind resultado_bind].
  destruct (max_lotes metricas (num vB)) as [M|e]; [|discriminate].
  cbn [mbind resultado_bind mret resultado_ret].
  intros [= <-]. reflexivity.
Qed.

(** X12: for a universe with positive prices and an assignment the
    model accepts, the reported [retorno_total] is the objective of the
    model at that assignment divided by [investimento_total]:
    [retorno_total * investimento_total] equals the objective value. *)
Theorem objetivo_normalizado metricas (config : gmap string valor) m a r sol :
  (∀ i, In i metricas → 0 < preco_atual i) →
  construir_modelo metricas config = Ok m →
  viavel m a →
  extrair_solucao metricas a r = Ok sol →
  retorno_total sol * investimento_total sol == valor_expr a (objetivo m).
Proof.
  intros Hpos Hm Hv Hext.
  destruct (extracao_de_viavel _ _ _ _ _ _ Hpos Hm Hv Hext retorno_esperado)
    as (Hpos_tot & _ & Hret & _).
  destruct (extrair_solucao_inv _ _ _ _ Hext) as (_ & _ & _ & _ & Eret & _).
  assert (Hlt : Qlt_bool 0 (investimento_total sol) = true)
    by (apply Qlt_bool_iff; exact Hpos_tot).
  rewrite Hlt in Eret.
  rewrite (construir_modelo_objetivo _ _ _ Hm), valor_ponderado, <- Hret, Eret.
  field. lra.
Qed.

Lemma filter_map_comm {A B} (f : A → B) (P : B → bool) (l : list A) :
  List.filter P (map f l) = map f (List.filter (λ x, P (f x)) l).
Proof.
  induction l as [|x l IH]; [reflexivity|].
  cbn [map List.filter]. destruct (P (f x)); cbn [map]; rewrite IH; reflexivity.
Qed.

Lemma filter_filter_comm {A} (P Q : A → bool) (l : list A) :
  List.filter P (List.filter Q l) = List.filter Q (List.filter P l).
Proof.
  induction l as [|x l IH]; [reflexivity|].
  cbn [List.filter].
  destruct (P x) eqn:EP, (Q x) eqn:EQ; cbn [List.filter];
    rewrite ?EP, ?EQ, IH; reflexivity.
Qed.

(** X14: with sector diversification on, the rows of the portfolio
    extracted from an assignment the model accepts put at most
    [alpha_setor_max * orcamento] into any sector of the universe. *)
Theorem carteira_teto_por_setor metricas (config : gmap string valor) m a r sol vB s :
  construir_modelo metricas config = Ok m →
  viavel m a →
  config !! "orcamento"%string = Some vB →
  truthy (get config "diversificacao_setor" (VBool false)) = true →
  extrair_solucao metricas a r = Ok sol →
  In s (unique (map setor metricas)) →
  somaQ (map it_investimento (linhas_setor (carteira sol) s))
  <= num (get config "alpha_setor_max" (VFloat 0.3)) * num vB.
Proof.
  intros Hm Hv HB Hdiv Hext Hs.
  eapply Qle_trans; [|exact (teto_setor _ _ _ _ _ _ Hm Hv HB Hdiv Hs)].
  unfold linhas_setor, investimento_setor.
  rewrite (linhas_carteira _ _ _ _ Hext), filter_map_comm, map_map.
  cbn [it_setor item_carteira]. rewrite filter_filter_comm.
  destruct (restricoes_base_viavel _ _ _ _ Hm Hv)
    as (vB' & vR & vT & vLmin & vLmax & M & _ & _ & _ & _ & _ & _ & _ & _ & _ & _ & _ & Hi).
  set (L := List.filter (λ i, String.eqb (setor i) s) metricas).
  assert (HL : ∀ i, In i L → In i metricas) by (intros i Hi'; apply filter_In in Hi'; tauto).
  rewrite (soma_selecionados a (λ i, preco_atual i * a (y_var (ticker i))) L).
  - apply Qle_lteq. right. apply somaQ_map_ext. intros i Hin.
    apply filter_In in Hin. destruct Hin as [HinL Hsel].
    destruct (Hi i (HL i HinL)) as (_ & (n & _ & Hn) & _).
    unfold item_carteira; cbn [it_investimento].
    rewrite (py_round_inject_Z _ _ Hn), Hn. lra.
  - intros i HinL Hsel.
    destruct (Hi i (HL i HinL)) as (Hx & (n & Hn0 & Hn) & Hmax & _).
    destruct (selecionado_binaria a i Hx) as [[Hs' _]|[_ Hx0]]; [congruence|].
    assert (0 <= a (y_var (ticker i))).
    { rewrite Hn. change 0 with (inject_Z 0). rewrite <- Zle_Qle. exact Hn0. }
    rewrite Hx0 in Hmax.
    assert (a (y_var (ticker i)) == 0) by lra.
    rewrite H0. lra.
Qed.

End Carteira_extraida.

Section Carteira_extraida_instancias.
Import Optimizer Carteira Leitura Exemplos Exemplos2.

Lemma extracao_AB :
  extrair_solucao universo compra_AB (resolvido compra_AB)
  = Ok (solucao_de universo (resolvido compra_AB)).
Proof. vm_compute. reflexivity. Qed.

Lemma modelo_universo (config : gmap string valor) (a : Var → Q) :
  viavel_b (modelo_de universo config) a = true →
  (∃ m, construir_modelo universo config = Ok m) →
  construir_modelo universo config = Ok (modelo_de universo config)
  ∧ viavel (modelo_de universo config) a.
Proof.
  intros Hv [m Hm]. split; [|apply viavel_b_correto; exact Hv].
  unfold modelo_de. rewrite Hm. reflexivity.
Qed.

(** The purchase of 50 lots of A and 100 of B gives two rows. *)
Lemma carteira_extraida_witness :
  map it_ticker (linhas (carteira (solucao_de universo (resolvido compra_AB))))
  = ["AAAA3"; "BBBB4"]%string
  ∧ num_ativos (solucao_de universo (resolvido compra_AB)) = 2%nat.
Proof.
  destruct (carteira_extraida universo compra_AB (resolvido compra_AB) _ extracao_AB)
    as (Ht & Hn & _).
  split; [rewrite Ht | rewrite Hn]; vm_compute; reflexivity.
Defined.

Lemma carteira_quantidades_witness :
  ∃ vB M, cenario 1 !! "orcamento"%string = Some vB
          ∧ max_lotes universo (num vB) = Ok M
          ∧ ∀ it, In it (linhas (carteira (solucao_de universo (resolvido compra_AB)))) →
              inject_Z (it_quantidade it) == compra_AB (y_var (it_ticker it))
              ∧ (1 ≤ it_quantidade it ≤ M)%Z.
Proof.
  destruct (modelo_universo (cenario 1) compra_AB) as [Hm Hv];
    [vm_compute; reflexivity | eexists; vm_compute; reflexivity |].
  exact (carteira_quantidades universo (cenario 1) _ compra_AB (resolvido compra_AB) _
           Hm Hv extracao_AB).
Defined.

Lemma carteira_sem_retorno_negativo_witness :
  viavel (modelo_de universo (cenario 1)) compra_AB
  ∧ ∀ it, In it (linhas (carteira (solucao_de universo (resolvido compra_AB)))) →
          0 <= it_retorno_esperado it.
Proof.
  destruct (modelo_universo (cenario 1) compra_AB) as [Hm Hv];
    [vm_compute; reflexivity | eexists; vm_compute; reflexivity |].
  split; [exact Hv|].
  apply (carteira_sem_retorno_negativo universo (cenario 1) _ compra_AB
           (resolvido compra_AB) _ Hm Hv); [reflexivity | exact extracao_AB].
Defined.

Lemma carteira_teto_por_ativo_witness :
  viavel (modelo_de universo cenario_teto) compra_AB
  ∧ ∀ it, In it (linhas (carteira (solucao_de universo (resolvido compra_AB)))) →
          it_investimento it <= 0.6 * 10000.
Proof.
  destruct (modelo_universo cenario_teto compra_AB) as [Hm Hv];
    [vm_compute; reflexivity | eexists; vm_compute; reflexivity |].
  split; [exact Hv|].
  apply (carteira_teto_por_ativo universo cenario_teto _ compra_AB
           (resolvido compra_AB) _ (VFloat 10000) Hm Hv);
    [reflexivity | reflexivity | exact extracao_AB].
Defined.

Lemma objetivo_normalizado_witness :
  retorno_total (solucao_de universo (resolvido compra_AB))
  * investimento_total (solucao_de universo (resolvido compra_AB))
  == valor_expr compra_AB (objetivo (modelo_de universo (cenario 1))).
Proof.
  destruct (modelo_universo (cenario 1) compra_AB) as [Hm Hv];
    [vm_compute; reflexivity | eexists; vm_compute; reflexivity |].
  apply (objetivo_normalizado universo (cenario 1) _ compra_AB (resolvido compra_AB) _);
    [| exact Hm | exact Hv | exact extracao_AB].
  intros i [<-|[<-|[<-|[]]]]; reflexivity.
Defined.

Lemma carteira_teto_por_setor_witness :
  somaQ (map it_investimento
           (linhas_setor (carteira (solucao_de universo (resolvido compra_AB_setorial)))
              "Energia"))
  <= 0.6 * 10000.
Proof.
  destruct (modelo_universo cenario_setorial compra_AB_setorial) as [Hm Hv];
    [vm_compute; reflexivity | eexists; vm_compute; reflexivity |].
  apply (carteira_teto_por_setor universo cenario_setorial _ compra_AB_setorial
           (resolvido compra_AB_setorial) _ (VFloat 10000) "Energia" Hm Hv);
    [reflexivity | reflexivity | vm_compute; reflexivity | right; left; reflexivity].
Defined.

End Carteira_extraida_instancias.

(** ** Scenario dictionaries *)

Section Cenarios_modelo.
Import Optimizer Config Cenarios Leitura.

Lemma get_ext (c1 c2 : gmap string valor) k d :
  c1 !! k = c2 !! k → get c1 k d = get c2 k d.
Proof. intros H. unfold get. rewrite H. reflexivity. Qed.

Lemma getitem_ext (c1 c2 : gmap string valor) k :
  c1 !! k = c2 !! k → getitem c1 k = getitem c2 k.
Proof. intros H. unfold getitem. rewrite H. reflexivity. Qed.

Lemma construir_modelo_ext metricas (c1 c2 : gmap string valor) :
  (∀ k, In k chaves_lidas → c1 !! k = c2 !! k) →
  construir_modelo metricas c1 = construir_modelo metricas c2.
Proof.
  intros H.
  assert (Hk : ∀ k, In k chaves_lidas → c1 !! k = c2 !! k) by exact H.
  unfold construir_modelo, restricoes_diversificacao, restricoes_max_ativo,
    restricoes_negativos.
  rewrite (getitem_ext c1 c2 "orcamento") by (apply Hk; cbn; tauto).
  rewrite (getitem_ext c1 c2 "risco_maximo") by (apply Hk; cbn; tauto).
  rewrite (getitem_ext c1 c2 "retorno_minimo") by (apply Hk; cbn; tauto).
  rewrite (getitem_ext c1 c2 "num_ativos_min") by (apply Hk; cbn; tauto).
  rewrite (getitem_ext c1 c2 "num_ativos_max") by (apply Hk; cbn; tauto).
  rewrite (get_ext c1 c2 "diversificacao_setor") by (apply Hk; cbn; tauto).
  rewrite (get_ext c1 c2 "alpha_setor_min") by (apply Hk; cbn; tauto).
  rewrite (get_ext c1 c2 "alpha_setor_max") by (apply Hk; cbn; tauto).
  rewrite (get_ext c1 c2 "num_setores_min") by (apply Hk; cbn; tauto).
  rewrite (get_ext c1 c2 "max_ativo_pct") by (apply Hk; cbn; tauto).
  rewrite (get_ext c1 c2 "excluir_retorno_negativo") by (apply Hk; cbn; tauto).
  reflexivity.
Qed.

(** X15: [construir_modelo] depends on the scenario through eleven keys
    only: two dictionaries that agree on them give the same model (or
    the same error) on every universe; entries such as [time_limit],
    [mip_gap] or [cenario_nome] never reach the model. *)
Theorem construir_modelo_chaves_lidas metricas (c1 c2 : gmap string valor) :
  (∀ k, In k chaves_lidas → c1 !! k = c2 !! k) →
  construir_modelo metricas c1 = construir_modelo metricas c2.
Proof. exact (construir_modelo_ext metricas c1 c2). Qed.

Lemma preset_de_casos (cenario : string) :
  preset_de cenario = CENARIO_CONSERVADOR
  ∨ preset_de cenario = CENARIO_MODERADO
  ∨ preset_de cenario = CENARIO_AGRESSIVO.
Proof.
  unfold preset_de.
  destruct (cenarios !! lower cenario) as [p|] eqn:E; [|right; left; reflexivity].
  unfold cenarios in E.
  apply elem_of_list_to_map_2 in E.
  apply list_elem_of_In in E. cbn in E.
  destruct E as [E|[E|[E|[]]]]; injection E as _ E'; rewrite <- E'; tauto.
Qed.

Lemma numericos_obter_config (cenario k : string) :
  In k chaves_lidas →
  numericos (obter_config cenario) !! k = preset_de cenario !! k.
Proof.
  intros Hk. unfold numericos, obter_config. rewrite lookup_omap.
  assert (Hne : k ≠ "cenario_nome"%string ∧ k ≠ "top_n_ativos"%string
                ∧ k ≠ "mip_gap"%string ∧ k ≠ "time_limit"%string).
  { cbn in Hk. repeat (destruct Hk as [<-|Hk]; [repeat split; discriminate|]).
    destruct Hk. }
  destruct Hne as (H1 & H2 & H3 & H4).
  rewrite !lookup_insert_ne by congruence.
  rewrite lookup_fmap. destruct (preset_de cenario !! k); reflexivity.
Qed.

Lemma preset_de_padrao (cenario : string) :
  lower cenario ≠ "conservador"%string →
  lower cenario ≠ "agressivo"%string →
  preset_de cenario = CENARIO_MODERADO.
Proof.
  intros Hc Ha. unfold preset_de.
  destruct (cenarios !! lower cenario) as [p|] eqn:E; [|reflexivity].
  unfold cenarios in E.
  apply elem_of_list_to_map_2 in E.
  apply list_elem_of_In in E. cbn in E.
  destruct E as [E|[E|[E|[]]]]; injection E as E1 E2; subst p;
    first [exfalso; congruence | reflexivity].
Qed.

(** X16: for every scenario name, the model built from
    [obter_config(name)] is the model of one of the three presets: the
    run keys added by [obter_config] do not change it, and a name that
    is neither [conservador] nor [agressivo] (case ignored) gives the
    model of the moderate preset. *)
Theorem modelo_de_obter_config metricas (cenario : string) :
  construir_modelo metricas (numericos (obter_config cenario))
  = construir_modelo metricas (preset_de cenario)
  ∧ (preset_de cenario = CENARIO_CONSERVADOR
     ∨ preset_de cenario = CENARIO_MODERADO
     ∨ preset_de cenario = CENARIO_AGRESSIVO)
  ∧ (lower cenario ≠ "conservador"%string →
     lower cenario ≠ "agressivo"%string →
     construir_modelo metricas (numericos (obter_config cenario))
     = construir_modelo metricas CENARIO_MODERADO).
Proof.
  assert (H : construir_modelo metricas (numericos (obter_config cenario))
              = construir_modelo metricas (preset_de cenario)).
  { apply construir_modelo_ext. intros k Hk. apply numericos_obter_config, Hk. }
  split; [exact H|]. split; [apply preset_de_casos|].
  intros Hc Ha. rewrite H, (preset_de_padrao cenario Hc Ha). reflexivity.
Qed.

Lemma preset_obrigatorias (cenario k : string) :
  In k chaves_obrigatorias → is_Some (preset_de cenario !! k).
Proof.
  intros Hk.
  destruct (preset_de_casos cenario) as [-> | [-> | ->]];
    cbn in Hk; repeat (destruct Hk as [<-|Hk]; [eexists; vm_compute; reflexivity|]);
    destruct Hk.
Qed.

Lemma preset_exclui_negativos (cenario : string) :
  truthy (get (preset_de cenario) "excluir_retorno_negativo" (VBool true)) = true.
Proof.
  destruct (preset_de_casos cenario) as [-> | [-> | ->]]; vm_compute; reflexivity.
Qed.

(** X17: for every scenario name and every universe without a zero
    price, [construir_modelo] on [obter_config(name)] returns a model
    (no key is missing), and every assignment that model accepts buys
    no asset with a negative expected return. *)
Theorem obter_config_exclui_negativos metricas (cenario : string) :
  (∀ i, In i metricas → ¬ preco_atual i == 0) →
  ∃ m, construir_modelo metricas (numericos (obter_config cenario)) = Ok m
       ∧ ∀ a i, viavel m a → In i metricas → retorno_esperado i < 0 →
           a (y_var (ticker i)) == 0.
Proof.
  intros Hp.
  rewrite (construir_modelo_ext metricas (numericos (obter_config cenario))
             (preset_de cenario) (numericos_obter_config cenario)).
  destruct (construir_modelo_ok metricas (preset_de cenario)) as [m Hm];
    [intros k Hk; apply preset_obrigatorias, Hk | exact Hp |].
  exists m. split; [exact Hm|].
  intros a i Hv Hin Hneg.
  exact (negativo_fixado _ _ _ _ _ Hm Hv (preset_exclui_negativos cenario) Hin Hneg).
Qed.

End Cenarios_modelo.

Section Cenarios_instancias.
Import Optimizer Config Cenarios Leitura Exemplos.

(** A scenario and its copy with a time limit give the same model. *)
Lemma construir_modelo_chaves_lidas_witness :
  construir_modelo universo (<["time_limit"%string := VInt 600]> (cenario 1))
  = construir_modelo universo (cenario 1).
Proof.
  apply construir_modelo_chaves_lidas.
  intros k Hk. apply lookup_insert_ne.
  cbn in Hk. repeat (destruct Hk as [<-|Hk]; [discriminate|]). destruct Hk.
Defined.

(** The aggressive scenario, asked for in capitals, on the three-asset
    universe. *)
Lemma obter_config_exclui_negativos_witness :
  (∀ i, In i universo → ¬ preco_atual i == 0)
  ∧ ∃ m, construir_modelo universo (numericos (obter_config "AGRESSIVO")) = Ok m
         ∧ ∀ a i, viavel m a → In i universo → retorno_esperado i < 0 →
             a (y_var (ticker i)) == 0.
Proof.
  assert (Hp : ∀ i, In i universo → ¬ preco_atual i == 0).
  { intros i [<-|[<-|[<-|[]]]]; discriminate. }
  split; [exact Hp|].
  exact (obter_config_exclui_negativos universo "AGRESSIVO" Hp).
Defined.

End Cenarios_instancias.

(** ** Sector classification *)

Section Classificacao.
Import DataProcessor Setores.

Lemma preencher_mapa_fora mapa df mapa' k :
  preencher_mapa mapa df = Ok mapa' →
  (∀ l, In l df → chave_linha l ≠ Some k) →
  mapa' !! k = mapa !! k.
Proof.
  revert mapa. induction df as [|[s p] df IH]; intros mapa H Hk.
  - injection H as <-. reflexivity.
  - cbn [preencher_mapa] in H.
    destruct p as [p|]; [|discriminate]. destruct s as [s|]; [|discriminate].
    rewrite (IH _ H) by (intros l Hl; apply Hk; right; exact Hl).
    apply lookup_insert_ne. intros E.
    apply (Hk (Some s, Some p)); [left; reflexivity|].
    unfold chave_linha; cbn. rewrite E. reflexivity.
Qed.

Lemma preencher_mapa_ultima mapa pre s p pos mapa' :
  preencher_mapa mapa (pre ++ (Some s, Some p) :: pos) = Ok mapa' →
  (∀ l, In l pos → chave_linha l ≠ Some (strip p)) →
  mapa' !! strip p = Some (strip s).
Proof.
  revert mapa. induction pre as [|[s0 p0] pre IH]; intros mapa H Hpos.
  - cbn [app preencher_mapa] in H.
    rewrite (preencher_mapa_fora _ _ _ _ H Hpos). apply lookup_insert_eq.
  - cbn [app preencher_mapa] in H.
    destruct p0 as [p0|]; [|discriminate]. destruct s0 as [s0|]; [|discriminate].
    exact (IH _ H Hpos).
Qed.

Lemma preencher_mapa_valores mapa df mapa' k v :
  preencher_mapa mapa df = Ok mapa' →
  mapa' !! k = Some v →
  mapa !! k = Some v ∨ ∃ s p, In (Some s, Some p) df ∧ k = strip p ∧ v = strip s.
Proof.
  revert mapa. induction df as [|[s p] df IH]; intros mapa H Hv.
  - injection H as <-. left. exact Hv.
  - cbn [preencher_mapa] in H.
    destruct p as [p|]; [|discriminate]. destruct s as [s|]; [|discriminate].
    destruct (IH _ H Hv) as [Hl|(s' & p' & Hin & Hk & Hs)].
    + rewrite lookup_insert in Hl. destruct (decide (strip p = k)) as [E|E].
      * injection Hl as <-. right. exists s, p. split; [left; reflexivity|].
        split; [symmetry; exact E | reflexivity].
      * left. exact Hl.
    + right. exists s', p'. split; [right; exact Hin | split; assumption].
Qed.

Lemma preencher_mapa_sucesso mapa df :
  (∃ mapa', preencher_mapa mapa df = Ok mapa')
  ↔ ∀ l, In l df → is_Some l.1 ∧ is_Some l.2.
Proof.
  revert mapa. induction df as [|[s p] df IH]; intros mapa.
  - split; [intros _ l [] | intros _; eexists; reflexivity].
  - cbn [preencher_mapa]. split.
    + intros [mapa' H]. destruct p as [p|]; [|discriminate].
      destruct s as [s|]; [|discriminate].
      intros l [<-|Hl]; [split; eexists; reflexivity|].
      apply (proj1 (IH _) (ex_intro _ mapa' H)). exact Hl.
    + intros H. destruct (H (s, p) (or_introl eq_refl)) as [[s' Hs] [p' Hp]].
      cbn in Hs, Hp. subst s p. apply IH. intros l Hl. apply H. right. exact Hl.
Qed.

(** X18: [classificar_setores] returns exactly when every cell of the
    sector file is a string (it raises [AttributeError] otherwise); it
    then keeps the metrics rows as they are, in order, and gives each
    one a sector that is either [Outros] or the stripped sector cell of
    a row of the file. *)
Theorem classificar_setores_resultado (df_setores : list LinhaSetor)
    (metricas : list Metrica) :
  ((∃ res, classificar_setores df_setores metricas = Ok res)
   ↔ ∀ l, In l df_setores → is_Some l.1 ∧ is_Some l.2)
  ∧ ∀ res, classificar_setores df_setores metricas = Ok res →
      map fst res = metricas
      ∧ ∀ m setor, In (m, setor) res →
          setor = "Outros"%string
          ∨ ∃ s p, In (Some s, Some p) df_setores ∧ setor = strip s.
Proof.
  unfold classificar_setores, mapa_setores. split.
  - rewrite <- (preencher_mapa_sucesso ∅ df_setores). split.
    + intros [res H]. destruct (preencher_mapa ∅ df_setores) as [mapa|e]; [|discriminate].
      eexists. reflexivity.
    + intros [mapa ->]. eexists. reflexivity.
  - intros res H.
    destruct (preencher_mapa ∅ df_setores) as [mapa|e] eqn:E; [|discriminate].
    cbn [mbind resultado_bind mret resultado_ret] in H. injection H as <-.
    split.
    + rewrite map_map. cbn [fst]. apply map_id.
    + intros m setor Hin. apply in_map_iff in Hin.
      destruct Hin as (m' & Hm & _). injection Hm as _ <-.
      unfold obter_setor.
      destruct (mapa !! m_ticker m') as [v|] eqn:Ev.
      * destruct (preencher_mapa_valores _ _ _ _ _ E Ev) as [Hl|(s & p & Hin & _ & Hs)].
        -- rewrite lookup_empty in Hl. discriminate.
        -- right. exists s, p. split; assumption.
      * destruct (mapa !! prefixo4 (m_ticker m')) as [v|] eqn:Ep; [|left; reflexivity].
        cbn [default].
        destruct (preencher_mapa_valores _ _ _ _ _ E Ep) as [Hl|(s & p & Hin & _ & Hs)].
        -- rewrite lookup_empty in Hl. discriminate.
        -- right. exists s, p. split; assumption.
Qed.

(** X19: the last row of the sector file whose stripped key is [k]
    decides: a ticker equal to [k] gets that row's sector even when its
    four-character prefix has another entry, and a ticker without an
    entry of its own whose first four characters are [k] gets it too. *)
Theorem obter_setor_precedencia (pre pos : list LinhaSetor) (s p : string) mapa ticker :
  mapa_setores (pre ++ (Some s, Some p) :: pos) = Ok mapa →
  (∀ l, In l pos → chave_linha l ≠ Some (strip p)) →
  (ticker = strip p → obter_setor mapa ticker = strip s)
  ∧ (prefixo4 ticker = strip p →
     (∀ l, In l (pre ++ (Some s, Some p) :: pos) → chave_linha l ≠ Some ticker) →
     obter_setor mapa ticker = strip s).
Proof.
  intros H Hpos. unfold mapa_setores in H.
  pose proof (preencher_mapa_ultima _ _ _ _ _ _ H Hpos) as Hl.
  split.
  - intros ->. unfold obter_setor. rewrite Hl. reflexivity.
  - intros Hp Hnone. unfold obter_setor.
    rewrite (preencher_mapa_fora _ _ _ _ H Hnone), lookup_empty, Hp, Hl. reflexivity.
Qed.

(** X20: a ticker that no row of the sector file names, neither in full
    nor by its first four characters, is classified as [Outros]. *)
Theorem obter_setor_outros (df_setores : list LinhaSetor) mapa ticker :
  mapa_setores df_setores = Ok mapa →
  (∀ l, In l df_setores → chave_linha l ≠ Some ticker) →
  (∀ l, In l df_setores → chave_linha l ≠ Some (prefixo4 ticker)) →
  obter_setor mapa ticker = "Outros"%string.
Proof.
  intros H Ht Hp. unfold mapa_setores in H. unfold obter_setor.
  rewrite (preencher_mapa_fora _ _ _ _ H Ht), (preencher_mapa_fora _ _ _ _ H Hp).
  rewrite lookup_empty. reflexivity.
Qed.

End Classificacao.

(** ** The liquidity filter *)

Section Filtro_liquidez.
Import DataProcessor Liquidez.

Context (Timestamp : Type) (isnat : Timestamp → bool)
        (mean : list flutuante → flutuante).

Lemma filter_sublist {A} (f : A → bool) (l : list A) : List.filter f l `sublist_of` l.
Proof.
  induction l as [|x l IH]; [constructor|].
  cbn [List.filter]. destruct (f x); [apply sublist_skip | apply sublist_cons]; exact IH.
Qed.

Lemma filter_sublist_impl {A} (f g : A → bool) (l : list A) :
  (∀ x, In x l → f x = true → g x = true) →
  List.filter f l `sublist_of` List.filter g l.
Proof.
  induction l as [|x l IH]; intros H; [constructor|].
  assert (IH' := IH (λ y Hy, H y (or_intror Hy))).
  cbn [List.filter]. destruct (f x) eqn:Ef.
  - rewrite (H x (or_introl eq_refl) Ef). apply sublist_skip. exact IH'.
  - destruct (g x); [apply sublist_cons|]; exact IH'.
Qed.

Lemma filter_todos {A} (f : A → bool) (l : list A) :
  (∀ x, In x l → f x = true) → List.filter f l = l.
Proof.
  induction l as [|x l IH]; intros H; [reflexivity|].
  cbn [List.filter]. rewrite (H x (or_introl eq_refl)), IH; [reflexivity|].
  intros y Hy. apply H. right. exact Hy.
Qed.

Lemma filter_igual {A} (f g : A → bool) (l : list A) :
  (∀ x, In x l → f x = g x) → List.filter f l = List.filter g l.
Proof.
  induction l as [|x l IH]; intros H; [reflexivity|].
  cbn [List.filter]. rewrite (H x (or_introl eq_refl)), IH; [reflexivity|].
  intros y Hy. apply H. right. exact Hy.
Qed.

(** Filtering whole tickers leaves the group of a kept ticker as it was. *)
Lemma do_ticker_filtrado (L : string → bool) (df : list (Cotacao Timestamp)) t :
  do_ticker Timestamp t (List.filter (λ c, L (ticker _ c)) df)
  = if L t then do_ticker Timestamp t df else [].
Proof.
  unfold do_ticker. induction df as [|c df IH]; [destruct (L t); reflexivity|].
  cbn [List.filter]. destruct (String.eqb (ticker _ c) t) eqn:E.
  - apply String.eqb_eq in E. rewrite E.
    destruct (L t) eqn:EL.
    + cbn [List.filter]. rewrite <- E at 1. rewrite String.eqb_refl.
      rewrite <- E. rewrite E. rewrite IH. reflexivity.
    + exact IH.
  - destruct (L (ticker _ c)).
    + cbn [List.filter]. rewrite E. exact IH.
    + exact IH.
Qed.

Lemma liquido_filtrado (df : list (Cotacao Timestamp)) d v t :
  liquido Timestamp isnat mean df d v t = true →
  liquido Timestamp isnat mean
    (List.filter (λ c, liquido Timestamp isnat mean df d v (ticker _ c)) df) d v t = true.
Proof.
  intros H. unfold liquido at 1. unfold dias_negociacao, volume_medio.
  rewrite (do_ticker_filtrado (liquido Timestamp isnat mean df d v) df t), H. exact H.
Qed.

Lemma acoes_spec (df : list (Cotacao Timestamp)) c :
  In c (acoes Timestamp df)
  ↔ In c df ∧ campo (campos _ c) "cod_bdi" = "02"%string ∧ ticker_acao (ticker _ c) = true.
Proof.
  unfold acoes. rewrite !filter_In, String.eqb_eq. tauto.
Qed.

Lemma acoes_idem (df : list (Cotacao Timestamp)) (f : Cotacao Timestamp → bool) :
  acoes Timestamp (List.filter f (acoes Timestamp df)) = List.filter f (acoes Timestamp df).
Proof.
  set (X := List.filter f (acoes Timestamp df)).
  assert (HX : ∀ c, In c X →
            String.eqb (campo (campos _ c) "cod_bdi") "02" = true
            ∧ ticker_acao (ticker _ c) = true).
  { intros c Hc. apply filter_In in Hc. destruct Hc as [Hc _].
    apply acoes_spec in Hc. rewrite String.eqb_eq. tauto. }
  unfold acoes.
  rewrite (filter_todos (λ c, String.eqb (campo (campos _ c) "cod_bdi") "02") X)
    by (intros c Hc; apply HX, Hc).
  apply filter_todos. intros c Hc. apply HX, Hc.
Qed.

Lemma filtrar_idem (df : list (Cotacao Timestamp)) d v :
  filtrar_acoes_principais Timestamp isnat mean
    (filtrar_acoes_principais Timestamp isnat mean df d v) d v
  = filtrar_acoes_principais Timestamp isnat mean df d v.
Proof.
  unfold filtrar_acoes_principais. cbv zeta. rewrite acoes_idem.
  apply filter_todos. intros c Hc. apply filter_In in Hc. destruct Hc as [_ Hl].
  apply liquido_filtrado. exact Hl.
Qed.

(** X21: the rows [filtrar_acoes_principais] keeps are rows of the input
    in their order; each has [cod_bdi = '02'] and a ticker of the share
    pattern, and its ticker has, counted on the kept rows themselves, at
    least [min_dias_negociacao] dated rows and a mean volume of at least
    [min_volume_medio] (both thresholds at once). *)
Theorem filtrar_acoes_principais_linhas (df : list (Cotacao Timestamp)) d v :
  filtrar_acoes_principais Timestamp isnat mean df d v `sublist_of` df
  ∧ ∀ c, In c (filtrar_acoes_principais Timestamp isnat mean df d v) →
      campo (campos _ c) "cod_bdi" = "02"%string
      ∧ ticker_acao (ticker _ c) = true
      ∧ (d ≤ dias_negociacao Timestamp isnat
               (filtrar_acoes_principais Timestamp isnat mean df d v) (ticker _ c))%Z
      ∧ match volume_medio Timestamp mean
                (filtrar_acoes_principais Timestamp isnat mean df d v) (ticker _ c) with
        | Fin vol => v <= vol
        | PInf => True
        | NInf | NaN => False
        end.
Proof.
  split.
  - unfold filtrar_acoes_principais, acoes. cbv zeta.
    etrans; [apply filter_sublist|]. etrans; apply filter_sublist.
  - intros c Hc.
    assert (Hc' := Hc). unfold filtrar_acoes_principais in Hc'. cbv zeta in Hc'.
    apply filter_In in Hc'. destruct Hc' as [Hac Hl].
    apply acoes_spec in Hac. destruct Hac as (_ & Hbdi & Htk).
    split; [exact Hbdi|]. split; [exact Htk|].
    apply liquido_filtrado in Hl.
    change (List.filter (λ c0, liquido Timestamp isnat mean (acoes Timestamp df) d v (ticker _ c0))
                        (acoes Timestamp df))
      with (filtrar_acoes_principais Timestamp isnat mean df d v) in Hl.
    unfold liquido in Hl. apply andb_true_iff in Hl. destruct Hl as [Hd Hv].
    split; [apply Z.leb_le; exact Hd|].
    destruct (volume_medio Timestamp mean (filtrar_acoes_principais Timestamp isnat mean df d v)
                (ticker _ c)) as [vol| | |]; cbn [fge] in Hv; try discriminate Hv; [|exact I].
    apply Qle_bool_iff. exact Hv.
Qed.

(** X22: liquidity is decided per ticker: when one row of a ticker is
    kept, every [cod_bdi = '02'] row of the input with that ticker is
    kept. *)
Theorem filtrar_acoes_principais_por_ticker (df : list (Cotacao Timestamp)) d v c c' :
  In c (filtrar_acoes_principais Timestamp isnat mean df d v) →
  In c' df →
  campo (campos _ c') "cod_bdi" = "02"%string →
  ticker _ c' = ticker _ c →
  In c' (filtrar_acoes_principais Timestamp isnat mean df d v).
Proof.
  unfold filtrar_acoes_principais. cbv zeta. rewrite !filter_In.
  intros [Hc Hl] Hin Hbdi Ht. rewrite Ht. split; [|exact Hl].
  apply acoes_spec. apply acoes_spec in Hc. rewrite Ht. tauto.
Qed.

(** X23: [filtrar_acoes_principais] is idempotent: applied to its own
    output with the same thresholds it keeps every row. *)
Theorem filtrar_acoes_principais_idempotente (df : list (Cotacao Timestamp)) d v :
  filtrar_acoes_principais Timestamp isnat mean
    (filtrar_acoes_principais Timestamp isnat mean df d v) d v
  = filtrar_acoes_principais Timestamp isnat mean df d v.
Proof. exact (filtrar_idem df d v). Qed.

(** X24: raising either threshold can only remove rows: the output for
    stricter thresholds is a subsequence of the output for laxer ones. *)
Theorem filtrar_acoes_principais_monotono (df : list (Cotacao Timestamp)) d d' v v' :
  (d ≤ d')%Z → v <= v' →
  filtrar_acoes_principais Timestamp isnat mean df d' v'
  `sublist_of` filtrar_acoes_principais Timestamp isnat mean df d v.
Proof.
  intros Hd Hv. unfold filtrar_acoes_principais. cbv zeta.
  apply filter_sublist_impl. intros c _. unfold liquido.
  rewrite !andb_true_iff, !Z.leb_le. intros [H1 H2]. split; [lia|].
  destruct (volume_medio Timestamp mean (acoes Timestamp df) (ticker _ c)) as [vol| | |];
    cbn [fge] in H2 |- *; try discriminate H2; [|reflexivity].
  apply Qle_bool_iff. apply Qle_bool_iff in H2. lra.
Qed.

End Filtro_liquidez.

Section Classificacao_instancias.
Import DataProcessor Setores Liquidez Exemplos3.

Lemma mapa_csv_ok : mapa_setores setores_csv = Ok mapa_csv.
Proof. vm_compute. reflexivity. Qed.

(** EMBR3 has an entry of its own, which wins over the entry of EMBR;
    EMBR4 falls back on the prefix. *)
Lemma obter_setor_precedencia_witness :
  (∀ l, In l [(Some "Petroleo", Some "PETR"); (Some "Petroleo e Gas", Some "PETR")]%string →
        chave_linha l ≠ Some (strip "EMBR3 "))
  ∧ obter_setor mapa_csv "EMBR3" = "Bens Industriais"%string.
Proof.
  assert (Hpos : ∀ l, In l [(Some "Petroleo", Some "PETR");
                            (Some "Petroleo e Gas", Some "PETR")]%string →
                      chave_linha l ≠ Some (strip "EMBR3 ")).
  { intros l [<-|[<-|[]]]; vm_compute; discriminate. }
  split; [exact Hpos|].
  destruct (obter_setor_precedencia [(Some "Aeronautica", Some "EMBR")]%string _
              " Bens Industriais " "EMBR3 " mapa_csv "EMBR3" mapa_csv_ok Hpos) as [H _].
  rewrite H; [vm_compute; reflexivity | vm_compute; reflexivity].
Defined.

(** VALE3 is named by no row. *)
Lemma obter_setor_outros_witness :
  obter_setor mapa_csv "VALE3" = "Outros"%string.
Proof.
  apply (obter_setor_outros setores_csv mapa_csv "VALE3" mapa_csv_ok);
    intros l [<-|[<-|[<-|[<-|[]]]]]; vm_compute; discriminate.
Defined.

(** With two days and a mean volume of a million required, the two PETR4
    rows stay together. *)
Lemma filtrar_acoes_principais_por_ticker_witness :
  In (cotacao "02" "PETR4" 20240102 2000000)
     (filtrar_acoes_principais N sem_data Exato.mean pregoes 2 1000000)
  ∧ In (cotacao "02" "PETR4" 20240103 3000000)
       (filtrar_acoes_principais N sem_data Exato.mean pregoes 2 1000000).
Proof.
  assert (H : In (cotacao "02" "PETR4" 20240102 2000000)
                 (filtrar_acoes_principais N sem_data Exato.mean pregoes 2 1000000)).
  { vm_compute. left. reflexivity. }
  split; [exact H|].
  apply (filtrar_acoes_principais_por_ticker N sem_data Exato.mean pregoes 2 1000000 _ _ H).
  - do 3 right. left. reflexivity.
  - reflexivity.
  - reflexivity.
Defined.

Lemma filtrar_acoes_principais_monotono_witness :
  (1 ≤ 2)%Z ∧ 10 <= 1000000
  ∧ filtrar_acoes_principais N sem_data Exato.mean pregoes 2 1000000
    `sublist_of` filtrar_acoes_principais N sem_data Exato.mean pregoes 1 10.
Proof.
  assert (H1 : (1 ≤ 2)%Z) by lia.
  assert (H2 : 10 <= 1000000) by discriminate.
  split; [exact H1|]. split; [exact H2|].
  exact (filtrar_acoes_principais_monotono N sem_data Exato.mean pregoes 1 2 10 1000000 H1 H2).
Defined.

End Classificacao_instancias.

(** ** The sector table of the report *)

Section Tabela_setorial.
Import Optimizer Analise.

Lemma inserir_ordenado_perm {A} (leb : A → A → bool) (x : A) (l : list A) :
  inserir_ordenado leb x l ≡ₚ x :: l.
Proof.
  induction l as [|y l IH]; [reflexivity|].
  cbn [inserir_ordenado]. destruct (leb x y); [reflexivity|].
  rewrite IH. apply Permutation_swap.
Qed.

Lemma ordenar_perm {A} (leb : A → A → bool) (l : list A) : ordenar leb l ≡ₚ l.
Proof.
  induction l as [|x l IH]; [reflexivity|].
  unfold ordenar in *. cbn [foldr]. rewrite inserir_ordenado_perm, IH. reflexivity.
Qed.

Lemma somaQ_perm (l1 l2 : list Q) : l1 ≡ₚ l2 → somaQ l1 == somaQ l2.
Proof.
  induction 1 as [|x l1 l2 _ IH|x y l|l1 l2 l3 _ IH1 _ IH2].
  - reflexivity.
  - rewrite !somaQ_cons, IH. reflexivity.
  - rewrite !somaQ_cons. lra.
  - rewrite IH1. exact IH2.
Qed.

Lemma somaQ_concat {A} (f : A → Q) (ls : list (list A)) :
  somaQ (map f (concat ls)) == somaQ (map (λ l, somaQ (map f l)) ls).
Proof.
  induction ls as [|l ls IH]; [reflexivity|].
  cbn [concat map]. rewrite map_app, somaQ_app, somaQ_cons, IH. reflexivity.
Qed.

Lemma existsb_eqb_In (s : string) (l : list string) :
  existsb (String.eqb s) l = true ↔ In s l.
Proof.
  rewrite existsb_exists. split.
  - intros (x & Hx & E). apply String.eqb_eq in E. subst x. exact Hx.
  - intros H. exists s. split; [exact H | apply String.eqb_refl].
Qed.

Lemma unique_aux_spec (vistos l : list string) :
  NoDup (unique_aux vistos l)
  ∧ ∀ s, In s (unique_aux vistos l) ↔ In s l ∧ ¬ In s vistos.
Proof.
  revert vistos. induction l as [|t l IH]; intros vistos.
  - split; [constructor|]. intros s. cbn. tauto.
  - cbn [unique_aux]. destruct (existsb (String.eqb t) vistos) eqn:E.
    + apply existsb_eqb_In in E. destruct (IH vistos) as [Hnd Hin].
      split; [exact Hnd|]. intros s. rewrite Hin. cbn [In]. split; [tauto|].
      intros [[<-|Hs] Hn]; tauto.
    + assert (Hn : ¬ In t vistos).
      { intros H. apply existsb_eqb_In in H. congruence. }
      destruct (IH (t :: vistos)) as [Hnd Hin]. split.
      * apply NoDup_cons. split; [|exact Hnd].
        rewrite list_elem_of_In, Hin. cbn [In]. tauto.
      * intros s. cbn [In]. rewrite Hin. cbn [In].
        destruct (string_dec t s) as [<-|Hne]; tauto.
Qed.

Lemma unique_spec (l : list string) :
  NoDup (unique l) ∧ ∀ s, In s (unique l) ↔ In s l.
Proof.
  destruct (unique_aux_spec [] l) as [Hnd Hin]. split; [exact Hnd|].
  intros s. unfold unique. rewrite Hin. cbn. tauto.
Qed.

Lemma filter_particao {A} (f : A → bool) (l : list A) :
  List.filter f l ++ List.filter (λ x, negb (f x)) l ≡ₚ l.
Proof.
  induction l as [|x l IH]; [reflexivity|].
  cbn [List.filter]. destruct (f x); cbn [negb app].
  - rewrite IH. reflexivity.
  - rewrite <- Permutation_middle, IH. reflexivity.
Qed.

(** The groups of the distinct keys partition the rows. *)
Lemma grupos_particao (K : list string) (linhas : list ItemCarteira) :
  NoDup K →
  (∀ it, In it linhas → In (it_setor it) K) →
  concat (map (grupo_setor linhas) K) ≡ₚ linhas.
Proof.
  revert linhas. induction K as [|s K IH]; intros linhas Hnd Hin.
  - destruct linhas as [|it l]; [reflexivity|]. destruct (Hin it (or_introl eq_refl)).
  - apply NoDup_cons in Hnd. destruct Hnd as [Hs Hnd]. rewrite list_elem_of_In in Hs.
    cbn [map concat].
    set (resto := List.filter (λ it, negb (String.eqb (it_setor it) s)) linhas).
    assert (Hmap : map (grupo_setor linhas) K = map (grupo_setor resto) K).
    { apply map_ext_in. intros s' Hs'. unfold grupo_setor, resto.
      rewrite filter_filter_comm.
      symmetry. rewrite <- (filter_todos (λ it, negb (String.eqb (it_setor it) s))
                              (List.filter (λ it, String.eqb (it_setor it) s') linhas)) at 2.
      - reflexivity.
      - intros it Hit. apply filter_In in Hit. destruct Hit as [_ E].
        apply String.eqb_eq in E. apply negb_true_iff. apply String.eqb_neq.
        intros E'. apply Hs. rewrite <- E', E. exact Hs'. }
    rewrite Hmap, (IH resto Hnd).
    + apply filter_particao.
    + intros it Hit. apply filter_In in Hit. destruct Hit as [Hit E].
      apply negb_true_iff, String.eqb_neq in E.
      destruct (Hin it Hit) as [E'|H]; [congruence | exact H].
Qed.

Lemma chaves_setor_spec (linhas : list ItemCarteira) :
  NoDup (chaves_setor linhas) ∧ ∀ it, In it linhas → In (it_setor it) (chaves_setor linhas).
Proof.
  unfold chaves_setor. destruct (unique_spec (map it_setor linhas)) as [Hnd Hin].
  pose proof (ordenar_perm String.leb (unique (map it_setor linhas))) as Hp.
  split.
  - rewrite Hp. exact Hnd.
  - intros it Hit. apply list_elem_of_In. rewrite Hp. apply list_elem_of_In, Hin.
    apply in_map. exact Hit.
Qed.

Lemma inserir_ordenado_sorted {A} (leb : A → A → bool) (x : A) (l : list A) :
  (∀ a b, leb a b = false → leb b a = true) →
  (∀ a b c, leb a b = true → leb b c = true → leb a c = true) →
  StronglySorted (λ a b, leb a b = true) l →
  StronglySorted (λ a b, leb a b = true) (inserir_ordenado leb x l).
Proof.
  intros Htot Htr. induction l as [|y l IH]; intros Hs.
  - cbn. apply SSorted_cons; constructor.
  - apply StronglySorted_inv in Hs. destruct Hs as [Hs Hy].
    cbn [inserir_ordenado]. destruct (leb x y) eqn:E.
    + apply SSorted_cons; [apply SSorted_cons; assumption|].
      apply List.Forall_cons; [exact E|].
      rewrite List.Forall_forall in Hy |- *. intros z Hz. apply (Htr x y z E), Hy, Hz.
    + apply SSorted_cons; [apply IH; exact Hs|].
      rewrite List.Forall_forall in Hy |- *. intros z Hz.
      apply list_elem_of_In in Hz. rewrite inserir_ordenado_perm in Hz.
      apply list_elem_of_In in Hz. destruct Hz as [<-|Hz]; [apply Htot, E | apply Hy, Hz].
Qed.

Lemma ordenar_sorted {A} (leb : A → A → bool) (l : list A) :
  (∀ a b, leb a b = false → leb b a = true) →
  (∀ a b c, leb a b = true → leb b c = true → leb a c = true) →
  StronglySorted (λ a b, leb a b = true) (ordenar leb l).
Proof.
  intros Htot Htr. induction l as [|x l IH]; [constructor|].
  unfold ordenar in *. cbn [foldr]. apply inserir_ordenado_sorted; assumption.
Qed.

Lemma list_sum_perm (l1 l2 : list nat) : l1 ≡ₚ l2 → list_sum l1 = list_sum l2.
Proof.
  induction 1 as [|x l1 l2 _ IH|x y l|l1 l2 l3 _ IH1 _ IH2]; simpl; lia.
Qed.

(** What [dist_setor] computes on a frame that has its columns. *)
Lemma dist_setor_geral (df : DataFrame) :
  tem_coluna df "setor" = true →
  ∃ d total,
    dist_setor df = Ok d
    ∧ total == somaQ (map it_investimento (linhas df))
    ∧ somaQ (map ld_investimento d) == total
    ∧ list_sum (map ld_num_ativos d) = length (linhas df)
    ∧ NoDup (map ld_setor d)
    ∧ StronglySorted (λ x y, ld_investimento y <= ld_investimento x) d
    ∧ ∀ x, In x d → ld_percentual x = dividir (ld_investimento x) total.
Proof.
  intros Hcol. unfold dist_setor. rewrite Hcol. cbn [negb].
  set (rows := linhas df). set (K := chaves_setor rows).
  destruct (chaves_setor_spec rows) as [Hnd Hin]. fold K in Hnd, Hin.
  pose proof (grupos_particao K rows Hnd Hin) as Hpart.
  set (total := somaQ (map (λ g : string * Q * nat, g.1.2) (agregar rows))).
  set (mk := λ g : string * Q * nat,
               {| ld_setor := g.1.1; ld_investimento := g.1.2; ld_num_ativos := g.2;
                  ld_percentual := dividir g.1.2 total |}).
  set (cmp := λ a b : LinhaDist, Qle_bool (ld_investimento b) (ld_investimento a)).
  exists (ordenar cmp (map mk (agregar rows))), total.
  pose proof (ordenar_perm cmp (map mk (agregar rows))) as Hperm.
  assert (Htotal : total == somaQ (map it_investimento rows)).
  { unfold total, agregar. rewrite map_map. cbn [fst snd].
    rewrite <- (somaQ_perm _ _ (Permutation_map it_investimento Hpart)).
    rewrite somaQ_concat, map_map. reflexivity. }
  split; [reflexivity|]. split; [exact Htotal|]. split; [|split; [|split; [|split]]].
  - rewrite (somaQ_perm _ _ (Permutation_map ld_investimento Hperm)).
    rewrite map_map. reflexivity.
  - rewrite (list_sum_perm _ _ (Permutation_map ld_num_ativos Hperm)). unfold agregar. rewrite !map_map. cbn [ld_num_ativos mk snd].
    rewrite <- (Permutation_length Hpart), length_concat, map_map. reflexivity.
  - rewrite (Permutation_map ld_setor Hperm). unfold agregar. rewrite !map_map.
    cbn [ld_setor mk fst]. rewrite map_id. exact Hnd.
  - assert (Hs := ordenar_sorted cmp (map mk (agregar rows))).
    assert (Hs' : StronglySorted (λ a b, cmp a b = true)
                    (ordenar cmp (map mk (agregar rows)))).
    { apply Hs.
      - intros x y E. unfold cmp in *. apply Qle_bool_iff.
        destruct (Qle_bool (ld_investimento y) (ld_investimento x)) eqn:E'; [discriminate|].
        apply Qlt_le_weak, Qnot_le_lt. intros H. apply Qle_bool_iff in H. congruence.
      - intros x y z. unfold cmp. rewrite !Qle_bool_iff. intros; lra. }
    clear -Hs'. induction Hs' as [|x l _ IH Hf]; [constructor|].
    apply SSorted_cons; [exact IH|].
    rewrite List.Forall_forall in Hf |- *. intros y Hy. apply Qle_bool_iff, Hf, Hy.
  - intros x Hx. apply list_elem_of_In in Hx. rewrite Hperm in Hx.
    apply list_elem_of_In, in_map_iff in Hx. destruct Hx as (g & <- & _). reflexivity.
Qed.

Lemma carteira_tem_setor metricas a r sol :
  extrair_solucao metricas a r = Ok sol → tem_coluna (carteira sol) "setor" = true.
Proof.
  intros H. destruct (extrair_solucao_inv _ _ _ _ H) as (Hne & -> & _).
  destruct (List.filter (selecionado a) metricas); [congruence|]. reflexivity.
Qed.

(** X25: for a solution returned by [extrair_solucao], the sector table
    of the report is built without error; it has one row per sector of
    the portfolio, largest investment first, its investments add up to
    [investimento_total] and its asset counts to [num_ativos]. *)
Theorem dist_setor_totais metricas a r sol :
  extrair_solucao metricas a r = Ok sol →
  ∃ d, dist_setor (carteira sol) = Ok d
       ∧ somaQ (map ld_investimento d) == investimento_total sol
       ∧ list_sum (map ld_num_ativos d) = num_ativos sol
       ∧ NoDup (map ld_setor d)
       ∧ (∀ it, In it (linhas (carteira sol)) → In (it_setor it) (map ld_setor d))
       ∧ StronglySorted (λ x y, ld_investimento y <= ld_investimento x) d.
Proof.
  intros H.
  destruct (dist_setor_geral (carteira sol) (carteira_tem_setor _ _ _ _ H))
    as (d & total & Hd & Htot & Hsum & Hcount & Hnd & Hsort & _).
  destruct (extrair_solucao_inv _ _ _ _ H) as (_ & Hcart & Hnum & Hinv & _).
  exists d. split; [exact Hd|]. split; [|split; [|split; [exact Hnd|split; [|exact Hsort]]]].
  - rewrite Hsum, Htot, Hinv, Hcart. reflexivity.
  - rewrite Hcount, Hnum, Hcart. cbn [linhas DataFrame_de]. apply length_map.
  - intros it Hit.
    unfold dist_setor in Hd. rewrite (carteira_tem_setor _ _ _ _ H) in Hd.
    cbn [negb mret resultado_ret] in Hd. injection Hd as <-.
    apply list_elem_of_In.
    rewrite (Permutation_map ld_setor (ordenar_perm _ _)).
    unfold agregar. rewrite !map_map. cbn [ld_setor fst]. rewrite map_id.
    apply list_elem_of_In. apply chaves_setor_spec. exact Hit.
Qed.

(** X26: for a solution with a non-zero [investimento_total], every
    share in the sector table is a finite number and the shares add up
    to 1. *)
Theorem dist_setor_percentuais metricas a r sol :
  extrair_solucao metricas a r = Ok sol →
  ¬ investimento_total sol == 0 →
  ∃ d, dist_setor (carteira sol) = Ok d
       ∧ length (finitos (map ld_percentual d)) = length d
       ∧ somaQ (finitos (map ld_percentual d)) == 1.
Proof.
  intros H Hnz.
  destruct (dist_setor_geral (carteira sol) (carteira_tem_setor _ _ _ _ H))
    as (d & total & Hd & Htot & Hsum & _ & _ & _ & Hpct).
  destruct (extrair_solucao_inv _ _ _ _ H) as (_ & Hcart & _ & Hinv & _).
  assert (Htnz : ¬ total == 0).
  { intros E. apply Hnz.
    assert (Hl : linhas (carteira sol)
                 = map (item_carteira a) (List.filter (selecionado a) metricas))
      by (rewrite Hcart; reflexivity).
    rewrite Hinv, <- Hl, <- Htot. exact E. }
  assert (Hfin : finitos (map ld_percentual d) = map (λ x, ld_investimento x / total) d).
  { clear -Hpct Htnz. induction d as [|x d IH]; [reflexivity|].
    cbn [map]. unfold finitos in *. cbn [omap list_omap].
    rewrite (Hpct x (or_introl eq_refl)). unfold dividir.
    destruct (Qeq_bool total 0) eqn:E; [apply Qeq_bool_iff in E; contradiction|].
    rewrite IH; [reflexivity|]. intros y Hy. apply Hpct. right. exact Hy. }
  exists d. split; [exact Hd|]. rewrite Hfin. split; [apply length_map|].
  rewrite (somaQ_map_ext _ (λ x, / total * ld_investimento x))
    by (intros; unfold Qdiv; lra).
  rewrite somaQ_map_scale, Hsum. field. exact Htnz.
Qed.

End Tabela_setorial.

(** ** Output files of a scenario *)

Section Arquivos.
Import Cenarios Diretorios.

Context (makedirs : string → resultado unit).

Lemma lower_char_idem (c : ascii) : lower_char (lower_char c) = lower_char c.
Proof.
  destruct c as [[] [] [] [] [] [] [] []]; vm_compute; reflexivity.
Qed.

Lemma lower_idem (s : string) : lower (lower s) = lower s.
Proof.
  induction s as [|c s IH]; [reflexivity|].
  cbn [lower]. rewrite lower_char_idem, IH. reflexivity.
Qed.

(** X27: [salvar_solucao] called without a file name on
    [obter_config(nome)] first has the directory
    [output/<nome in lower case>/] created, and an exception of
    [os.makedirs] is passed on whether or not there is a solution;
    when the directory call returns and there is a solution, the path
    string handed to [to_csv] is
    [output/<nome in lower case>/carteira_otimizada.csv], also for an
    unknown name that runs with the moderate preset; without a solution
    nothing is written.  With a file name given, that name is used and
    no directory is created. *)
Theorem arquivo_carteira_do_cenario (nome : string) (tem_solucao : bool) :
  (∀ e, makedirs ("output/" +:+ lower nome +:+ "/") = Erro e →
        salvar_solucao makedirs (obter_config nome) tem_solucao None = Erro e)
  ∧ (makedirs ("output/" +:+ lower nome +:+ "/") = Ok () →
     salvar_solucao makedirs (obter_config nome) tem_solucao None
     = Ok (if tem_solucao
           then Some ("output/" +:+ lower nome +:+ "/" +:+ "carteira_otimizada.csv")
           else None))
  ∧ (∀ arquivo,
       salvar_solucao makedirs (obter_config nome) tem_solucao (Some arquivo)
       = Ok (if tem_solucao then Some arquivo else None)).
Proof.
  assert (Hnome : default (Str "moderado") (obter_config nome !! "cenario_nome"%string)
                  = Str (lower nome)).
  { unfold obter_config. rewrite lookup_insert_eq. reflexivity. }
  unfold salvar_solucao. rewrite Hnome. cbv iota beta.
  unfold obter_diretorios_cenario. rewrite lower_idem. cbv zeta.
  split; [|split].
  - intros e ->. reflexivity.
  - intros ->. cbn [mbind resultado_bind mret resultado_ret].
    cbn [list_to_map foldr fst snd].
    rewrite lookup_insert_ne by discriminate. rewrite lookup_insert_eq.
    rewrite !juntar_assoc. reflexivity.
  - intros arquivo. reflexivity.
Qed.

End Arquivos.

(** ** Reading the tape: failures and order *)

Section Cotahist_leitura.
Import DataProcessor Analise.

Context (Timestamp : Type)
        (to_datetime : string → resultado Timestamp)
        (to_numeric : string → flutuante)
        (data_leb : Timestamp → Timestamp → bool).

Lemma dados_lidos (linhas : list string) :
  flat_map processar_linha linhas
  = map registro (List.filter (String.prefix "01") linhas).
Proof.
  induction linhas as [|l linhas IH]; [reflexivity|].
  cbn [flat_map List.filter]. rewrite IH.
  destruct (String.prefix "01" l) eqn:E.
  - destruct (prefix_01 l E) as [H0 H9].
    unfold processar_linha. rewrite H0, H9, E. reflexivity.
  - unfold processar_linha. rewrite E.
    destruct (String.prefix "00" l || String.prefix "99" l); reflexivity.
Qed.

Lemma mapM_ok {A B} (f : A → resultado B) (l : list A) :
  (∀ x, In x l → ∃ y, f x = Ok y) →
  ∃ ys, mapM f l = Ok ys ∧ Forall2 (λ x y, f x = Ok y) l ys.
Proof.
  induction l as [|x l IH]; intros H.
  - exists []. split; [reflexivity | constructor].
  - destruct (H x (or_introl eq_refl)) as [y Hy].
    destruct (IH (λ z Hz, H z (or_intror Hz))) as (ys & Hys & Hf).
    exists (y :: ys). split; [|constructor; assumption].
    cbn [mapM]. rewrite Hy. cbn [mbind resultado_bind]. rewrite Hys. reflexivity.
Qed.

Lemma mapM_erro {A B} (f : A → resultado B) (pre : list A) x pos e :
  (∀ z, In z pre → ∃ y, f z = Ok y) →
  f x = Erro e →
  mapM f (pre ++ x :: pos) = Erro e.
Proof.
  induction pre as [|z pre IH]; intros H Hx.
  - cbn [app mapM]. rewrite Hx. reflexivity.
  - destruct (H z (or_introl eq_refl)) as [y Hy].
    cbn [app mapM]. rewrite Hy. cbn [mbind resultado_bind].
    rewrite (IH (λ w Hw, H w (or_intror Hw)) Hx). reflexivity.
Qed.

Lemma converter_data (linha : string) :
  (∀ d, to_datetime (strip (fatia linha 2 10)) = Ok d →
        ∃ c, converter Timestamp to_datetime to_numeric (registro linha) = Ok c
             ∧ campos _ c = registro linha ∧ data_pregao _ c = d)
  ∧ (∀ e, to_datetime (strip (fatia linha 2 10)) = Erro e →
          converter Timestamp to_datetime to_numeric (registro linha) = Erro e).
Proof.
  unfold converter.
  rewrite (campo_registro linha "data_pregao" 2 10) by (cbn; tauto).
  split.
  - intros d ->. eexists. split; [reflexivity|]. split; reflexivity.
  - intros e ->. reflexivity.
Qed.

(** X28: [processar_cotahist] raises [KeyError: 'data_pregao'] when no
    line of the file is of type [01] (the frame has no column), and it
    raises the error of [pd.to_datetime] for the first [01] line whose
    date cell it cannot read. *)
Theorem processar_cotahist_erros (linhas : list string) :
  ((∀ l, In l linhas → String.prefix "01" l = false) →
   processar_cotahist Timestamp to_datetime to_numeric data_leb linhas
   = Erro (KeyError "data_pregao"))
  ∧ (∀ pre l pos e,
       List.filter (String.prefix "01") linhas = pre ++ l :: pos →
       (∀ l', In l' pre → ∃ d, to_datetime (strip (fatia l' 2 10)) = Ok d) →
       to_datetime (strip (fatia l 2 10)) = Erro e →
       processar_cotahist Timestamp to_datetime to_numeric data_leb linhas = Erro e).
Proof.
  unfold processar_cotahist. rewrite dados_lidos. split.
  - intros H.
    assert (E : List.filter (String.prefix "01") linhas = []).
    { clear -H. induction linhas as [|l linhas IH]; [reflexivity|].
      cbn [List.filter]. rewrite (H l (or_introl eq_refl)).
      apply IH. intros l' Hl'. apply H. right. exact Hl'. }
    rewrite E. reflexivity.
  - intros pre l pos e -> Hpre Hl.
    rewrite map_app. cbn [map].
    rewrite (mapM_erro _ (map registro pre) (registro l) (map registro pos) e).
    + destruct (map registro pre); reflexivity.
    + intros z Hz. apply in_map_iff in Hz. destruct Hz as (l' & <- & Hl').
      destruct (Hpre l' Hl') as [d Hd].
      destruct (proj1 (converter_data l') d Hd) as (c & Hc & _). exists c. exact Hc.
    + apply (proj2 (converter_data l)). exact Hl.
Qed.

Lemma inserir_como_ordenado (c : Cotacao Timestamp) (l : list (Cotacao Timestamp)) :
  inserir Timestamp data_leb c l = inserir_ordenado (chave_leb Timestamp data_leb) c l.
Proof.
  induction l as [|d l IH]; [reflexivity|].
  cbn [inserir inserir_ordenado]. rewrite IH. reflexivity.
Qed.

Lemma sort_values_como_ordenar (l : list (Cotacao Timestamp)) :
  sort_values Timestamp data_leb l = ordenar (chave_leb Timestamp data_leb) l.
Proof.
  unfold sort_values, ordenar. induction l as [|c l IH]; [reflexivity|].
  cbn [foldr]. rewrite IH. apply inserir_como_ordenado.
Qed.

Lemma string_leb_trans (s1 s2 s3 : string) :
  String.leb s1 s2 = true → String.leb s2 s3 = true → String.leb s1 s3 = true.
Proof.
  intros H1 H2. apply Is_true_true. apply Is_true_true in H1, H2.
  exact (transitivity (R := String.le) H1 H2).
Qed.

Lemma chave_leb_ordem :
  (∀ d1 d2, data_leb d1 d2 = false → data_leb d2 d1 = true) →
  (∀ d1 d2 d3, data_leb d1 d2 = true → data_leb d2 d3 = true → data_leb d1 d3 = true) →
  (∀ a b, chave_leb Timestamp data_leb a b = false → chave_leb Timestamp data_leb b a = true)
  ∧ (∀ a b c, chave_leb Timestamp data_leb a b = true →
              chave_leb Timestamp data_leb b c = true →
              chave_leb Timestamp data_leb a c = true).
Proof.
  intros Htot Htr. unfold chave_leb. split.
  - intros a b.
    destruct (data_leb (data_pregao _ a) (data_pregao _ b)) eqn:Eab.
    + destruct (data_leb (data_pregao _ b) (data_pregao _ a)) eqn:Eba; [|discriminate].
      intros E. destruct (String.leb_total (ticker _ a) (ticker _ b)) as [H|H];
        [congruence | exact H].
    + intros _. rewrite (Htot _ _ Eab). reflexivity.
  - intros a b c.
    destruct (data_leb (data_pregao _ a) (data_pregao _ b)) eqn:Eab; [|discriminate].
    destruct (data_leb (data_pregao _ b) (data_pregao _ c)) eqn:Ebc;
      [|destruct (data_leb (data_pregao _ b) (data_pregao _ a)); discriminate].
    rewrite (Htr _ _ _ Eab Ebc).
    destruct (data_leb (data_pregao _ c) (data_pregao _ a)) eqn:Eca; [|reflexivity].
    rewrite (Htr _ _ _ Ebc Eca), (Htr _ _ _ Eca Eab).
    apply string_leb_trans.
Qed.

(** X29: when the file has a line of type [01] and the date cell of
    every such line is readable, [processar_cotahist] returns one row
    per [01] line (the other lines are skipped, numeric cells never make
    it fail), and the rows come sorted by date and then by ticker (for
    a date order that is total and transitive). *)
Theorem processar_cotahist_ordenado (linhas : list string) :
  (∀ d1 d2, data_leb d1 d2 = false → data_leb d2 d1 = true) →
  (∀ d1 d2 d3, data_leb d1 d2 = true → data_leb d2 d3 = true → data_leb d1 d3 = true) →
  List.filter (String.prefix "01") linhas ≠ [] →
  (∀ l, In l linhas → String.prefix "01" l = true →
        ∃ d, to_datetime (strip (fatia l 2 10)) = Ok d) →
  ∃ rows,
    processar_cotahist Timestamp to_datetime to_numeric data_leb linhas = Ok rows
    ∧ map (campos _) rows ≡ₚ map registro (List.filter (String.prefix "01") linhas)
    ∧ StronglySorted (λ a b, chave_leb Timestamp data_leb a b = true) rows.
Proof.
  intros Htot Htr Hne Hdatas.
  unfold processar_cotahist. rewrite dados_lidos.
  set (L := List.filter (String.prefix "01") linhas) in *.
  destruct (mapM_ok (converter Timestamp to_datetime to_numeric) (map registro L))
    as (ys & Hys & Hf).
  { intros z Hz. apply in_map_iff in Hz. destruct Hz as (l & <- & Hl).
    apply filter_In in Hl. destruct Hl as [Hl H01].
    destruct (Hdatas l Hl H01) as [d Hd].
    destruct (proj1 (converter_data l) d Hd) as (c & Hc & _). exists c. exact Hc. }
  exists (sort_values Timestamp data_leb ys).
  split; [|split].
  - destruct (map registro L) eqn:E; [destruct L; [congruence | discriminate]|].
    rewrite Hys. reflexivity.
  - rewrite sort_values_como_ordenar.
    rewrite (Permutation_map (campos Timestamp) (ordenar_perm _ ys)).
    assert (Hc : map (campos Timestamp) ys = map registro L).
    { clear -Hf. set (R := map registro L) in *. clearbody R.
      induction Hf as [|x y l l' Hxy _ IH]; [reflexivity|].
      cbn [map]. rewrite IH. f_equal.
      unfold converter in Hxy.
      destruct (to_datetime (campo x "data_pregao")); [|discriminate].
      cbn [mbind resultado_bind mret resultado_ret] in Hxy. injection Hxy as <-.
      reflexivity. }
    rewrite Hc. reflexivity.
  - rewrite sort_values_como_ordenar.
    destruct (chave_leb_ordem Htot Htr) as [Ht Hr].
    apply ordenar_sorted; assumption.
Qed.

End Cotahist_leitura.

Section Relatorio_instancias.
Import Optimizer DataProcessor Analise Exemplos.

(** The sector table of the purchase of A (Financeiro) and B (Energia). *)
Lemma dist_setor_totais_witness :
  ∃ d, dist_setor (carteira (solucao_de universo (resolvido compra_AB))) = Ok d
       ∧ somaQ (map ld_investimento d)
         == investimento_total (solucao_de universo (resolvido compra_AB))
       ∧ list_sum (map ld_num_ativos d) = num_ativos (solucao_de universo (resolvido compra_AB))
       ∧ NoDup (map ld_setor d)
       ∧ (∀ it, In it (linhas (carteira (solucao_de universo (resolvido compra_AB)))) →
                In (it_setor it) (map ld_setor d))
       ∧ StronglySorted (λ x y, ld_investimento y <= ld_investimento x) d.
Proof.
  exact (dist_setor_totais universo compra_AB (resolvido compra_AB) _ extracao_AB).
Defined.

Lemma dist_setor_percentuais_witness :
  ¬ investimento_total (solucao_de universo (resolvido compra_AB)) == 0
  ∧ ∃ d, dist_setor (carteira (solucao_de universo (resolvido compra_AB))) = Ok d
         ∧ length (finitos (map ld_percentual d)) = length d
         ∧ somaQ (finitos (map ld_percentual d)) == 1.
Proof.
  assert (Hnz : ¬ investimento_total (solucao_de universo (resolvido compra_AB)) == 0).
  { intros H. vm_compute in H. discriminate H. }
  split; [exact Hnz|].
  exact (dist_setor_percentuais universo compra_AB (resolvido compra_AB) _ extracao_AB Hnz).
Defined.

(** A file with a header, the PETR4 line and a trailer. *)
Lemma processar_cotahist_ordenado_witness :
  ∃ rows,
    processar_cotahist N to_datetime_digitos to_numeric_digitos N.leb
      ["00COTAHIST.2024"; linha_petr4; "99COTAHIST.2024"]%string = Ok rows
    ∧ map (campos _) rows
      ≡ₚ map registro (List.filter (String.prefix "01")
                         ["00COTAHIST.2024"; linha_petr4; "99COTAHIST.2024"]%string)
    ∧ StronglySorted (λ a b, chave_leb N N.leb a b = true) rows.
Proof.
  apply processar_cotahist_ordenado.
  - intros d1 d2 H. apply N.leb_gt in H. apply N.leb_le. lia.
  - intros d1 d2 d3 H1 H2. apply N.leb_le in H1, H2. apply N.leb_le. lia.
  - vm_compute. discriminate.
  - intros l [<-|[<-|[<-|[]]]] H01; try discriminate H01.
    eexists. vm_compute. reflexivity.
Defined.

End Relatorio_instancias.

(** ** Log returns *)

Section Log_retornos_linhas.
Import DataProcessor Retornos.

Context (Data : Type) (ln : Q → Q).

Lemma retorno_sem_anterior (linha : list flutuante) :
  alguma_definida (zip_with (retorno_celula ln) linha (map (λ _, NaN) linha)) = false.
Proof.
  unfold alguma_definida. induction linha as [|p linha IH]; [reflexivity|].
  cbn [map zip_with existsb]. rewrite IH.
  unfold retorno_celula. destruct p; reflexivity.
Qed.

Lemma variacoes_length anterior (df : list (Data * list flutuante)) :
  length (variacoes Data ln anterior df) = length df.
Proof.
  revert anterior. induction df as [|[d l] df IH]; intros anterior; [reflexivity|].
  cbn [variacoes length]. rewrite IH. reflexivity.
Qed.

Lemma variacoes_In anterior (df : list (Data * list flutuante)) d r :
  In (d, r) (variacoes Data ln anterior df)
  ↔ (∃ r1 resto, df = (d, r1) :: resto ∧ r = zip_with (retorno_celula ln) r1 anterior)
    ∨ ∃ pre d0 r0 r1 pos,
        df = pre ++ (d0, r0) :: (d, r1) :: pos ∧ r = zip_with (retorno_celula ln) r1 r0.
Proof.
  revert anterior. induction df as [|[d' l] df IH]; intros anterior.
  - cbn. split; [tauto|]. intros [(r1 & resto & E & _)|(pre & d0 & r0 & r1 & pos & E & _)].
    + discriminate.
    + destruct pre; discriminate.
  - cbn [variacoes In]. rewrite IH. split.
    + intros [E|[(r1 & resto & -> & ->)|(pre & d0 & r0 & r1 & pos & -> & ->)]].
      * injection E as -> <-. left. eexists _, _. split; reflexivity.
      * right. exists [], d', l, r1, resto. split; reflexivity.
      * right. exists ((d', l) :: pre), d0, r0, r1, pos. split; reflexivity.
    + intros [(r1 & resto & E & ->)|(pre & d0 & r0 & r1 & pos & E & ->)].
      * injection E as -> -> _. left. reflexivity.
      * right. destruct pre as [|x pre]; cbn [app] in E.
        -- injection E as -> -> E2. left. eexists _, _. split; [exact E2 | reflexivity].
        -- injection E as _ E2. right. exists pre, d0, r0, r1, pos.
           split; [exact E2 | reflexivity].
Qed.

(** X30: [calcular_retornos] never keeps the first date of the price
    frame, so it returns fewer rows than there are dates; each row it
    returns is the row of a date set against the row just above it, and
    such a row is kept as soon as one of its cells is defined.  A cell
    is missing when either price is missing (no price is carried
    forward) and is the finite [ln (p / q)] for two positive prices. *)
Theorem calcular_retornos_linhas (df_precos : list (Data * list flutuante)) :
  (length (calcular_retornos Data ln df_precos) ≤ length df_precos - 1)%nat
  ∧ (∀ d r, In (d, r) (calcular_retornos Data ln df_precos) →
       ∃ pre d0 r0 r1 pos,
         df_precos = pre ++ (d0, r0) :: (d, r1) :: pos
         ∧ r = zip_with (retorno_celula ln) r1 r0)
  ∧ (∀ pre d0 r0 d r1 pos,
       df_precos = pre ++ (d0, r0) :: (d, r1) :: pos →
       alguma_definida (zip_with (retorno_celula ln) r1 r0) = true →
       In (d, zip_with (retorno_celula ln) r1 r0) (calcular_retornos Data ln df_precos))
  ∧ (∀ p, retorno_celula ln p NaN = NaN ∧ retorno_celula ln NaN p = NaN)
  ∧ (∀ p q, 0 < p → 0 < q → retorno_celula ln (Fin p) (Fin q) = Fin (ln (p / q))).
Proof.
  unfold calcular_retornos, log_retornos.
  split; [|split; [|split; [|split]]].
  - destruct df_precos as [|[d l] df]; [cbn; lia|].
    cbn [variacoes List.filter snd]. rewrite retorno_sem_anterior.
    etrans; [apply filter_length_le|]. rewrite variacoes_length. cbn [length]. lia.
  - intros d r Hin. apply filter_In in Hin. destruct Hin as [Hin Hdef].
    destruct df_precos as [|[d' l] df]; [destruct Hin|].
    apply variacoes_In in Hin.
    destruct Hin as [(r1 & resto & E & ->)|H]; [|exact H].
    injection E as -> -> _. cbn [snd] in Hdef.
    rewrite retorno_sem_anterior in Hdef. discriminate.
  - intros pre d0 r0 d r1 pos -> Hdef. apply filter_In. split; [|exact Hdef].
    destruct (pre ++ (d0, r0) :: (d, r1) :: pos) as [|[d' l] df] eqn:E;
      [destruct pre; discriminate|].
    rewrite <- E. apply variacoes_In. right. exists pre, d0, r0, r1, pos.
    split; reflexivity.
  - intros p. unfold retorno_celula. destruct p; split; reflexivity.
  - intros p q Hp Hq. unfold retorno_celula, fdiv, flog.
    assert (E0 : Qeq_bool q 0 = false).
    { destruct (Qeq_bool q 0) eqn:E; [apply Qeq_bool_iff in E; lra | reflexivity]. }
    rewrite E0.
    assert (Hpq : 0 < p / q) by (apply Qlt_shift_div_l; lra).
    apply Qlt_bool_iff in Hpq. rewrite Hpq. reflexivity.
Qed.

End Log_retornos_linhas.
